(** * ExcelDashAnalyze: type inference, column statistics, chart projection

    A shallow embedding of the analysis functions of the repository:

    - [Server.calculateColumnStatistics], [Server.calculateSummaryStats]
      (the upload route, server/routes.ts), with the rows the route builds
      from a sheet ([Server.row_object], [Server.processSheet]) and the
      chart data route ([Server.chartData]);
    - the storage in memory, [Storage.MemStorage] and its methods
      (server/storage.ts);
    - [ChartUtils.prepareBarChartData], [ChartUtils.prepareLineChartData],
      [ChartUtils.preparePieChartData], [ChartUtils.prepareScatterData],
      [ChartUtils.getOptimalChartType], [ChartUtils.generateChartTitle]
      (client/src/lib/chart-utils.ts);
    - [ExcelUtils.detectColumnType], [ExcelUtils.calculateColumnStatistics],
      [ExcelUtils.generateChartData] and the text of
      [ExcelUtils.exportToCSV_text] (the client's excel utilities);
    - the calls of these functions with the errors their operations raise,
      on data arrays that may hold [null] in the place of a row ([Call]).

    JavaScript numbers are IEEE-754 binary64 values: they are modelled by
    Rocq's primitive floats, so that every arithmetic step of the source
    rounds as it does when the program runs.  Cell values are a tagged
    union of the raw values a sheet can hold. *)

From Stdlib Require Import ZArith QArith Floats Uint63 Bool List Ascii String Lia.
From Stdlib Require Import DecimalString.
From Stdlib Require Import Permutation Sorted.
From stdpp Require Import base option list strings gmap.
Import ListNotations.

#[local] Set Warnings "-inexact-float".

Local Open Scope list_scope.
Local Open Scope string_scope.
Local Open Scope Z_scope.

(** ** JavaScript values and primitive operations *)

Module Js.

(** A cell of a sheet: [null], [undefined] (an absent property), a boolean,
    a number, a string, or a [Date] object.  A [Date] carries its object
    identity (two objects with the same time are different members of a
    [Set]) and its time value ([NaN] for an invalid date).

    [JInherited name] is what a row that has no property [name] of its own
    yields when [name] is a name of [Object.prototype]: the built-in
    function of that name ([Object] itself for [constructor]), or the
    prototype object for [__proto__]. *)
Inductive any : Type :=
| JNull
| JUndefined
| JBool (b : bool)
| JNum (x : float)
| JStr (s : string)
| JDate (ref : nat) (time : float)
| JInherited (name : string).

(** What the language leaves to the implementation, or what is too long to
    spell out here, is a parameter of the development: the digits of a
    number that is not a safe integer, the text of a date, the parsing of a
    date from a string, the text of the value inherited under a name of
    [Object.prototype] (the source text the implementation gives a built-in
    function), and the most arguments a call can pass when an array is
    spread into it. *)
Record Host : Type := {
  Number_fraction_toString : float -> string;
  Date_toString : float -> string;
  Date_parse : string -> float;
  Inherited_toString : string -> string;
  Max_arguments : nat
}.

(** What a call can end with instead of a value: the errors of the
    language that the operations of the engine raise, and the two errors
    the specification names. *)
Inductive Error : Type :=
| TypeError
| RangeError
| StructuralInputError
| UnknownColumnError.

(** How a call ends. *)
Inductive Completion (A : Type) : Type :=
| Returns (a : A)
| Throws (e : Error).
Arguments Returns {A} a.
Arguments Throws {A} e.

(** *** Numbers *)

Definition is_nan (x : float) : bool := negb (PrimFloat.eqb x x).
Definition is_zero (x : float) : bool := PrimFloat.eqb x 0%float.

(** An integer as a number, rounded to nearest (exact below 2^53). *)
Definition Z_to_number (z : Z) : float :=
  SF2Prim (binary_normalize prec emax z 0 false).

(** The length of an array as a number. *)
Definition nat_to_number (n : nat) : float :=
  PrimFloat.of_uint63 (Uint63.of_Z (Z.of_nat n)).

(** The integer a finite number denotes, when it denotes one. *)
Definition number_to_Z (x : float) : option Z :=
  match Prim2SF x with
  | S754_zero _ => Some 0
  | S754_finite s m e =>
      let a := if s then Z.neg m else Z.pos m in
      if 0 <=? e then Some (a * 2 ^ e)
      else if (a mod 2 ^ (- e)) =? 0 then Some (a / 2 ^ (- e)) else None
  | _ => None
  end.

Definition Z_to_string (z : Z) : string := NilZero.string_of_int (Z.to_int z).
Definition nat_to_string (n : nat) : string := Z_to_string (Z.of_nat n).

(** [Number::toString]: the special values, then the safe integers in plain
    decimal digits; the remaining numbers are printed by the host. *)
Definition Number_toString (h : Host) (x : float) : string :=
  if is_nan x then "NaN"
  else match Prim2SF x with
       | S754_infinity false => "Infinity"
       | S754_infinity true => "-Infinity"
       | _ =>
           match number_to_Z x with
           | Some z =>
               if Z.abs z <=? 2 ^ 53 then Z_to_string z
               else Number_fraction_toString h x
           | None => Number_fraction_toString h x
           end
       end.

(** [Math.round]: the nearest integer, ties towards +infinity; a value in
    [-0.5, 0) rounds to -0. *)
Definition Math_round (x : float) : float :=
  match Prim2SF x with
  | S754_finite s m e =>
      if 0 <=? e then x
      else
        let a := if s then Z.neg m else Z.pos m in
        let r := (2 * a + 2 ^ (- e)) / 2 ^ (1 - e) in
        if (r =? 0) && s then (- 0)%float else Z_to_number r
  | _ => x
  end.

Definition Math_sqrt (x : float) : float := PrimFloat.sqrt x.

(** [Math.pow(x, 2)], taken as the correctly rounded square. *)
Definition Math_pow2 (x : float) : float := (x * x)%float.

(** *** Strings *)

Definition string_to_list (s : string) : list ascii := list_ascii_of_string s.
Definition list_to_string (l : list ascii) : string := string_of_list_ascii l.

Definition code (c : ascii) : N := N_of_ascii c.

(** White space and line terminators among the code units below 256. *)
Definition is_whitespace (c : ascii) : bool :=
  let n := code c in
  ((9 <=? n) && (n <=? 13) || (n =? 32) || (n =? 160))%N.

Definition is_digit (c : ascii) : bool :=
  let n := code c in ((48 <=? n) && (n <=? 57))%N.

Definition digit_value (c : ascii) : Z := Z.of_N (code c) - 48.

(** [String.prototype.toLowerCase] on the code units below 256. *)
Definition lower_char (c : ascii) : ascii :=
  let n := code c in
  if ((65 <=? n) && (n <=? 90) ||
      (192 <=? n) && (n <=? 222) && negb (n =? 215))%N
  then ascii_of_N (n + 32) else c.

Definition toLowerCase (s : string) : string :=
  list_to_string (map lower_char (string_to_list s)).

(** [s.replace(/[$,]/g, '')]. *)
Definition strip_dollar_comma (s : string) : string :=
  list_to_string
    (List.filter (fun c => negb ((code c =? 36) || (code c =? 44))%N)
       (string_to_list s)).

Fixpoint drop_whitespace (l : list ascii) : list ascii :=
  match l with
  | c :: l' => if is_whitespace c then drop_whitespace l' else l
  | [] => []
  end.

(** The longest run of decimal digits at the head of [l], and the rest. *)
Fixpoint span_digits (l : list ascii) : list ascii * list ascii :=
  match l with
  | c :: l' =>
      if is_digit c
      then let '(ds, rest) := span_digits l' in (c :: ds, rest)
      else ([], l)
  | [] => ([], [])
  end.

Definition digits_value (ds : list ascii) : Z :=
  fold_left (fun acc c => 10 * acc + digit_value c) ds 0.

(** The number denoted by the decimal [m * 10^e] with sign [neg], correctly
    rounded. *)
Definition decimal_to_number (neg : bool) (m e : Z) : float :=
  match m with
  | Zpos p =>
      if 0 <=? e
      then SF2Prim (binary_normalize prec emax
                      ((if neg then Z.neg p else Z.pos p) * 10 ^ e) 0 false)
      else match 10 ^ (- e) with
           | Zpos q =>
               SF2Prim (SFdiv prec emax (S754_finite neg p 0)
                                         (S754_finite false q 0))
           | _ => PrimFloat.nan
           end
  | _ => if neg then (- 0)%float else 0%float
  end.

Definition starts_with (p l : list ascii) : option (list ascii) :=
  if decide (firstn (List.length p) l = p)
  then Some (skipn (List.length p) l) else None.

(** An exponent part [e], [E] followed by an optional sign and at least one
    digit; when the digits are missing the exponent part is not consumed. *)
Definition parse_exponent (l : list ascii) : Z * list ascii :=
  match l with
  | c :: l1 =>
      if ((code c =? 101) || (code c =? 69))%N then
        let '(neg, l2) :=
          match l1 with
          | s :: l2 =>
              if (code s =? 45)%N then (true, l2)
              else if (code s =? 43)%N then (false, l2)
              else (false, l1)
          | [] => (false, l1)
          end in
        let '(ds, rest) := span_digits l2 in
        match ds with
        | [] => (0, l)
        | _ => ((if neg then - digits_value ds else digits_value ds), rest)
        end
      else (0, l)
  | [] => (0, l)
  end.

(** The longest prefix of [l] that is a [StrDecimalLiteral], as a number,
    with the unread rest; [None] when no prefix is one. *)
Definition parse_decimal_prefix (l : list ascii) : option (float * list ascii) :=
  let '(neg, l1) :=
    match l with
    | s :: l1 =>
        if (code s =? 45)%N then (true, l1)
        else if (code s =? 43)%N then (false, l1)
        else (false, l)
    | [] => (false, l)
    end in
  match starts_with (string_to_list "Infinity") l1 with
  | Some rest =>
      Some ((if neg then PrimFloat.neg_infinity else PrimFloat.infinity), rest)
  | None =>
      let '(ip, l2) := span_digits l1 in
      let '(fp, l3) :=
        match l2 with
        | d :: l2' =>
            if (code d =? 46)%N then span_digits l2' else ([], l2)
        | [] => ([], l2)
        end in
      let dot_taken :=
        match l2 with
        | d :: _ => (code d =? 46)%N
        | [] => false
        end in
      match ip, fp with
      | [], [] => None
      | _, _ =>
          let after := if dot_taken then l3 else l2 in
          let '(ex, rest) := parse_exponent after in
          Some (decimal_to_number neg (digits_value (ip ++ fp))
                  (ex - Z.of_nat (List.length fp)), rest)
      end
  end.

(** [parseFloat] on a string. *)
Definition parseFloat_string (s : string) : float :=
  match parse_decimal_prefix (drop_whitespace (string_to_list s)) with
  | Some (x, _) => x
  | None => PrimFloat.nan
  end.

(** Digits of a literal in radix 2, 8 or 16 ([0b], [0o], [0x]). *)
Definition radix_digit (c : ascii) : option Z :=
  let n := code c in
  if ((48 <=? n) && (n <=? 57))%N then Some (Z.of_N n - 48)
  else if ((97 <=? n) && (n <=? 102))%N then Some (Z.of_N n - 87)
  else if ((65 <=? n) && (n <=? 70))%N then Some (Z.of_N n - 55)
  else None.

Fixpoint radix_value (b : Z) (l : list ascii) (acc : Z) : option Z :=
  match l with
  | [] => Some acc
  | c :: l' =>
      match radix_digit c with
      | Some d => if d <? b then radix_value b l' (b * acc + d) else None
      | None => None
      end
  end.

Definition radix_literal (l : list ascii) : option float :=
  match l with
  | z :: r :: (_ :: _) as ds =>
      if (code z =? 48)%N then
        let b := if ((code r =? 120) || (code r =? 88))%N then 16
                 else if ((code r =? 111) || (code r =? 79))%N then 8
                 else if ((code r =? 98) || (code r =? 66))%N then 2
                 else 0 in
        if b =? 0 then None
        else option_map Z_to_number (radix_value b ds 0)
      else None
  | _ => None
  end.

(** [StringToNumber]: the whole string, white space trimmed, must be a
    numeric literal; the empty string is 0. *)
Definition StringToNumber (s : string) : float :=
  let l := rev (drop_whitespace (rev (drop_whitespace (string_to_list s)))) in
  match l with
  | [] => 0%float
  | _ =>
      match radix_literal l with
      | Some x => x
      | None =>
          match parse_decimal_prefix l with
          | Some (x, []) => x
          | _ => PrimFloat.nan
          end
      end
  end.

(** *** Conversions and operators on values *)

Section WithHost.
Context (h : Host).

(** [v !== null && v !== undefined && v !== ''] *)
Definition is_present (v : any) : bool :=
  match v with
  | JNull | JUndefined => false
  | JStr s => negb (String.eqb s "")
  | _ => true
  end.

Definition is_string (v : any) : bool :=
  match v with JStr _ => true | _ => false end.

(** Truthiness, as tested by [||]. *)
Definition ToBoolean (v : any) : bool :=
  match v with
  | JNull | JUndefined => false
  | JBool b => b
  | JNum x => negb (is_zero x || is_nan x)
  | JStr s => negb (String.eqb s "")
  | JDate _ _ => true
  | JInherited _ => true
  end.

(** [String(v)], also the property key [v] denotes. *)
Definition ToString (v : any) : string :=
  match v with
  | JNull => "null"
  | JUndefined => "undefined"
  | JBool true => "true"
  | JBool false => "false"
  | JNum x => Number_toString h x
  | JStr s => s
  | JDate _ t => Date_toString h t
  | JInherited name => Inherited_toString h name
  end.

(** The text of a built-in function begins with [function], and the text
    of the prototype object is [[object Object]]: neither is a numeric
    literal, nor has one a decimal prefix. *)
Definition ToNumber (v : any) : float :=
  match v with
  | JNull => 0%float
  | JUndefined => PrimFloat.nan
  | JBool true => 1%float
  | JBool false => 0%float
  | JNum x => x
  | JStr s => StringToNumber s
  | JDate _ t => t
  | JInherited _ => PrimFloat.nan
  end.

(** The global [isNaN]. *)
Definition isNaN (v : any) : bool := is_nan (ToNumber v).

(** [parseFloat(v)] converts [v] to a string and reads a decimal prefix.
    The digits [Number::toString] prints for a number read back as that
    number, so a number is its own parse, except that -0 prints as "0". *)
Definition parseFloat (v : any) : float :=
  match v with
  | JNum x => if is_zero x then 0%float else x
  | JStr s => parseFloat_string s
  | JDate _ t => parseFloat_string (Date_toString h t)
  | JNull | JUndefined | JBool _ | JInherited _ => PrimFloat.nan
  end.

(** [x || 0] on a number: 0, -0 and NaN are falsy. *)
Definition or_zero (x : float) : float :=
  if is_zero x || is_nan x then 0%float else x.

(** [a + b]: an operand that is an object (a [Date], an inherited value)
    becomes its text, and the sum of a string and anything is a
    concatenation. *)
Definition ToPrimitive (v : any) : any :=
  match v with
  | JDate _ t => JStr (Date_toString h t)
  | JInherited name => JStr (Inherited_toString h name)
  | _ => v
  end.

Definition js_add (a b : any) : any :=
  let pa := ToPrimitive a in
  let pb := ToPrimitive b in
  if is_string pa || is_string pb
  then JStr (ToString pa ++ ToString pb)
  else JNum (ToNumber pa + ToNumber pb)%float.

(** [SameValueZero], the equality of [Set] members. *)
Definition sameValueZero (a b : any) : bool :=
  match a, b with
  | JNull, JNull => true
  | JUndefined, JUndefined => true
  | JBool x, JBool y => Bool.eqb x y
  | JNum x, JNum y => PrimFloat.eqb x y || (is_nan x && is_nan y)
  | JStr x, JStr y => String.eqb x y
  | JDate r1 _, JDate r2 _ => Nat.eqb r1 r2
  | JInherited n1, JInherited n2 => String.eqb n1 n2
  | _, _ => false
  end.

(** The members of [new Set(l)], in insertion order. *)
Fixpoint Set_members (l : list any) : list any :=
  match l with
  | [] => []
  | x :: l' =>
      x :: List.filter (fun y => negb (sameValueZero x y)) (Set_members l')
  end.

Definition Set_size (l : list any) : nat := List.length (Set_members l).

End WithHost.

(** *** Arrays *)

(** [a.slice(0, limit)] for an integer [limit]: a negative limit counts
    from the end. *)
Definition slice0 {A} (limit : Z) (a : list A) : list A :=
  if limit <? 0
  then firstn (Z.to_nat (Z.of_nat (List.length a) + limit)) a
  else firstn (Z.to_nat limit) a.

(** [Array.prototype.sort] is stable; [gt x y] says that the comparator is
    positive on [(x, y)], that is, that [y] must come first. *)
Fixpoint sort_insert {A} (gt : A -> A -> bool) (x : A) (l : list A) : list A :=
  match l with
  | [] => [x]
  | y :: l' => if gt x y then y :: sort_insert gt x l' else x :: l
  end.

Definition sort {A} (gt : A -> A -> bool) (l : list A) : list A :=
  fold_right (sort_insert gt) [] l.

(** [a.map((x, index) => f x index)] *)
Fixpoint mapi_from {A B} (i : nat) (f : A -> nat -> B) (l : list A) : list B :=
  match l with
  | [] => []
  | x :: l' => f x i :: mapi_from (S i) f l'
  end.

Definition mapi {A B} (f : A -> nat -> B) (l : list A) : list B :=
  mapi_from 0 f l.

(** *** Objects used as dictionaries *)

(** The own properties of an object literal [{}] filled by assignment, in
    the order of their creation. *)
Definition object (V : Type) : Type := list (string * V).

Fixpoint obj_get {V} (o : object V) (k : string) : option V :=
  match o with
  | [] => None
  | (k', v) :: o' => if String.eqb k' k then Some v else obj_get o' k
  end.

(** [o[k] = v]: an existing property keeps its place, a new one is added
    last. *)
Fixpoint obj_set {V} (o : object V) (k : string) (v : V) : object V :=
  match o with
  | [] => [(k, v)]
  | (k', v') :: o' =>
      if String.eqb k' k then (k', v) :: o' else (k', v') :: obj_set o' k v
  end.

(** An array index is the canonical decimal form of an integer below
    2^32 - 1. *)
Definition array_index (k : string) : option Z :=
  let l := string_to_list k in
  match l with
  | [] => None
  | c :: l' =>
      if forallb is_digit l
         && negb ((code c =? 48)%N && negb (Nat.eqb (List.length l') 0))
         && (Nat.leb (List.length l) 10)
      then let n := digits_value l in
           if n <? 2 ^ 32 - 1 then Some n else None
      else None
  end.

Definition is_array_index (k : string) : bool :=
  match array_index k with Some _ => true | None => false end.

Definition index_of (k : string) : Z :=
  match array_index k with Some n => n | None => 0 end.

(** [Object.entries(o)]: the array indices in ascending order, then the
    other keys in the order of their creation. *)
Definition entries {V} (o : object V) : list (string * V) :=
  sort (fun a b => index_of (fst b) <? index_of (fst a))
       (List.filter (fun e => is_array_index (fst e)) o)
  ++ List.filter (fun e => negb (is_array_index (fst e))) o.

Definition keys {V} (o : object V) : list string := map fst (entries o).
Definition values {V} (o : object V) : list V := map snd (entries o).

(** The names an object literal inherits from [Object.prototype]: reading
    such a key from an empty object does not yield [undefined]. *)
Definition inherited_names : list string :=
  [ "constructor"; "hasOwnProperty"; "isPrototypeOf"; "propertyIsEnumerable";
    "toLocaleString"; "toString"; "valueOf"; "__proto__";
    "__defineGetter__"; "__defineSetter__"; "__lookupGetter__";
    "__lookupSetter__" ].

Definition is_inherited (k : string) : bool :=
  existsb (String.eqb k) inherited_names.

End Js.

(** ** The data model *)

(** A row record: a mapping from column names to cells, the own properties
    of an object whose prototype is [Object.prototype].  [cell r column] is
    [row[column]]: the own property when the row has one, else what the
    prototype has under that name, else [undefined]. *)
Abbreviation row := (gmap string Js.any).

Definition cell (r : row) (column : string) : Js.any :=
  match r !! column with
  | Some v => v
  | None =>
      if Js.is_inherited column then Js.JInherited column else Js.JUndefined
  end.

Module Model.

(** The statistics of one column.  The optional fields are the properties
    the returned object may lack. *)
Record ColumnProfile : Type := {
  count : nat;
  nullCount : nat;
  uniqueCount : nat;
  mean : option float;
  min : option Js.any;
  max : option Js.any;
  range : option float;
  median : option Js.any;
  variance : option float;
  standardDeviation : option float;
  mode : option Js.any;
  averageLength : option float
}.

Record DatasetSummary : Type := {
  totalRecords : nat;
  totalColumns : nat;
  numericColumns : nat;
  textColumns : nat;
  missingValues : nat;
  dataQuality : float
}.

Record ChartDataPoint : Type := {
  name : string;
  value : float;
  x : option float;
  y : option float
}.

Inductive ChartType : Type := bar | line | pie | scatter.

Inductive ColumnType : Type := text | number | date | boolean.

(** The analysis stored with a sheet: [{ columns: columnStats, summary:
    summaryStats }]. *)
Record Statistics : Type := {
  columns : gmap string ColumnProfile;
  summary : DatasetSummary
}.

End Model.

(** ** Helpers shared by the two statistics implementations *)

Module Stats.
Import Js.

Section WithHost.
Context (h : Host).

(** [values.filter(v => v !== null && v !== undefined && v !== '')] *)
Definition nonNull (values : list any) : list any :=
  List.filter is_present values.

(** The frequency table built by
    [reduce((acc, val) => { acc[k] = (acc[k] || 0) + 1; return acc }, {})],
    [k] being the property key of [val].  The table holds own properties
    only: a key that is a name inherited from [Object.prototype] is outside
    this model (see [Js.is_inherited]). *)
Definition count_key (acc : object nat) (k : string) : object nat :=
  obj_set acc k (S (default 0%nat (obj_get acc k))).

Definition frequencies (ks : list string) : object nat :=
  fold_left count_key ks [].

(** [Math.max(...Object.values(counts))], compared with the counts of a
    non-empty table only. *)
Definition maxCount (counts : object nat) : nat :=
  fold_right Nat.max 0%nat (Js.values counts).

(** [Object.keys(counts).find(key => counts[key] === maxCount)] *)
Definition find_mode (counts : object nat) : any :=
  match List.find (fun k => match obj_get counts k with
                            | Some c => Nat.eqb c (maxCount counts)
                            | None => false
                            end) (Js.keys counts) with
  | Some k => JStr k
  | None => JUndefined
  end.

(** The comparator [(a, b) => a - b] is positive. *)
Definition gt_number (a b : any) : bool :=
  PrimFloat.ltb 0%float (ToNumber a - ToNumber b)%float.

(** [numericValues.reduce((acc, val) => acc + val, 0)] *)
Definition sum_values (l : list any) : any :=
  fold_left (js_add h) l (JNum 0%float).

(** [reduce((acc, val) => acc + Math.pow(val - mean, 2), 0)] *)
Definition sum_squares (m : float) (l : list any) : float :=
  fold_left (fun acc val => (acc + Math_pow2 (ToNumber val - m))%float)
            l 0%float.

Definition at_index (l : list any) (i : nat) : any :=
  nth i l JUndefined.

(** The median expression over the sorted array, [mid] being
    [Math.floor(sorted.length / 2)]. *)
Definition median_of (sorted : list any) : any :=
  let mid := Nat.div (List.length sorted) 2 in
  if Nat.eqb (Nat.modulo (List.length sorted) 2) 0
  then JNum (ToNumber (js_add h (at_index sorted (mid - 1)) (at_index sorted mid))
             / 2)%float
  else at_index sorted mid.

End WithHost.
End Stats.

(** ** The server: storage in memory (server/storage.ts) *)

Module Storage.
Import Js Model.

(** *** A [Map] with string keys

    The entries in the order of their insertion, no key twice.  [get] and
    [set] are [obj_get] and [obj_set]: [set] on a key of the map keeps the
    place of the entry.  [Map_delete] also says whether the key was
    there. *)
Fixpoint Map_delete {V} (m : object V) (k : string) : object V * bool :=
  match m with
  | [] => ([], false)
  | (k', v) :: m' =>
      if String.eqb k' k then (m', true)
      else let '(m'', found) := Map_delete m' k in ((k', v) :: m'', found)
  end.

Definition Map_values {V} (m : object V) : list V := map snd m.

(** *** The records of shared/schema.ts *)

Module InsertExcelFile.
Record t : Type := {
  filename : string;
  originalName : string;
  size : Z;
  mimeType : string
}.
End InsertExcelFile.

(** [uploadedAt] and [createdAt] are dates made by [new Date()]: they are
    represented by their time value, an integer of milliseconds. *)
Module ExcelFile.
Record t : Type := {
  id : string;
  filename : string;
  originalName : string;
  size : Z;
  mimeType : string;
  uploadedAt : Z
}.
End ExcelFile.

(** [statistics] is [None] when the property is [null] or absent. *)
Module InsertExcelData.
Record t : Type := {
  fileId : string;
  sheetName : string;
  headers : list string;
  data : list row;
  rowCount : nat;
  columnCount : nat;
  statistics : option Statistics
}.
End InsertExcelData.

Module ExcelData.
Record t : Type := {
  id : string;
  fileId : string;
  sheetName : string;
  headers : list string;
  data : list row;
  rowCount : nat;
  columnCount : nat;
  statistics : option Statistics;
  createdAt : Z
}.
End ExcelData.

(** *** [MemStorage]

    The two private maps are the state; every method takes the state and
    gives the state after it with its result.  The identifier that
    [randomUUID()] returns and the time of [new Date()] are arguments. *)
Record MemStorage : Type := {
  excelFiles : object ExcelFile.t;
  excelData : object ExcelData.t
}.

(** The constructor. *)
Definition empty : MemStorage := {| excelFiles := []; excelData := [] |}.

Definition createExcelFile (st : MemStorage) (insertFile : InsertExcelFile.t)
    (id : string) (now : Z) : MemStorage * ExcelFile.t :=
  let file :=
    {| ExcelFile.id := id;
       ExcelFile.filename := InsertExcelFile.filename insertFile;
       ExcelFile.originalName := InsertExcelFile.originalName insertFile;
       ExcelFile.size := InsertExcelFile.size insertFile;
       ExcelFile.mimeType := InsertExcelFile.mimeType insertFile;
       ExcelFile.uploadedAt := now |} in
  ({| excelFiles := obj_set (excelFiles st) id file;
      excelData := excelData st |}, file).

Definition getExcelFile (st : MemStorage) (id : string) : option ExcelFile.t :=
  obj_get (excelFiles st) id.

(** The comparator [(a, b) => b.uploadedAt.getTime() - a.uploadedAt.getTime()]
    is positive when [b] is the later one (the difference of two time
    values may be rounded, its sign is not). *)
Definition later_first (a b : ExcelFile.t) : bool :=
  ExcelFile.uploadedAt a <? ExcelFile.uploadedAt b.

Definition getAllExcelFiles (st : MemStorage) : list ExcelFile.t :=
  sort later_first (Map_values (excelFiles st)).

(** [Array.from(this.excelData.values()).filter(d => d.fileId === fileId)] *)
Definition getExcelData (st : MemStorage) (fileId : string) : list ExcelData.t :=
  List.filter (fun d => String.eqb (ExcelData.fileId d) fileId)
              (Map_values (excelData st)).

(** [dataEntries.forEach(d => this.excelData.delete(d.id))] *)
Definition delete_entries (m : object ExcelData.t) (dataEntries : list ExcelData.t)
  : object ExcelData.t :=
  fold_left (fun m d => fst (Map_delete m (ExcelData.id d))) dataEntries m.

Definition deleteExcelFile (st : MemStorage) (id : string) : MemStorage * bool :=
  let dataEntries := getExcelData st id in
  let data' := delete_entries (excelData st) dataEntries in
  let '(files', existed) := Map_delete (excelFiles st) id in
  ({| excelFiles := files'; excelData := data' |}, existed).

Definition createExcelData (st : MemStorage) (insertData : InsertExcelData.t)
    (id : string) (now : Z) : MemStorage * ExcelData.t :=
  let data :=
    {| ExcelData.id := id;
       ExcelData.fileId := InsertExcelData.fileId insertData;
       ExcelData.sheetName := InsertExcelData.sheetName insertData;
       ExcelData.headers := InsertExcelData.headers insertData;
       ExcelData.data := InsertExcelData.data insertData;
       ExcelData.rowCount := InsertExcelData.rowCount insertData;
       ExcelData.columnCount := InsertExcelData.columnCount insertData;
       ExcelData.statistics := InsertExcelData.statistics insertData;
       ExcelData.createdAt := now |} in
  ({| excelFiles := excelFiles st;
      excelData := obj_set (excelData st) id data |}, data).

Definition getExcelDataById (st : MemStorage) (id : string) : option ExcelData.t :=
  obj_get (excelData st) id.

(** [deleted] is set by every pass of the [forEach]. *)
Definition deleteExcelData (st : MemStorage) (fileId : string) : MemStorage * bool :=
  let dataEntries := getExcelData st fileId in
  let '(data', deleted) :=
    fold_left (fun (acc : object ExcelData.t * bool) d =>
                 (fst (Map_delete (fst acc) (ExcelData.id d)), true))
              dataEntries (excelData st, false) in
  ({| excelFiles := excelFiles st; excelData := data' |}, deleted).

(** [{ ...data, statistics }] *)
Definition with_statistics (d : ExcelData.t) (statistics : option Statistics)
  : ExcelData.t :=
  {| ExcelData.id := ExcelData.id d;
     ExcelData.fileId := ExcelData.fileId d;
     ExcelData.sheetName := ExcelData.sheetName d;
     ExcelData.headers := ExcelData.headers d;
     ExcelData.data := ExcelData.data d;
     ExcelData.rowCount := ExcelData.rowCount d;
     ExcelData.columnCount := ExcelData.columnCount d;
     ExcelData.statistics := statistics;
     ExcelData.createdAt := ExcelData.createdAt d |}.

Definition updateExcelDataStatistics (st : MemStorage) (id : string)
    (statistics : option Statistics) : MemStorage * option ExcelData.t :=
  match obj_get (excelData st) id with
  | Some data =>
      let updated := with_statistics data statistics in
      ({| excelFiles := excelFiles st;
          excelData := obj_set (excelData st) id updated |}, Some updated)
  | None => (st, None)
  end.

End Storage.

(** ** The server: statistics computed at upload (server/routes.ts) *)

Module Server.
Import Js Stats Model.

Section WithHost.
Context (h : Host).

(** [nonNullValues.map(v => typeof v === 'string' ? parseFloat(v) : v)
       .filter(v => !isNaN(v))] *)
Definition numericValues (values : list any) : list any :=
  List.filter (fun v => negb (isNaN v))
    (map (fun v => match v with
                   | JStr s => JNum (parseFloat_string s)
                   | _ => v
                   end) (nonNull values)).

Definition baseStats (values : list any) : ColumnProfile :=
  {| count := List.length values;
     nullCount := List.length values - List.length (nonNull values);
     uniqueCount := Set_size (nonNull values);
     mean := None; min := None; max := None; range := None; median := None;
     variance := None; standardDeviation := None;
     mode := None; averageLength := None |}.

Definition calculateColumnStatistics (values : list any) (columnName : string)
  : ColumnProfile :=
  let nonNullValues := nonNull values in
  let numericValues := numericValues values in
  let stats := baseStats values in
  if Nat.ltb 0 (List.length numericValues) then
    let sorted := sort gt_number numericValues in
    let sum := sum_values h numericValues in
    let n := nat_to_number (List.length numericValues) in
    let mean_ := (ToNumber sum / n)%float in
    let min_ := at_index sorted 0 in
    let max_ := at_index sorted (List.length sorted - 1) in
    let variance_ := (sum_squares mean_ numericValues / n)%float in
    {| count := count stats;
       nullCount := nullCount stats;
       uniqueCount := uniqueCount stats;
       mean := Some mean_;
       min := Some min_;
       max := Some max_;
       range := Some (ToNumber max_ - ToNumber min_)%float;
       median := Some (median_of h sorted);
       variance := Some variance_;
       standardDeviation := Some (Math_sqrt variance_);
       mode := None; averageLength := None |}
  else if Nat.ltb 0 (List.length nonNullValues) then
    let counts := frequencies (map (ToString h) nonNullValues) in
    {| count := count stats;
       nullCount := nullCount stats;
       uniqueCount := uniqueCount stats;
       mean := None; min := None; max := None; range := None; median := None;
       variance := None; standardDeviation := None;
       mode := Some (find_mode counts);
       averageLength := None |}
  else stats.

(** One pass of [headers.forEach]: the counters after the column [header]. *)
Definition summary_step (data : list row) (acc : nat * nat * nat) (header : string)
  : nat * nat * nat :=
  let '(numericColumns, textColumns, totalMissingValues) := acc in
  let columnValues := map (fun r => cell r header) data in
  let nonNullValues := nonNull columnValues in
  let numericValues := numericValues columnValues in
  let missing :=
    (totalMissingValues + (List.length columnValues - List.length nonNullValues))%nat in
  if PrimFloat.ltb (nat_to_number (List.length nonNullValues) * 0.5)%float
                   (nat_to_number (List.length numericValues))
  then (S numericColumns, textColumns, missing)
  else (numericColumns, S textColumns, missing).

Definition calculateSummaryStats (headers : list string) (data : list row)
  : DatasetSummary :=
  let totalRecords := List.length data in
  let totalColumns := List.length headers in
  let '(numericColumns, textColumns, totalMissingValues) :=
    fold_left (summary_step data) headers (0%nat, 0%nat, 0%nat) in
  let cells := (nat_to_number totalRecords * nat_to_number totalColumns)%float in
  let dataQuality :=
    if Nat.ltb 0 totalRecords
    then Math_round
           (((cells - nat_to_number totalMissingValues) / cells) * 100)%float
    else 100%float in
  {| totalRecords := totalRecords;
     totalColumns := totalColumns;
     numericColumns := numericColumns;
     textColumns := textColumns;
     missingValues := totalMissingValues;
     dataQuality := dataQuality |}.

End WithHost.

(** *** The upload route: from the cells of a sheet to its analysis *)

Section Upload.
Context (h : Host).

(** [row[index] || null]: a cell beyond the end of the row reads as
    [undefined]. *)
Definition cell_or_null (cells : list any) (index : nat) : any :=
  let v := nth index cells JUndefined in
  if ToBoolean v then v else JNull.

(** [headers.forEach((header, index) => { obj[header] = row[index] || null })]
    on an empty object; a header that comes twice keeps the later cell.
    The assignment defines an own property for every header but
    [__proto__], which is outside this model. *)
Definition row_object (headers : list string) (cells : list any) : row :=
  fold_left (fun (obj : row) (hi : string * nat) =>
               <[fst hi := cell_or_null cells (snd hi)]> obj)
            (mapi (fun header index => (header, index)) headers) ∅.

(** [headers.forEach(header => { columnStats[header] =
      calculateColumnStatistics(data.map(row => row[header]), header) })]:
    the own properties of [columnStats].  The assignment to [__proto__]
    goes to the setter of the prototype and defines no own property. *)
Definition column_stats (headers : list string) (data : list row)
  : gmap string ColumnProfile :=
  fold_left (fun (acc : gmap string ColumnProfile) (header : string) =>
               if String.eqb header "__proto__" then acc
               else <[header := calculateColumnStatistics h
                                  (map (fun r => cell r header) data) header]> acc)
            headers ∅.

(** The body of the loop over the sheets, up to the entry it builds, which
    the route checks against the insert schema and hands to the storage.  [jsonData] is the array of arrays of one sheet: [None]
    when it is empty (the sheet is skipped by [continue]), else its first
    row, the headers, which the source types as strings, and the rows
    after it ([jsonData.slice(1)]). *)
Definition processSheet (fileId sheetName : string)
    (jsonData : option (list string * list (list any)))
  : option Storage.InsertExcelData.t :=
  match jsonData with
  | None => None
  | Some (headers, rows) =>
      let data := map (row_object headers) rows in
      Some {| Storage.InsertExcelData.fileId := fileId;
              Storage.InsertExcelData.sheetName := sheetName;
              Storage.InsertExcelData.headers := headers;
              Storage.InsertExcelData.data := data;
              Storage.InsertExcelData.rowCount := List.length data;
              Storage.InsertExcelData.columnCount := List.length headers;
              Storage.InsertExcelData.statistics :=
                Some {| columns := column_stats headers data;
                        summary := calculateSummaryStats headers data |} |}
  end.

End Upload.

(** *** The chart data route *)

Module ChartPoint.
Record t : Type := { x : any; y : any; label : any }.
End ChartPoint.

Module ChartResponse.
Record t : Type := {
  type : string;
  data : list ChartPoint.t;
  xColumn : string;
  yColumn : string
}.
End ChartResponse.

(** The handler of [POST /api/chart-data] on the fields of the request
    body; [None] is the answer 404, "Data not found". *)
Definition chartData (st : Storage.MemStorage)
    (dataId chartType xColumn yColumn : string) : option ChartResponse.t :=
  match Storage.getExcelDataById st dataId with
  | None => None
  | Some data =>
      Some {| ChartResponse.type := chartType;
              ChartResponse.data :=
                map (fun r => {| ChartPoint.x := cell r xColumn;
                                 ChartPoint.y := cell r yColumn;
                                 ChartPoint.label := cell r xColumn |})
                    (Storage.ExcelData.data data);
              ChartResponse.xColumn := xColumn;
              ChartResponse.yColumn := yColumn |}
  end.

End Server.

(** ** The client: chart projections (client/src/lib/chart-utils.ts) *)

Module ChartUtils.
Import Js Stats Model.

Section WithHost.
Context (h : Host).

(** A parameter with a default value: [None] is an omitted argument. *)
Definition with_default (d : Z) (limit : option Z) : Z := default d limit.

(** [String(row[xColumn] || `Item ${index + 1}`)] *)
Definition bar_name (r : row) (xColumn : string) (index : nat) : string :=
  if ToBoolean (cell r xColumn) then ToString h (cell r xColumn)
  else "Item " ++ nat_to_string (index + 1).

Definition bar_point (xColumn yColumn : string) (r : row) (index : nat)
  : ChartDataPoint :=
  {| name := bar_name r xColumn index;
     value := or_zero (parseFloat h (cell r yColumn));
     x := None; y := None |}.

Definition prepareBarChartData (data : list row) (xColumn yColumn : string)
    (limit : option Z) : list ChartDataPoint :=
  List.filter (fun item => negb (is_nan (value item)))
    (mapi (bar_point xColumn yColumn) (slice0 (with_default 20 limit) data)).

(** [String(row[xColumn] || index)] *)
Definition line_name (r : row) (xColumn : string) (index : nat) : string :=
  if ToBoolean (cell r xColumn) then ToString h (cell r xColumn)
  else nat_to_string index.

Definition prepareLineChartData (data : list row) (xColumn yColumn : string)
    (limit : option Z) : list ChartDataPoint :=
  List.filter (fun item => negb (is_nan (value item)))
    (mapi (fun r index =>
             {| name := line_name r xColumn index;
                value := or_zero (parseFloat h (cell r yColumn));
                x := None; y := None |})
          (slice0 (with_default 50 limit) data)).

(** [String(row[column] || 'Unknown')] *)
Definition pie_key (column : string) (r : row) : string :=
  if ToBoolean (cell r column) then ToString h (cell r column) else "Unknown".

(** The comparator [([, a], [, b]) => b - a] is positive. *)
Definition gt_count (a b : string * nat) : bool := Nat.ltb (snd a) (snd b).

(** [Object.entries(groups).sort(...).slice(0, limit)] *)
Definition pie_entries (data : list row) (column : string) (limit : option Z)
  : list (string * nat) :=
  let groups := frequencies (map (pie_key column) data) in
  slice0 (with_default 8 limit) (sort gt_count (entries groups)).

Definition pie_point (e : string * nat) : ChartDataPoint :=
  {| name := fst e; value := nat_to_number (snd e); x := None; y := None |}.

Definition preparePieChartData (data : list row) (column : string)
    (limit : option Z) : list ChartDataPoint :=
  map pie_point (pie_entries data column limit).

Definition scatter_point (xColumn yColumn : string) (r : row) : ChartDataPoint :=
  {| name := ToString h (cell r xColumn) ++ ", " ++ ToString h (cell r yColumn);
     value := or_zero (parseFloat h (cell r yColumn));
     x := Some (or_zero (parseFloat h (cell r xColumn)));
     y := Some (or_zero (parseFloat h (cell r yColumn))) |}.

(** [!isNaN(item.x) && !isNaN(item.y)]; an absent coordinate is
    [undefined], which is not a number. *)
Definition coordinate_ok (c : option float) : bool :=
  match c with Some v => negb (is_nan v) | None => false end.

Definition prepareScatterData (data : list row) (xColumn yColumn : string)
    (limit : option Z) : list ChartDataPoint :=
  List.filter (fun item => coordinate_ok (x item) && coordinate_ok (y item))
    (map (scatter_point xColumn yColumn) (slice0 (with_default 100 limit) data)).

(** [values.filter(v => !isNaN(parseFloat(v))).length] *)
Definition parsable_count (values : list any) : nat :=
  List.length (List.filter (fun v => negb (is_nan (parseFloat h v))) values).

(** [values.filter(...).length / values.length] *)
Definition numeric_fraction (values : list any) : float :=
  (nat_to_number (parsable_count values) / nat_to_number (List.length values))%float.

Definition getOptimalChartType (data : list row) (xColumn yColumn : string)
  : ChartType :=
  if Nat.eqb (List.length data) 0 then bar
  else
    let xValues := map (fun r => cell r xColumn) data in
    let yValues := map (fun r => cell r yColumn) data in
    let xNumeric := numeric_fraction xValues in
    let yNumeric := numeric_fraction yValues in
    let uniqueXValues := Set_size xValues in
    let totalXValues := List.length xValues in
    if PrimFloat.ltb 0.8 xNumeric && PrimFloat.ltb 0.8 yNumeric
       && Nat.ltb 20 totalXValues
    then scatter
    else if PrimFloat.ltb (nat_to_number uniqueXValues)
                          (nat_to_number totalXValues * 0.5)%float
            && PrimFloat.ltb 0.8 yNumeric
    then bar
    else if PrimFloat.ltb 0.8 xNumeric && PrimFloat.ltb 0.8 yNumeric
    then line
    else if Nat.ltb uniqueXValues 10 && Nat.ltb 1 uniqueXValues
    then pie
    else bar.

End WithHost.

(** *** Chart titles *)

Section Titles.

(** [str.toUpperCase()] for one code unit outside the ASCII letters is left
    to this parameter (a code unit may become two, or leave the code units
    below 256). *)
Context (upper_other : ascii -> string).

Definition is_upper (c : ascii) : bool :=
  let n := code c in ((65 <=? n) && (n <=? 90))%N.

Definition is_lower (c : ascii) : bool :=
  let n := code c in ((97 <=? n) && (n <=? 122))%N.

(** [name.replace(/([A-Z])/g, ' $1')] *)
Fixpoint space_capitals (l : list ascii) : list ascii :=
  match l with
  | [] => []
  | c :: l' =>
      if is_upper c then " "%char :: c :: space_capitals l'
      else c :: space_capitals l'
  end.

(** [.replace(/^./, str => str.toUpperCase())]: the dot matches any code
    unit but a line terminator. *)
Definition capitalize (l : list ascii) : list ascii :=
  match l with
  | [] => []
  | c :: l' =>
      if ((code c =? 10) || (code c =? 13))%N then l
      else if is_lower c then ascii_of_N (code c - 32) :: l'
      else if (code c <? 128)%N then l
      else (string_to_list (upper_other c) ++ l')%list
  end.

Definition formatColumnName (name : string) : string :=
  list_to_string (capitalize (space_capitals (string_to_list name))).

(** [yColumn] is [None] when the argument is omitted; an empty string is
    falsy as well. *)
Definition generateChartTitle (chartType : string) (xColumn : string)
    (yColumn : option string) : string :=
  let xFormatted := formatColumnName xColumn in
  let given := match yColumn with
               | Some y => negb (String.eqb y "")
               | None => false
               end in
  let yFormatted := match yColumn with
                    | Some y => if given then formatColumnName y else ""
                    | None => ""
                    end in
  if String.eqb chartType "bar" then
    if given then yFormatted ++ " by " ++ xFormatted
    else "Distribution of " ++ xFormatted
  else if String.eqb chartType "line" then
    if given then yFormatted ++ " Trend" else xFormatted ++ " Over Time"
  else if String.eqb chartType "pie" then xFormatted ++ " Distribution"
  else if String.eqb chartType "scatter" then
    if given then xFormatted ++ " vs " ++ yFormatted
    else xFormatted ++ " Scatter Plot"
  else xFormatted ++ " Chart".

End Titles.

End ChartUtils.

(** ** The client: type inference and statistics (excel utilities) *)

Module ExcelUtils.
Import Js Stats Model.

Section WithHost.
Context (h : Host).

(** [typeof v === 'boolean' || (typeof v === 'string' &&
     ['true', 'false', 'yes', 'no', '1', '0'].includes(v.toLowerCase()))] *)
Definition is_boolean_like (v : any) : bool :=
  match v with
  | JBool _ => true
  | JStr s =>
      existsb (String.eqb (toLowerCase s)) ["true"; "false"; "yes"; "no"; "1"; "0"]
  | _ => false
  end.

Definition is_numeric_like (v : any) : bool :=
  match v with
  | JNum _ => true
  | JStr s => negb (is_nan (parseFloat_string (strip_dollar_comma s)))
  | _ => false
  end.

(** [v instanceof Date], or a string [new Date(v)] gives a valid time. *)
Definition is_date_like (v : any) : bool :=
  match v with
  | JDate _ _ => true
  | JStr s => negb (is_nan (Date_parse h s))
  | _ => false
  end.

(** [matching.length > nonNullValues.length * 0.8] *)
Definition majority (matching nonNullValues : list any) : bool :=
  PrimFloat.ltb (nat_to_number (List.length nonNullValues) * 0.8)%float
                (nat_to_number (List.length matching)).

Definition detectColumnType (values : list any) : ColumnType :=
  let nonNullValues := nonNull values in
  if Nat.eqb (List.length nonNullValues) 0 then text
  else
    let booleanValues := List.filter is_boolean_like nonNullValues in
    if majority booleanValues nonNullValues then boolean
    else
      let numericValues := List.filter is_numeric_like nonNullValues in
      if majority numericValues nonNullValues then number
      else
        let dateValues := List.filter is_date_like nonNullValues in
        if majority dateValues nonNullValues then date
        else text.

(** [nonNullValues.map(v => typeof v === 'string'
       ? parseFloat(v.replace(/[$,]/g, '')) : v).filter(v => !isNaN(v))] *)
Definition numericValues (values : list any) : list any :=
  List.filter (fun v => negb (isNaN v))
    (map (fun v => match v with
                   | JStr s => JNum (parseFloat_string (strip_dollar_comma s))
                   | _ => v
                   end) (nonNull values)).

Definition baseStats (values : list any) : ColumnProfile :=
  {| count := List.length values;
     nullCount := List.length values - List.length (nonNull values);
     uniqueCount := Set_size (nonNull values);
     mean := None; min := None; max := None; range := None; median := None;
     variance := None; standardDeviation := None;
     mode := None; averageLength := None |}.

(** [nonNullValues.reduce((acc, val) => acc + String(val).length, 0)] *)
Definition total_length (l : list any) : nat :=
  fold_left (fun acc val => (acc + String.length (ToString h val))%nat) l 0%nat.

Definition calculateColumnStatistics (values : list any) (columnType : string)
  : ColumnProfile :=
  let nonNullValues := nonNull values in
  let baseStats := baseStats values in
  let numericValues := numericValues values in
  if String.eqb columnType "number" && Nat.ltb 0 (List.length numericValues) then
    let sorted := sort gt_number numericValues in
    let sum := sum_values h numericValues in
    let n := nat_to_number (List.length numericValues) in
    let mean_ := (ToNumber sum / n)%float in
    let variance_ := (sum_squares mean_ numericValues / n)%float in
    {| count := count baseStats;
       nullCount := nullCount baseStats;
       uniqueCount := uniqueCount baseStats;
       mean := Some mean_;
       min := Some (at_index sorted 0);
       max := Some (at_index sorted (List.length sorted - 1));
       range := Some (ToNumber (at_index sorted (List.length sorted - 1))
                      - ToNumber (at_index sorted 0))%float;
       median := Some (median_of h sorted);
       variance := Some variance_;
       standardDeviation := Some (Math_sqrt variance_);
       mode := None; averageLength := None |}
  else if String.eqb columnType "text" then
    let counts := frequencies (map (ToString h) nonNullValues) in
    {| count := count baseStats;
       nullCount := nullCount baseStats;
       uniqueCount := uniqueCount baseStats;
       mean := None; min := None; max := None; range := None; median := None;
       variance := None; standardDeviation := None;
       mode := Some (find_mode counts);
       averageLength :=
         Some (nat_to_number (total_length nonNullValues)
               / nat_to_number (List.length nonNullValues))%float |}
  else baseStats.

End WithHost.

(** *** Chart data and CSV export *)

Section ChartData.
Context (h : Host).

(** The key of a row in the groups of the pie chart:
    [row[xColumn] || 'Unknown'], as a property key. *)
Definition group_key (xColumn : string) (r : row) : string :=
  if ToBoolean (cell r xColumn) then ToString h (cell r xColumn) else "Unknown".

Definition generateChartData (data : list row) (xColumn yColumn : string)
    (chartType : ChartType) : list ChartDataPoint :=
  match chartType with
  | pie =>
      let groups := frequencies (map (group_key xColumn) data) in
      map (fun e : string * nat =>
             {| name := fst e; value := nat_to_number (snd e);
                x := None; y := None |})
          (entries groups)
  | _ =>
      map (fun r =>
             {| name := ToString h (cell r xColumn);
                value := or_zero (parseFloat h (cell r yColumn));
                x := Some (or_zero (parseFloat h (cell r xColumn)));
                y := Some (or_zero (parseFloat h (cell r yColumn))) |})
          (List.filter (fun r => match cell r xColumn with
                                 | JNull | JUndefined => false
                                 | _ => true
                                 end) data)
  end.

(** The double quote. *)
Definition dquote : ascii := ascii_of_N 34.

Definition includes (c : ascii) (s : string) : bool :=
  existsb (fun d => (code d =? code c)%N) (string_to_list s).

(** Every double quote of the value is written twice (the [replace] with
    the global pattern). *)
Fixpoint double_quotes (l : list ascii) : list ascii :=
  match l with
  | [] => []
  | c :: l' =>
      if (code c =? 34)%N then dquote :: dquote :: double_quotes l'
      else c :: double_quotes l'
  end.

(** A string with a comma, a double quote or a line feed is written
    between double quotes. *)
Definition needs_quotes (s : string) : bool :=
  includes ","%char s || includes dquote s || includes (ascii_of_N 10) s.

Definition quoted (s : string) : string :=
  list_to_string (dquote :: double_quotes (string_to_list s) ++ [dquote])%list.

(** One field of a line: the callback of [headers.map], then the
    conversion [join] applies to the element ([null] and [undefined] give
    the empty string). *)
Definition csv_field (v : any) : string :=
  match v with
  | JStr s => if needs_quotes s then quoted s else s
  | JNull | JUndefined => ""
  | _ => ToString h v
  end.

Fixpoint join (sep : string) (l : list string) : string :=
  match l with
  | [] => ""
  | [s] => s
  | s :: l' => s ++ sep ++ join sep l'
  end.

(** [row[header]] on a row of the table to export, with its keys in
    order. *)
Definition field_of (r : object any) (header : string) : any :=
  match obj_get r header with
  | Some v => v
  | None => if is_inherited header then JInherited header else JUndefined
  end.

Definition csv_lines (data : list (object any)) : list string :=
  match data with
  | [] => []
  | first :: _ =>
      let headers := keys first in
      join "," headers
      :: map (fun r => join "," (map (fun hd => csv_field (field_of r hd)) headers))
             data
  end.

(** The text [exportToCSV] puts in the file; [None] when [data] is empty
    and the function returns without a file. *)
Definition exportToCSV_text (data : list (object any)) : option string :=
  match data with
  | [] => None
  | _ => Some (join (String (ascii_of_N 10) "") (csv_lines data))
  end.

End ChartData.

End ExcelUtils.


(** ** Calls and the errors they raise

    The functions above are the values the functions of the source return
    on arrays of row records.  The source has no [throw] statement; two of
    its operations raise an error of the language: reading a property of
    [null] or [undefined], where an element of a data array is not a row,
    and spreading an array into the arguments of [Math.max], where the
    array is longer than a call can take arguments.  The functions of this
    module follow the source with these two operations as they are. *)

Module Call.
Import Js Stats Model.

Definition bind {A B} (c : Completion A) (f : A -> Completion B) : Completion B :=
  match c with
  | Returns a => f a
  | Throws e => Throws e
  end.

Notation "'let!' x ':=' c 'in' k" := (bind c (fun x => k))
  (at level 10, x name, c at level 100, k at level 200).

(** [array.map((x, index) => f x index)]: the callback runs on the elements
    in order, and the first error ends the call. *)
Fixpoint map_from {A B} (i : nat) (f : A -> nat -> Completion B) (l : list A)
  : Completion (list B) :=
  match l with
  | [] => Returns []
  | a :: l' =>
      let! b := f a i in
      let! bs := map_from (S i) f l' in
      Returns (b :: bs)
  end.

Definition map_array {A B} (f : A -> nat -> Completion B) (l : list A)
  : Completion (list B) :=
  map_from 0 f l.

(** [array.forEach(x => ...)] on the variables the callback updates. *)
Fixpoint forEach {A S} (f : S -> A -> Completion S) (l : list A) (s : S)
  : Completion S :=
  match l with
  | [] => Returns s
  | a :: l' => let! s' := f s a in forEach f l' s'
  end.

(** An element of a data array: a row record, or [None] for [null] and
    [undefined].  [row[column]] raises a [TypeError] on them. *)
Definition read (r : option row) (column : string) : Completion any :=
  match r with
  | Some r => Returns (cell r column)
  | None => Throws TypeError
  end.

(** [data.map(row => row[column])] *)
Definition column_values (data : list (option row)) (column : string)
  : Completion (list any) :=
  map_array (fun r _ => read r column) data.

Section WithHost.
Context (h : Host).

(** [Math.max(...Object.values(counts))]: the spread passes one argument
    for each value, and raises a [RangeError] when they are more than a
    call can take. *)
Definition Math_max_spread (counts : object nat) : Completion nat :=
  if Nat.leb (List.length (Js.values counts)) (Max_arguments h)
  then Returns (maxCount counts)
  else Throws RangeError.

(** [Object.keys(counts).find(key => counts[key] === maxCount)] *)
Definition find_key (counts : object nat) (maxCount : nat) : any :=
  match List.find (fun k => match obj_get counts k with
                            | Some c => Nat.eqb c maxCount
                            | None => false
                            end) (Js.keys counts) with
  | Some k => JStr k
  | None => JUndefined
  end.

(** *** The server *)

(** The numeric branch has no operation that raises, and gives the profile
    of [Server.calculateColumnStatistics]; the text branch spreads the
    counts. *)
Definition Server_calculateColumnStatistics (values : list any)
    (columnName : string) : Completion ColumnProfile :=
  let nonNullValues := nonNull values in
  let numericValues := Server.numericValues values in
  let stats := Server.baseStats values in
  if Nat.ltb 0 (List.length numericValues) then
    Returns (Server.calculateColumnStatistics h values columnName)
  else if Nat.ltb 0 (List.length nonNullValues) then
    let counts := frequencies (map (ToString h) nonNullValues) in
    let! maxCount := Math_max_spread counts in
    Returns {| count := count stats;
               nullCount := nullCount stats;
               uniqueCount := uniqueCount stats;
               mean := None; min := None; max := None; range := None;
               median := None; variance := None; standardDeviation := None;
               mode := Some (find_key counts maxCount);
               averageLength := None |}
  else Returns stats.

(** One pass of [headers.forEach] in [calculateSummaryStats]. *)
Definition summary_step (data : list (option row)) (acc : nat * nat * nat)
    (header : string) : Completion (nat * nat * nat) :=
  let '(numericColumns, textColumns, totalMissingValues) := acc in
  let! columnValues := column_values data header in
  let nonNullValues := nonNull columnValues in
  let numericValues := Server.numericValues columnValues in
  let missing :=
    (totalMissingValues + (List.length columnValues - List.length nonNullValues))%nat in
  Returns
    (if PrimFloat.ltb (nat_to_number (List.length nonNullValues) * 0.5)%float
                      (nat_to_number (List.length numericValues))
     then (S numericColumns, textColumns, missing)
     else (numericColumns, S textColumns, missing)).

Definition calculateSummaryStats (headers : list string) (data : list (option row))
  : Completion DatasetSummary :=
  let totalRecords := List.length data in
  let totalColumns := List.length headers in
  let! counters := forEach (summary_step data) headers (0%nat, 0%nat, 0%nat) in
  let '(numericColumns, textColumns, totalMissingValues) := counters in
  let cells := (nat_to_number totalRecords * nat_to_number totalColumns)%float in
  let dataQuality :=
    if Nat.ltb 0 totalRecords
    then Math_round
           (((cells - nat_to_number totalMissingValues) / cells) * 100)%float
    else 100%float in
  Returns {| totalRecords := totalRecords;
             totalColumns := totalColumns;
             numericColumns := numericColumns;
             textColumns := textColumns;
             missingValues := totalMissingValues;
             dataQuality := dataQuality |}.

(** *** The chart projections *)

Definition prepareBarChartData (data : list (option row))
    (xColumn yColumn : string) (limit : option Z)
  : Completion (list ChartDataPoint) :=
  let! items := map_array
             (fun r index =>
                let! xCell := read r xColumn in
                let! yCell := read r yColumn in
                Returns {| name := if ToBoolean xCell then ToString h xCell
                                   else "Item " ++ nat_to_string (index + 1);
                           value := or_zero (parseFloat h yCell);
                           x := None; y := None |})
             (slice0 (ChartUtils.with_default 20 limit) data) in
  Returns (List.filter (fun item => negb (is_nan (value item))) items).

Definition prepareLineChartData (data : list (option row))
    (xColumn yColumn : string) (limit : option Z)
  : Completion (list ChartDataPoint) :=
  let! items := map_array
             (fun r index =>
                let! xCell := read r xColumn in
                let! yCell := read r yColumn in
                Returns {| name := if ToBoolean xCell then ToString h xCell
                                   else nat_to_string index;
                           value := or_zero (parseFloat h yCell);
                           x := None; y := None |})
             (slice0 (ChartUtils.with_default 50 limit) data) in
  Returns (List.filter (fun item => negb (is_nan (value item))) items).

(** The [reduce] of the pie projection reads the cell of every row before
    the groups are sorted. *)
Definition preparePieChartData (data : list (option row)) (column : string)
    (limit : option Z) : Completion (list ChartDataPoint) :=
  let! keys := map_array
            (fun r _ =>
               let! v := read r column in
               Returns (if ToBoolean v then ToString h v else "Unknown"))
            data in
  let groups := frequencies keys in
  Returns (map ChartUtils.pie_point
             (slice0 (ChartUtils.with_default 8 limit)
                     (sort ChartUtils.gt_count (entries groups)))).

Definition prepareScatterData (data : list (option row))
    (xColumn yColumn : string) (limit : option Z)
  : Completion (list ChartDataPoint) :=
  let! items := map_array
             (fun r _ =>
                let! xCell := read r xColumn in
                let! yCell := read r yColumn in
                Returns {| name := ToString h xCell ++ ", " ++ ToString h yCell;
                           value := or_zero (parseFloat h yCell);
                           x := Some (or_zero (parseFloat h xCell));
                           y := Some (or_zero (parseFloat h yCell)) |})
             (slice0 (ChartUtils.with_default 100 limit) data) in
  Returns (List.filter (fun item => ChartUtils.coordinate_ok (x item)
                                    && ChartUtils.coordinate_ok (y item)) items).

Definition getOptimalChartType (data : list (option row))
    (xColumn yColumn : string) : Completion ChartType :=
  if Nat.eqb (List.length data) 0 then Returns bar
  else
    let! xValues := column_values data xColumn in
    let! yValues := column_values data yColumn in
    let xNumeric := ChartUtils.numeric_fraction h xValues in
    let yNumeric := ChartUtils.numeric_fraction h yValues in
    let uniqueXValues := Set_size xValues in
    let totalXValues := List.length xValues in
    Returns
      (if PrimFloat.ltb 0.8 xNumeric && PrimFloat.ltb 0.8 yNumeric
          && Nat.ltb 20 totalXValues
       then scatter
       else if PrimFloat.ltb (nat_to_number uniqueXValues)
                             (nat_to_number totalXValues * 0.5)%float
               && PrimFloat.ltb 0.8 yNumeric
       then bar
       else if PrimFloat.ltb 0.8 xNumeric && PrimFloat.ltb 0.8 yNumeric
       then line
       else if Nat.ltb uniqueXValues 10 && Nat.ltb 1 uniqueXValues
       then pie
       else bar).

(** *** The client's statistics *)

Definition ExcelUtils_calculateColumnStatistics (values : list any)
    (columnType : string) : Completion ColumnProfile :=
  let nonNullValues := nonNull values in
  let baseStats := ExcelUtils.baseStats values in
  let numericValues := ExcelUtils.numericValues values in
  if String.eqb columnType "number" && Nat.ltb 0 (List.length numericValues) then
    Returns (ExcelUtils.calculateColumnStatistics h values columnType)
  else if String.eqb columnType "text" then
    let counts := frequencies (map (ToString h) nonNullValues) in
    let! maxCount := Math_max_spread counts in
    Returns {| count := count baseStats;
               nullCount := nullCount baseStats;
               uniqueCount := uniqueCount baseStats;
               mean := None; min := None; max := None; range := None;
               median := None; variance := None; standardDeviation := None;
               mode := Some (find_key counts maxCount);
               averageLength :=
                 Some (nat_to_number (ExcelUtils.total_length h nonNullValues)
                       / nat_to_number (List.length nonNullValues))%float |}
  else Returns baseStats.

End WithHost.

End Call.
(** ** Closed inputs for the examples *)

Module Examples.
Import Js Model.

(** A host for the closed examples; none of them reaches a host operation
    whose result matters. *)
Definition host : Host :=
  {| Number_fraction_toString := fun _ => "0.5";
     Date_toString := fun t => if is_nan t then "Invalid Date"
                               else "Thu Jan 01 1970";
     Date_parse := fun _ => PrimFloat.nan;
     Inherited_toString := fun name =>
       if String.eqb name "__proto__" then "[object Object]"
       else "function "
            ++ (if String.eqb name "constructor" then "Object" else name)
            ++ "() { [native code] }";
     Max_arguments := Z.to_nat 65535 |}.

(** A host whose calls take two arguments at most. *)
Definition narrow_host : Host :=
  {| Number_fraction_toString := Number_fraction_toString host;
     Date_toString := Date_toString host;
     Date_parse := Date_parse host;
     Inherited_toString := Inherited_toString host;
     Max_arguments := 2 |}.

(** Headers [["Region", "Sales"]] and three rows, one of them without a
    sales figure. *)
Definition sales_headers : list string := ["Region"; "Sales"].

Definition sales_rows : list row :=
  [ {[ "Region" := JStr "East"; "Sales" := JStr "100" ]};
    {[ "Region" := JStr "East"; "Sales" := JStr "200" ]};
    {[ "Region" := JStr "West"; "Sales" := JNull ]} ].

Definition column (header : string) (data : list row) : list any :=
  map (fun r => cell r header) data.

(** A column of strings under the header ["c"]. *)
Definition strings_under (header : string) (l : list string) : list row :=
  map (fun s => ({[ header := JStr s ]} : row)) l.

(** A storage that holds one file and one sheet entry of it. *)
Definition report_file : Storage.InsertExcelFile.t :=
  {| Storage.InsertExcelFile.filename := "a1b2c3";
     Storage.InsertExcelFile.originalName := "report.xlsx";
     Storage.InsertExcelFile.size := 2048;
     Storage.InsertExcelFile.mimeType := "application/vnd.ms-excel" |}.

Definition report_sheet : Storage.InsertExcelData.t :=
  {| Storage.InsertExcelData.fileId := "file-1";
     Storage.InsertExcelData.sheetName := "Sheet1";
     Storage.InsertExcelData.headers := sales_headers;
     Storage.InsertExcelData.data := sales_rows;
     Storage.InsertExcelData.rowCount := 3;
     Storage.InsertExcelData.columnCount := 2;
     Storage.InsertExcelData.statistics := None |}.

Definition stored : Storage.MemStorage :=
  fst (Storage.createExcelData
         (fst (Storage.createExcelFile Storage.empty report_file "file-1" 1000))
         report_sheet "data-1" 1001).

End Examples.

(** ** The statements of the specification *)

Module Spec.
Import Js Stats Model.

Definition is_Some_b {A} (o : option A) : bool :=
  match o with Some _ => true | None => false end.

Definition nonempty {A} (l : list A) : bool := Nat.ltb 0 (List.length l).

(** *** Branches of the column statistics *)

(** The fields of the numeric branch are all present, or all absent. *)
Definition numeric_fields_present (p : ColumnProfile) : bool :=
  is_Some_b (mean p) && is_Some_b (min p) && is_Some_b (max p)
  && is_Some_b (range p) && is_Some_b (median p)
  && is_Some_b (variance p) && is_Some_b (standardDeviation p).

Definition numeric_fields_absent (p : ColumnProfile) : bool :=
  negb (is_Some_b (mean p) || is_Some_b (min p) || is_Some_b (max p)
        || is_Some_b (range p) || is_Some_b (median p)
        || is_Some_b (variance p) || is_Some_b (standardDeviation p)).

(** Which branch a profile comes from, read from the fields it has. *)
Inductive Branch : Type := NumericBranch | TextBranch | BaseOnly | Mixed.

Definition branch (p : ColumnProfile) : Branch :=
  if numeric_fields_present p && negb (is_Some_b (mode p)) then NumericBranch
  else if numeric_fields_absent p && is_Some_b (mode p) then TextBranch
  else if numeric_fields_absent p && negb (is_Some_b (mode p)) then BaseOnly
  else Mixed.

(** *** Exact fractions *)

(** [k] out of [n], as a rational number ([n] positive). *)
Definition fraction (k n : nat) : Q := Z.of_nat k # Pos.of_nat n.

Definition Qlt_b (a b : Q) : bool := negb (Qle_bool b a).

(** [k] strictly exceeds the fraction [q] of [n]. *)
Definition exceeds (q : Q) (k n : nat) : bool :=
  Qlt_b (q * inject_Z (Z.of_nat n)) (inject_Z (Z.of_nat k)).

(** The largest length of an array. *)
Definition max_array_length : Z := 2 ^ 32 - 1.

(** *** The entries of a column, in the words of the specification

    The definitions of this part do not use the functions of the code:
    they say on the values themselves what the specification says. *)

(** A null, undefined or empty-string entry. *)
Definition missing (v : any) : bool :=
  match v with
  | JNull | JUndefined => true
  | JStr EmptyString => true
  | _ => false
  end.

(** The entries that remain when the missing ones are discarded. *)
Fixpoint present_entries (values : list any) : list any :=
  match values with
  | [] => []
  | v :: values' =>
      if missing v then present_entries values'
      else v :: present_entries values'
  end.

(** The number of entries that pass a check. *)
Fixpoint count_of {A} (check : A -> bool) (l : list A) : nat :=
  match l with
  | [] => 0%nat
  | a :: l' => if check a then S (count_of check l') else count_of check l'
  end.

(** The number of distinct values: an entry counts when no entry before
    it is the same value.  Numbers are the same when they are equal or
    both [NaN], objects when they are the same object. *)
Fixpoint count_new (seen : list any) (l : list any) : nat :=
  match l with
  | [] => 0%nat
  | v :: l' =>
      if existsb (sameValueZero v) seen then count_new seen l'
      else S (count_new (v :: seen) l')
  end.

Definition distinct_count (l : list any) : nat := count_new [] l.

(** *** Type inference, in the words of the specification *)

(** A native boolean, or a string equal to one of the six words when the
    case of its letters is ignored. *)
Definition boolean_entry (v : any) : bool :=
  match v with
  | JBool _ => true
  | JStr s =>
      if in_dec String.string_dec (toLowerCase s)
                ["true"; "false"; "yes"; "no"; "1"; "0"]
      then true else false
  | _ => false
  end.

(** A native number, or a string that parses to a number once its dollar
    signs and commas are taken out.  [NaN] is a native number, and a string
    that reads as an infinity parses to a number. *)
Definition number_entry (v : any) : bool :=
  match v with
  | JNum _ => true
  | JNull | JUndefined | JBool _ | JDate _ _ | JInherited _ => false
  | JStr s => if is_nan (parseFloat_string (strip_dollar_comma s)) then false else true
  end.

Section WithHost.
Context (h : Host).

(** A native date, or a string that the host parses into a valid date. *)
Definition date_entry (v : any) : bool :=
  match v with
  | JDate _ _ => true
  | JStr s => if is_nan (Date_parse h s) then false else true
  | _ => false
  end.

(** The first check, in the order boolean, number, date, whose matching
    count strictly exceeds 0.8 times the number of non-null values wins;
    a column without non-null values is a text column. *)
Definition inferType (values : list any) : ColumnType :=
  let kept := present_entries values in
  let n := List.length kept in
  if Nat.eqb n 0 then text
  else if exceeds (8 # 10) (count_of boolean_entry kept) n then boolean
  else if exceeds (8 # 10) (count_of number_entry kept) n then number
  else if exceeds (8 # 10) (count_of date_entry kept) n then date
  else text.

(** *** The branches of the statistics, as the code takes them *)

(** A non-null value that is a number after the parse: a string of which
    [parseFloat] reads a number (the client takes the dollar signs and
    commas out first), a number that is not [NaN], a boolean, or a date
    with a valid time.  An inherited value is no number. *)
Definition number_after_parse (strip : bool) (v : any) : bool :=
  match v with
  | JStr s =>
      if is_nan (parseFloat_string (if strip then strip_dollar_comma s else s))
      then false else true
  | JNum x => if is_nan x then false else true
  | JBool _ => true
  | JDate _ time => if is_nan time then false else true
  | JNull | JUndefined | JInherited _ => false
  end.

(** The string forms of the non-null values, and the mean of their
    lengths. *)
Definition string_forms (values : list any) : list string :=
  map (ToString h) (present_entries values).

Fixpoint total_characters (ks : list string) : nat :=
  match ks with
  | [] => 0%nat
  | k :: ks' => (String.length k + total_characters ks')%nat
  end.

Definition mean_length (ks : list string) : float :=
  (nat_to_number (total_characters ks) / nat_to_number (List.length ks))%float.

(** *** The chart type selector, in the words of the specification *)

(** The value parses as a number: [parseFloat] reads one from it. *)
Definition parses_as_number (v : any) : bool :=
  if is_nan (parseFloat h v) then false else true.

(** The ordered cascade over the number of rows [n], the numbers [kx] and
    [ky] of x and y values that parse as numbers, and the number [u] of
    distinct x values. *)
Definition chooseType (n kx ky u : nat) : ChartType :=
  if Nat.eqb n 0 then bar
  else
    let xNumericFraction := fraction kx n in
    let yNumericFraction := fraction ky n in
    let uniqueXFraction := fraction u n in
    if Qlt_b (8 # 10) xNumericFraction && Qlt_b (8 # 10) yNumericFraction
       && Nat.ltb 20 n
    then scatter
    else if Qlt_b uniqueXFraction (5 # 10) && Qlt_b (8 # 10) yNumericFraction
    then bar
    else if Qlt_b (8 # 10) xNumericFraction && Qlt_b (8 # 10) yNumericFraction
    then line
    else if Nat.ltb 1 u && Nat.ltb u 10 then pie
    else bar.

End WithHost.

(** *** The pie projection *)

(** The distinct keys of a list, in the order of their first occurrence. *)
Fixpoint first_seen (ks : list string) : list string :=
  match ks with
  | [] => []
  | k :: ks' => k :: List.filter (fun k' => negb (String.eqb k k')) (first_seen ks')
  end.

(** The groups in first-seen order, sorted by descending count with ties
    in that order, the first [limit] of them: the reading of the
    specification. *)
Definition pie_by_first_seen (ks : list string) (limit : Z) : list (string * nat) :=
  slice0 limit (sort ChartUtils.gt_count (frequencies ks)).

(** The order of the own keys of an object whose keys were created in the
    order [ks]: array indices ascending, then the other keys. *)
Definition own_key_order (ks : list string) : list string :=
  sort (fun a b => index_of b <? index_of a) (List.filter is_array_index ks)
  ++ List.filter (fun k => negb (is_array_index k)) ks.

Definition total (es : list (string * nat)) : nat :=
  fold_right Nat.add 0%nat (map snd es).

(** No key of the list is a name inherited from [Object.prototype]. *)
Definition plain_keys (ks : list string) : Prop :=
  List.Forall (fun k => is_inherited k = false) ks.

(** The mode [m] is a string form of [ks] of the highest frequency, the
    first of them in the order of the own keys of the frequency table. *)
Definition first_most_frequent (ks : list string) (m : option any) : Prop :=
  let freq := List.count_occ String.string_dec ks in
  exists k pre post,
    m = Some (JStr k)
    /\ own_key_order (first_seen ks) = (pre ++ k :: post)%list
    /\ In k ks
    /\ (forall k', (freq k' <= freq k)%nat)
    /\ List.Forall (fun k' => (freq k' < freq k)%nat) pre.

(** *** Falsy cells *)



(** *** Failures *)

(** The header list is empty while rows exist, or a row lacks a declared
    header. *)
Definition structurally_invalid (headers : list string) (data : list row) : bool :=
  (Nat.eqb (List.length headers) 0 && negb (Nat.eqb (List.length data) 0))
  || existsb (fun r => existsb (fun hd => negb (is_Some_b (r !! hd))) headers) data.

Definition unknown_column (headers : list string) (column : string) : bool :=
  negb (existsb (String.eqb column) headers).

(** The error is one of the two the specification names. *)
Definition named_error (e : Error) : bool :=
  match e with
  | StructuralInputError | UnknownColumnError => true
  | TypeError | RangeError => false
  end.

(** The call ends with one of these two errors. *)
Definition signals_named {A} (c : Completion A) : bool :=
  match c with
  | Throws e => named_error e
  | Returns _ => false
  end.

(** An array of row records, none of them [null]. *)
Definition records (data : list row) : list (option row) := map Some data.

End Spec.

(** ** Predicates used to state further properties of the code *)

Module Shape.
Import Js Stats Model.

(** The cells of a sheet row that are falsy, among the first [width]
    columns; a cell the row does not have is [undefined]. *)
Definition falsy_cells (width : nat) (cells : list any) : nat :=
  List.length
    (List.filter (fun i => negb (ToBoolean (nth i cells JUndefined)))
                 (seq 0 width)).

(** The column [header] of a dataset: [data.map(row => row[header])]. *)
Definition column (data : list row) (header : string) : list any :=
  map (fun r => cell r header) data.

(** The test of one pass of the loop of [calculateSummaryStats]. *)
Definition counted_numeric (data : list row) (header : string) : bool :=
  PrimFloat.ltb
    (nat_to_number (List.length (nonNull (column data header))) * 0.5)%float
    (nat_to_number (List.length (Server.numericValues (column data header)))).

(** The entries of column [column] that count as missing. *)
Definition missing_in (data : list row) (column : string) : nat :=
  List.length (List.filter (fun r => negb (is_present (cell r column))) data).

(** The three counts every profile starts from. *)
Definition base_counts (values : list any) (p : ColumnProfile) : Prop :=
  count p = List.length values
  /\ nullCount p
     = List.length (List.filter (fun v => negb (is_present v)) values)
  /\ (nullCount p + List.length (nonNull values) = count p)%nat
  /\ (uniqueCount p <= count p - nullCount p)%nat
  /\ (uniqueCount p = 0%nat <-> nonNull values = []).

(** A header the upload route can use as a property name like any other. *)
Definition ordinary_headers (headers : list string) : Prop :=
  ~ In "__proto__" headers.

(** One pass of the loop that fills a row object in the upload route. *)
Definition put (cells : list any) (obj : row) (hi : string * nat) : row :=
  <[fst hi := Server.cell_or_null cells (snd hi)]> obj.

(** Every entry of a map of the storage is filed under the [id] of its
    record, and no key comes twice. *)
Definition keyed {V} (id : V -> string) (m : object V) : Prop :=
  List.NoDup (map fst m) /\ List.Forall (fun e => id (snd e) = fst e) m.

Definition well_keyed (st : Storage.MemStorage) : Prop :=
  keyed Storage.ExcelFile.id (Storage.excelFiles st)
  /\ keyed Storage.ExcelData.id (Storage.excelData st).


(** Reading a field of a CSV line back: a field that opens with a double
    quote runs to the first double quote that is not doubled, and every
    doubled one stands for one; any other field stands for itself. *)
Fixpoint undouble (l : list ascii) : list ascii :=
  match l with
  | [] => []
  | c :: l' =>
      if (code c =? 34)%N then
        match l' with
        | d :: l'' => if (code d =? 34)%N then c :: undouble l'' else []
        | [] => []
        end
      else c :: undouble l'
  end.

Definition csv_read (field : string) : string :=
  match string_to_list field with
  | c :: body => if (code c =? 34)%N then list_to_string (undouble body) else field
  | [] => field
  end.

(** The cell is not the number NaN. *)
Definition not_nan_cell (v : any) : bool :=
  match v with JNum x => negb (is_nan x) | _ => true end.

(** Reading a CSV line: the line is cut at the commas that are outside
    double quotes, and each field is read back. *)
Fixpoint split_fields (quoted : bool) (field : list ascii) (l : list ascii)
  : list (list ascii) :=
  match l with
  | [] => [rev field]
  | c :: l' =>
      if (code c =? 34)%N then split_fields (negb quoted) (c :: field) l'
      else if (code c =? 44)%N && negb quoted
           then rev field :: split_fields false [] l'
           else split_fields quoted (c :: field) l'
  end.

Definition read_line (line : string) : list string :=
  map (fun f => csv_read (list_to_string f))
      (split_fields false [] (string_to_list line)).

(** A text whose commas all stand between double quotes, and whose double
    quotes are paired, starting inside ([quoted]) or outside of quotes. *)
Fixpoint well_quoted (quoted : bool) (l : list ascii) : bool :=
  match l with
  | [] => negb quoted
  | c :: l' =>
      if (code c =? 34)%N then well_quoted (negb quoted) l'
      else if (code c =? 44)%N then quoted && well_quoted quoted l'
           else well_quoted quoted l'
  end.

(** The cells whose text does not depend on the printing of numbers and
    dates, and their text; null and undefined are written as nothing. *)
Definition text_cell (v : any) : bool :=
  match v with
  | JStr _ | JNull | JUndefined | JBool _ => true
  | _ => false
  end.

Definition text_of (v : any) : string :=
  match v with
  | JStr s => s
  | JBool true => "true"
  | JBool false => "false"
  | _ => ""
  end.

(** A cell whose text, when it is a string, holds no dollar sign and no
    comma. *)
Definition plain_text (v : any) : bool :=
  match v with
  | JStr s =>
      negb (existsb (fun c => ((code c =? 36) || (code c =? 44))%N)
                    (string_to_list s))
  | _ => true
  end.

(** The column [header] of the dataset is a number column for the type
    inference of the client. *)
Definition typed_number (h : Host) (data : list row) (header : string) : bool :=
  match ExcelUtils.detectColumnType h (column data header) with
  | number => true
  | _ => false
  end.

(** The number [x] is the integer [N], from 1 to 2^53 - 1, in its
    binary64 form of 53 digits. *)
Definition is_integer (x : float) (N : Z) : Prop :=
  exists m : positive,
    Prim2SF x = S754_finite false m (Zdigits2 N - 53)
    /\ Z.pos m = N * 2 ^ (53 - Zdigits2 N).


(** Two finite or infinite numbers are equal when they are the same but
    for the sign of zero. *)
Definition same_number (a b : spec_float) : Prop :=
  match a, b with
  | S754_zero _, S754_zero _ => True
  | S754_infinity s1, S754_infinity s2 => s1 = s2
  | S754_finite s1 m1 e1, S754_finite s2 m2 e2 => s1 = s2 /\ m1 = m2 /\ e1 = e2
  | _, _ => False
  end.

End Shape.
(** ** Basic facts about the primitive operations *)

Module Facts.
Import Js Stats Model.

Lemma is_nan_zero : is_nan 0%float = false.
Proof. reflexivity. Qed.

(** [x || 0] is never [NaN]: the filters of the chart projections that test
    [!isNaN] after this defaulting keep every point. *)
Lemma or_zero_not_nan (x : float) : is_nan (or_zero x) = false.
Proof.
  unfold or_zero.
  destruct (is_zero x) eqn:Hz; simpl; [reflexivity|].
  destruct (is_nan x) eqn:Hn; [reflexivity | exact Hn].
Qed.

Lemma filter_all {A} (f : A -> bool) (l : list A) :
  List.Forall (fun a => f a = true) l -> List.filter f l = l.
Proof.
  induction 1 as [|a l Ha _ IH]; simpl; [reflexivity|].
  now rewrite Ha, IH.
Qed.

Lemma filter_length_le {A} (f : A -> bool) (l : list A) :
  (List.length (List.filter f l) <= List.length l)%nat.
Proof.
  induction l as [|a l IH]; simpl; [lia|].
  destruct (f a); simpl; lia.
Qed.

Lemma mapi_from_length {A B} (f : A -> nat -> B) (l : list A) (i : nat) :
  List.length (mapi_from i f l) = List.length l.
Proof.
  revert i; induction l as [|a l IH]; intros i; simpl; [reflexivity|].
  now rewrite IH.
Qed.

Lemma mapi_from_Forall {A B} (P : B -> Prop) (f : A -> nat -> B) (l : list A) :
  (forall a i, P (f a i)) -> forall i, List.Forall P (mapi_from i f l).
Proof.
  intros Hf; induction l as [|a l IH]; intros i; simpl; constructor; auto.
Qed.

Lemma mapi_from_ext {A B} (f g : A -> nat -> B) (l : list A) (i : nat) :
  List.Forall (fun a => forall j, f a j = g a j) l ->
  mapi_from i f l = mapi_from i g l.
Proof.
  intros H. revert i. induction H as [|a l Ha _ IH]; intros i; simpl;
    [reflexivity|].
  now rewrite Ha, IH.
Qed.

Lemma mapi_from_lookup {A B} (f : A -> nat -> B) (l : list A) (i k : nat) (a : A) :
  l !! k = Some a -> mapi_from i f l !! k = Some (f a (i + k)%nat).
Proof.
  revert i k; induction l as [|b l IH]; intros i k; [discriminate|].
  destruct k as [|k]; simpl.
  - intros [= ->]. now rewrite Nat.add_0_r.
  - intros H. rewrite (IH (S i) k H). f_equal. f_equal. lia.
Qed.

Lemma slice0_length_le {A} (limit : Z) (l : list A) :
  (List.length (slice0 limit l) <= List.length l)%nat.
Proof.
  unfold slice0. destruct (limit <? 0); rewrite length_firstn; lia.
Qed.

Lemma slice0_length_limit {A} (limit : Z) (l : list A) :
  0 <= limit -> Z.of_nat (List.length (slice0 limit l)) <= limit.
Proof.
  intros H. unfold slice0.
  destruct (limit <? 0) eqn:E; [lia|].
  rewrite length_firstn. lia.
Qed.

(** *** Sorting *)

Section Sorting.
Context {A : Type} (gt : A -> A -> bool).

Lemma sort_insert_perm (x : A) (l : list A) :
  Permutation (sort_insert gt x l) (x :: l).
Proof.
  induction l as [|y l IH]; simpl; [reflexivity|].
  destruct (gt x y); [|reflexivity].
  rewrite IH. apply perm_swap.
Qed.

Lemma sort_perm (l : list A) : Permutation (sort gt l) l.
Proof.
  induction l as [|x l IH]; simpl; [reflexivity|].
  rewrite sort_insert_perm. now constructor.
Qed.

Lemma sort_length (l : list A) : List.length (sort gt l) = List.length l.
Proof. apply Permutation_length, sort_perm. Qed.

(** The comparator orders by a measure [m], smaller first. *)
Context (m : A -> Z) (Hgt : forall a b, gt a b = (m b <? m a)).

Lemma sort_insert_sorted (x : A) (l : list A) :
  StronglySorted (fun a b => m a <= m b) l ->
  StronglySorted (fun a b => m a <= m b) (sort_insert gt x l).
Proof.
  induction 1 as [|y l Hs IH Hy]; simpl.
  - constructor; constructor.
  - rewrite Hgt. destruct (m y <? m x) eqn:E.
    + apply Z.ltb_lt in E. constructor; [exact IH|].
      apply (Permutation_Forall (x := x :: l)).
      * symmetry. apply sort_insert_perm.
      * constructor; [lia | exact Hy].
    + apply Z.ltb_ge in E. constructor; [now constructor|].
      constructor; [exact E|].
      eapply List.Forall_impl; [|exact Hy]. simpl. intros; lia.
Qed.

Lemma sort_sorted (l : list A) :
  StronglySorted (fun a b => m a <= m b) (sort gt l).
Proof.
  induction l as [|x l IH]; simpl; [constructor|].
  now apply sort_insert_sorted.
Qed.

(** Stability: the elements of one measure keep their order. *)
Lemma sort_insert_stable (c : Z) (x : A) (l : list A) :
  List.filter (fun a => m a =? c) (sort_insert gt x l)
  = List.filter (fun a => m a =? c) (x :: l).
Proof.
  induction l as [|y l IH]; [reflexivity|].
  simpl sort_insert. rewrite Hgt. destruct (m y <? m x) eqn:E; [|reflexivity].
  apply Z.ltb_lt in E. simpl in *. rewrite IH.
  destruct (m x =? c) eqn:Ex; [|reflexivity].
  destruct (m y =? c) eqn:Ey; [|reflexivity].
  apply Z.eqb_eq in Ex, Ey. lia.
Qed.

Lemma sort_stable (c : Z) (l : list A) :
  List.filter (fun a => m a =? c) (sort gt l) = List.filter (fun a => m a =? c) l.
Proof.
  induction l as [|x l IH]; [reflexivity|].
  simpl sort. rewrite sort_insert_stable. simpl. now rewrite IH.
Qed.

End Sorting.

Lemma sort_insert_map {A B} (f : A -> B) (gtA : A -> A -> bool) (gtB : B -> B -> bool)
    (x : A) (l : list A) :
  (forall a b, gtA a b = gtB (f a) (f b)) ->
  map f (sort_insert gtA x l) = sort_insert gtB (f x) (map f l).
Proof.
  intros H. induction l as [|y l IH]; simpl; [reflexivity|].
  rewrite <- H. destruct (gtA x y); simpl; [now rewrite IH | reflexivity].
Qed.

Lemma sort_map {A B} (f : A -> B) (gtA : A -> A -> bool) (gtB : B -> B -> bool)
    (l : list A) :
  (forall a b, gtA a b = gtB (f a) (f b)) ->
  map f (sort gtA l) = sort gtB (map f l).
Proof.
  intros H. induction l as [|x l IH]; simpl; [reflexivity|].
  now rewrite (sort_insert_map f gtA gtB), IH.
Qed.

Lemma filter_map_comm {A B} (f : A -> B) (p : B -> bool) (l : list A) :
  map f (List.filter (fun a => p (f a)) l) = List.filter p (map f l).
Proof.
  induction l as [|a l IH]; simpl; [reflexivity|].
  destruct (p (f a)); simpl; now rewrite IH.
Qed.

Lemma filter_filter_and {A} (p q : A -> bool) (l : list A) :
  List.filter p (List.filter q l) = List.filter (fun a => q a && p a) l.
Proof.
  induction l as [|a l IH]; simpl; [reflexivity|].
  destruct (q a); simpl; [destruct (p a); now rewrite IH | exact IH].
Qed.

Lemma filter_ext_in' {A} (p q : A -> bool) (l : list A) :
  (forall a, In a l -> p a = q a) -> List.filter p l = List.filter q l.
Proof.
  intros H. induction l as [|a l IH]; simpl; [reflexivity|].
  rewrite (H a (or_introl eq_refl)), IH; [reflexivity|].
  intros b Hb. apply H. now right.
Qed.

(** *** Objects used as frequency tables *)

Section Tables.

Definition get_count (o : object nat) (k : string) : nat :=
  default 0%nat (obj_get o k).

Definition has_key {V} (o : object V) (k : string) : bool :=
  existsb (String.eqb k) (map fst o).

Lemma obj_get_set_eq {V} (o : object V) (k : string) (v : V) :
  obj_get (obj_set o k v) k = Some v.
Proof.
  induction o as [|[k' v'] o IH]; simpl.
  - now rewrite String.eqb_refl.
  - destruct (String.eqb k' k) eqn:E; simpl; rewrite E; [reflexivity | exact IH].
Qed.

Lemma obj_get_set_ne {V} (o : object V) (k k' : string) (v : V) :
  k <> k' -> obj_get (obj_set o k v) k' = obj_get o k'.
Proof.
  intros Hne. induction o as [|[k0 v0] o IH]; simpl.
  - destruct (String.eqb_spec k k'); [contradiction | reflexivity].
  - destruct (String.eqb_spec k0 k) as [->|Hk]; simpl.
    + destruct (String.eqb_spec k k'); [contradiction | reflexivity].
    + destruct (String.eqb k0 k'); [reflexivity | exact IH].
Qed.

Lemma has_key_get {V} (o : object V) (k : string) :
  has_key o k = match obj_get o k with Some _ => true | None => false end.
Proof.
  unfold has_key. induction o as [|[k' v'] o IH]; simpl; [reflexivity|].
  rewrite (String.eqb_sym k k'). destruct (String.eqb k' k); [reflexivity | exact IH].
Qed.

Lemma obj_set_keys {V} (o : object V) (k : string) (v : V) :
  map fst (obj_set o k v)
  = if has_key o k then map fst o else (map fst o ++ [k])%list.
Proof.
  unfold has_key. induction o as [|[k' v'] o IH]; simpl; [reflexivity|].
  rewrite (String.eqb_sym k k').
  destruct (String.eqb k' k) eqn:E; simpl; [reflexivity|].
  rewrite IH. now destruct (existsb (String.eqb k) (map fst o)).
Qed.

Lemma has_key_In {V} (o : object V) (k : string) :
  has_key o k = true <-> In k (map fst o).
Proof.
  unfold has_key. rewrite List.existsb_exists. split.
  - intros [k' [Hin E]]. apply String.eqb_eq in E. now subst.
  - intros Hin. exists k. split; [exact Hin | apply String.eqb_refl].
Qed.

Lemma obj_set_NoDup {V} (o : object V) (k : string) (v : V) :
  List.NoDup (map fst o) -> List.NoDup (map fst (obj_set o k v)).
Proof.
  intros Hnd. rewrite obj_set_keys.
  destruct (has_key o k) eqn:E; [exact Hnd|].
  apply List.NoDup_app; [exact Hnd | repeat constructor; simpl; tauto |].
  intros a Ha [<-|[]].
  apply (has_key_In o k) in Ha. congruence.
Qed.

Lemma obj_get_In {V} (o : object V) (k : string) (v : V) :
  List.NoDup (map fst o) -> In (k, v) o -> obj_get o k = Some v.
Proof.
  induction o as [|[k' v'] o IH]; simpl; [tauto|].
  intros Hnd [[= -> ->]|Hin].
  - now rewrite String.eqb_refl.
  - apply List.NoDup_cons_iff in Hnd as [Hk Hnd].
    destruct (String.eqb_spec k' k) as [->|Hne]; [|now apply IH].
    exfalso. apply Hk. apply List.in_map_iff. now exists (k, v).
Qed.

Lemma total_obj_set (o : object nat) (k : string) :
  Spec.total (count_key o k) = S (Spec.total o).
Proof.
  unfold count_key, Spec.total.
  induction o as [|[k' v'] o IH]; simpl; [reflexivity|].
  destruct (String.eqb k' k) eqn:E; simpl; [reflexivity|].
  rewrite IH. lia.
Qed.

Lemma get_count_count_key (o : object nat) (k k' : string) :
  get_count (count_key o k) k'
  = ((if String.eqb k k' then 1 else 0) + get_count o k')%nat.
Proof.
  unfold get_count, count_key.
  destruct (String.eqb_spec k k') as [->|Hne].
  - now rewrite obj_get_set_eq.
  - now rewrite obj_get_set_ne.
Qed.

Lemma count_key_NoDup (o : object nat) (k : string) :
  List.NoDup (map fst o) -> List.NoDup (map fst (count_key o k)).
Proof. apply obj_set_NoDup. Qed.

(** The table after the keys [ks], starting from the table [acc]. *)
Lemma fold_count_key_get (ks : list string) (acc : object nat) (k : string) :
  get_count (fold_left count_key ks acc) k
  = (List.count_occ String.string_dec ks k + get_count acc k)%nat.
Proof.
  revert acc. induction ks as [|k0 ks IH]; intros acc; simpl; [reflexivity|].
  rewrite IH, get_count_count_key.
  destruct (String.string_dec k0 k) as [->|Hne].
  - rewrite String.eqb_refl. lia.
  - destruct (String.eqb_spec k0 k); [contradiction | lia].
Qed.

Lemma fold_count_key_NoDup (ks : list string) (acc : object nat) :
  List.NoDup (map fst acc) -> List.NoDup (map fst (fold_left count_key ks acc)).
Proof.
  revert acc. induction ks as [|k ks IH]; intros acc H; simpl; [exact H|].
  apply IH. now apply count_key_NoDup.
Qed.

Lemma fold_count_key_total (ks : list string) (acc : object nat) :
  Spec.total (fold_left count_key ks acc) = (List.length ks + Spec.total acc)%nat.
Proof.
  revert acc. induction ks as [|k ks IH]; intros acc; simpl; [reflexivity|].
  rewrite IH, total_obj_set. lia.
Qed.

Lemma frequencies_NoDup (ks : list string) :
  List.NoDup (map fst (frequencies ks)).
Proof. apply fold_count_key_NoDup. constructor. Qed.

Lemma frequencies_total (ks : list string) :
  Spec.total (frequencies ks) = List.length ks.
Proof. unfold frequencies. rewrite fold_count_key_total. simpl. unfold Spec.total. simpl. lia. Qed.

(** Each entry of the table holds the number of occurrences of its key. *)
Lemma frequencies_In (ks : list string) (k : string) (c : nat) :
  In (k, c) (frequencies ks) -> c = List.count_occ String.string_dec ks k.
Proof.
  intros Hin.
  pose proof (obj_get_In _ k c (frequencies_NoDup ks) Hin) as Hget.
  pose proof (fold_count_key_get ks [] k) as Hc.
  unfold frequencies in Hget. unfold get_count in Hc. rewrite Hget in Hc.
  simpl in Hc. lia.
Qed.

Lemma has_key_count_key (o : object nat) (k k' : string) :
  has_key (count_key o k) k' = String.eqb k k' || has_key o k'.
Proof.
  rewrite !has_key_get. unfold count_key.
  destruct (String.eqb_spec k k') as [->|Hne].
  - now rewrite obj_get_set_eq.
  - now rewrite obj_get_set_ne.
Qed.

(** The keys of the table are created in the order of their first
    occurrence. *)
Lemma fold_count_key_keys (ks : list string) (acc : object nat) :
  map fst (fold_left count_key ks acc)
  = (map fst acc
     ++ List.filter (fun k => negb (has_key acc k)) (Spec.first_seen ks))%list.
Proof.
  revert acc. induction ks as [|k ks IH]; intros acc; simpl.
  - now rewrite List.app_nil_r.
  - rewrite IH. unfold count_key at 1. rewrite obj_set_keys.
    rewrite filter_filter_and.
    assert (Hf : List.filter (fun k' => negb (has_key (count_key acc k) k'))
                   (Spec.first_seen ks)
                 = List.filter (fun a => negb (String.eqb k a) && negb (has_key acc a))
                     (Spec.first_seen ks)).
    { apply filter_ext_in'. intros a _. rewrite has_key_count_key.
      now destruct (String.eqb k a), (has_key acc a). }
    rewrite Hf. destruct (has_key acc k); simpl; [reflexivity|].
    now rewrite <- List.app_assoc.
Qed.

Lemma frequencies_keys (ks : list string) :
  map fst (frequencies ks) = Spec.first_seen ks.
Proof.
  unfold frequencies. rewrite fold_count_key_keys. simpl.
  apply filter_all. apply List.Forall_forall. reflexivity.
Qed.

Lemma first_seen_In (ks : list string) (k : string) :
  In k (Spec.first_seen ks) -> In k ks.
Proof.
  revert k. induction ks as [|k0 ks IH]; intros k; simpl; [tauto|].
  intros [->|Hin]; [now left|].
  apply List.filter_In in Hin as [Hin _]. right. now apply IH.
Qed.

Lemma filter_split_perm {A} (p : A -> bool) (l : list A) :
  Permutation (List.filter p l ++ List.filter (fun a => negb (p a)) l) l.
Proof.
  induction l as [|a l IH]; simpl; [reflexivity|].
  destruct (p a); simpl.
  - now constructor.
  - rewrite <- Permutation_middle. now constructor.
Qed.

Lemma entries_perm {V} (o : object V) : Permutation (entries o) o.
Proof.
  unfold entries. rewrite sort_perm.
  apply (filter_split_perm (fun e => is_array_index (fst e))).
Qed.

(** The order of [Object.keys] in terms of the order of creation. *)
Lemma entries_keys {V} (o : object V) :
  Js.keys o = Spec.own_key_order (map fst o).
Proof.
  unfold Js.keys, entries, Spec.own_key_order.
  rewrite List.map_app. f_equal.
  - rewrite (sort_map fst _ (fun a b => index_of b <? index_of a)) by reflexivity.
    f_equal. apply (filter_map_comm fst is_array_index).
  - apply (filter_map_comm fst (fun k => negb (is_array_index k))).
Qed.

Lemma total_perm (l1 l2 : list (string * nat)) :
  Permutation l1 l2 -> Spec.total l1 = Spec.total l2.
Proof.
  unfold Spec.total. induction 1; simpl; try lia.
Qed.

Lemma total_app (l1 l2 : list (string * nat)) :
  Spec.total (l1 ++ l2) = (Spec.total l1 + Spec.total l2)%nat.
Proof.
  unfold Spec.total. induction l1 as [|a l1 IH]; simpl; [reflexivity|].
  rewrite IH. lia.
Qed.

End Tables.

(** *** Prefixes, searches and maxima *)

Lemma slice0_all {A} (limit : Z) (l : list A) :
  Z.of_nat (List.length l) <= limit -> slice0 limit l = l.
Proof.
  intros H. unfold slice0. destruct (limit <? 0) eqn:E.
  - apply Z.ltb_lt in E. lia.
  - apply List.firstn_all2. lia.
Qed.

Lemma slice0_prefix {A} (limit : Z) (l : list A) :
  exists rest, l = (slice0 limit l ++ rest)%list.
Proof.
  unfold slice0. destruct (limit <? 0); eexists; symmetry; apply firstn_skipn.
Qed.

Lemma StronglySorted_prefix {A} (R : A -> A -> Prop) (l1 l2 : list A) :
  StronglySorted R (l1 ++ l2) -> StronglySorted R l1.
Proof.
  induction l1 as [|a l1 IH]; simpl; intros H; [constructor|].
  inversion H as [|? ? Hs Hf]; subst. constructor; [now apply IH|].
  apply List.Forall_app in Hf. tauto.
Qed.

Lemma find_first {A} (p : A -> bool) (l : list A) (x : A) :
  List.find p l = Some x ->
  exists pre post, l = (pre ++ x :: post)%list /\ p x = true
                   /\ List.Forall (fun a => p a = false) pre.
Proof.
  induction l as [|a l IH]; simpl; [discriminate|].
  destruct (p a) eqn:E.
  - intros [= ->]. exists [], l. repeat split; [exact E | constructor].
  - intros H. destruct (IH H) as [pre [post [-> [Hx Hpre]]]].
    exists (a :: pre), post. repeat split; [exact Hx | now constructor].
Qed.

Lemma find_exists {A} (p : A -> bool) (l : list A) (a : A) :
  In a l -> p a = true -> exists x, List.find p l = Some x.
Proof.
  intros Hin Hp. destruct (List.find p l) as [x|] eqn:E; [now exists x|].
  rewrite (List.find_none p l E a Hin) in Hp. discriminate.
Qed.

Lemma max_ge (l : list nat) (c : nat) :
  In c l -> (c <= fold_right Nat.max 0%nat l)%nat.
Proof.
  induction l as [|a l IH]; simpl; [tauto|].
  intros [->|Hin]; [lia|]. specialize (IH Hin). lia.
Qed.

Lemma max_attained (l : list nat) :
  l <> [] -> In (fold_right Nat.max 0%nat l) l.
Proof.
  induction l as [|a l IH]; [congruence|]. intros _. simpl.
  destruct l as [|b l].
  - left. simpl. lia.
  - destruct (Nat.max_spec a (fold_right Nat.max 0%nat (b :: l))) as [[_ ->]|[_ ->]].
    + right. apply IH. congruence.
    + now left.
Qed.

End Facts.

(** ** Rounding of binary64 operations on array lengths *)

(** The comparisons of the source between a count and a fraction of a
    length are computed on binary64 numbers.  This part relates them to
    the exact comparisons, from the specification of the operations
    ([SpecFloat]): rounding moves a quotient or a product to one of its two
    neighbours of 53 digits. *)

Module FloatFacts.
Import Js.

(** *** Digits *)

Lemma digits2_pos_size (p : positive) : digits2_pos p = Pos.size p.
Proof. induction p as [p IH|p IH|]; simpl; now rewrite ?IH. Qed.

Lemma Zdigits2_bounds (m : Z) :
  0 < m -> 2 ^ (Zdigits2 m - 1) <= m < 2 ^ Zdigits2 m.
Proof.
  destruct m as [|p|p]; try lia. intros _. unfold Zdigits2.
  rewrite digits2_pos_size.
  pose proof (Pos.size_gt p) as Hgt. pose proof (Pos.size_le p) as Hle.
  apply Pos2Z.pos_lt_pos in Hgt. apply Pos2Z.pos_le_pos in Hle.
  rewrite Pos2Z.inj_pow in Hgt, Hle.
  split; [|exact Hgt].
  replace (Z.pos (Pos.size p)) with (Z.pos (Pos.size p) - 1 + 1) in Hle by lia.
  rewrite Z.pow_add_r in Hle by lia. change (2 ^ 1) with 2 in Hle. lia.
Qed.

Lemma Zdigits2_unique (m d : Z) :
  2 ^ (d - 1) <= m < 2 ^ d -> 0 < m -> Zdigits2 m = d.
Proof.
  intros [Hlo Hhi] Hm. pose proof (Zdigits2_bounds m Hm) as [Hlo' Hhi'].
  assert (Hd : 0 < d).
  { destruct (Z_lt_le_dec 0 d) as [|Hd]; [assumption|]. exfalso.
    destruct (Z.eq_dec d 0) as [->|Hne]; [simpl in Hhi; lia|].
    rewrite Z.pow_neg_r in Hhi by lia. lia. }
  assert (Hd' : 0 < Zdigits2 m) by (destruct m; simpl; lia).
  assert (H1 : Zdigits2 m - 1 < d).
  { apply (Z.pow_lt_mono_r_iff 2); lia. }
  assert (H2 : d - 1 < Zdigits2 m).
  { apply (Z.pow_lt_mono_r_iff 2); lia. }
  lia.
Qed.

(** *** Shifting a mantissa to the right *)

Lemma shr_1_m (mrs : shr_record) :
  0 <= shr_m mrs -> shr_m (shr_1 mrs) = shr_m mrs / 2.
Proof.
  destruct mrs as [m r s]. cbn [shr_m]. intros Hm.
  destruct m as [|[p|p|]|p]; cbn [shr_1 shr_m];
    try lia; Z.div_mod_to_equations; lia.
Qed.

Lemma iter_pos_shr_m (p : positive) (mrs : shr_record) :
  0 <= shr_m mrs ->
  shr_m (SpecFloat.iter_pos shr_1 p mrs) = shr_m mrs / 2 ^ Z.pos p.
Proof.
  revert mrs. induction p as [p IH|p IH|]; intros mrs Hm; cbn [SpecFloat.iter_pos].
  - assert (H1 : 0 <= shr_m (shr_1 mrs)).
    { rewrite shr_1_m by assumption. apply Z.div_pos; lia. }
    assert (H2 : 0 <= shr_m (SpecFloat.iter_pos shr_1 p (shr_1 mrs))).
    { rewrite IH by assumption. apply Z.div_pos; [assumption|]. apply Z.pow_pos_nonneg; lia. }
    rewrite IH, IH, shr_1_m by assumption.
    rewrite !Z.div_div; try lia; try (apply Z.pow_pos_nonneg; lia).
    f_equal. replace (Z.pos p~1) with (1 + Z.pos p + Z.pos p) by lia.
    rewrite !Z.pow_add_r by lia. change (2 ^ 1) with 2. lia.
  - assert (H2 : 0 <= shr_m (SpecFloat.iter_pos shr_1 p mrs)).
    { rewrite IH by assumption. apply Z.div_pos; [assumption|]. apply Z.pow_pos_nonneg; lia. }
    rewrite IH, IH by assumption.
    rewrite Z.div_div; try lia; try (apply Z.pow_pos_nonneg; lia).
    f_equal. replace (Z.pos p~0) with (Z.pos p + Z.pos p) by lia.
    rewrite Z.pow_add_r by lia. lia.
  - rewrite shr_1_m by assumption. reflexivity.
Qed.

(** A shift that discards zero bits only is exact. *)
Lemma shr_1_exact (t : Z) :
  0 <= t ->
  shr_1 {| shr_m := 2 * t; shr_r := false; shr_s := false |}
  = {| shr_m := t; shr_r := false; shr_s := false |}.
Proof. destruct t as [|p|p]; simpl; try lia; reflexivity. Qed.

Lemma iter_pos_shr_exact (p : positive) (t : Z) :
  0 <= t ->
  SpecFloat.iter_pos shr_1 p
    {| shr_m := 2 ^ Z.pos p * t; shr_r := false; shr_s := false |}
  = {| shr_m := t; shr_r := false; shr_s := false |}.
Proof.
  revert t. induction p as [p IH|p IH|]; intros t Ht; cbn [SpecFloat.iter_pos].
  - replace (2 ^ Z.pos p~1 * t) with (2 * (2 ^ Z.pos p * (2 ^ Z.pos p * t))).
    + rewrite shr_1_exact, IH, IH; try reflexivity; try assumption.
      * apply Z.mul_nonneg_nonneg; [apply Z.pow_nonneg; lia | assumption].
      * apply Z.mul_nonneg_nonneg; [apply Z.pow_nonneg; lia|].
        apply Z.mul_nonneg_nonneg; [apply Z.pow_nonneg; lia | assumption].
    + replace (Z.pos p~1) with (1 + Z.pos p + Z.pos p) by lia.
      rewrite !Z.pow_add_r by lia. change (2 ^ 1) with 2. lia.
  - replace (2 ^ Z.pos p~0 * t) with (2 ^ Z.pos p * (2 ^ Z.pos p * t)).
    + rewrite IH, IH; try reflexivity; try assumption.
      apply Z.mul_nonneg_nonneg; [apply Z.pow_nonneg; lia | assumption].
    + replace (Z.pos p~0) with (Z.pos p + Z.pos p) by lia.
      rewrite Z.pow_add_r by lia. lia.
  - change (2 ^ 1) with 2. now apply shr_1_exact.
Qed.

(** *** Rounding to 53 digits *)

Lemma shr_m_of_loc (m : Z) (l : location) : shr_m (shr_record_of_loc m l) = m.
Proof. destruct l as [|[]]; reflexivity. Qed.

Lemma fexp_normal (e : Z) : -1074 <= e - 53 -> fexp prec emax e = e - 53.
Proof. intros H. unfold fexp, SpecFloat.emin, prec, emax. lia. Qed.

(** The first step of the rounding: the mantissa loses the digits it has
    beyond 53. *)
Lemma shr_fexp_spec (mx ex : Z) (lx : location) :
  0 < mx -> 0 <= Zdigits2 mx - 53 -> -1074 <= ex + (Zdigits2 mx - 53) ->
  exists mrs,
    shr_fexp prec emax mx ex lx = (mrs, ex + (Zdigits2 mx - 53))
    /\ shr_m mrs = mx / 2 ^ (Zdigits2 mx - 53)
    /\ (lx = loc_Exact -> mx mod 2 ^ (Zdigits2 mx - 53) = 0 ->
        mrs = {| shr_m := mx / 2 ^ (Zdigits2 mx - 53);
                 shr_r := false; shr_s := false |}).
Proof.
  intros Hm Hs He. unfold shr_fexp.
  rewrite fexp_normal by lia.
  replace (Zdigits2 mx + ex - 53 - ex) with (Zdigits2 mx - 53) by lia.
  destruct (Zdigits2 mx - 53) as [|p|p] eqn:Es; [| |lia]; unfold shr.
  - exists (shr_record_of_loc mx lx). rewrite Z.add_0_r, Z.div_1_r.
    split; [reflexivity|]. split; [apply shr_m_of_loc|].
    intros -> _. reflexivity.
  - exists (SpecFloat.iter_pos shr_1 p (shr_record_of_loc mx lx)).
    split; [reflexivity|]. split.
    + rewrite iter_pos_shr_m; rewrite shr_m_of_loc; [reflexivity | lia].
    + intros -> Hmod. cbn [shr_record_of_loc].
      assert (Hpow : 0 < 2 ^ Z.pos p) by (apply Z.pow_pos_nonneg; lia).
      assert (Hdiv : mx = 2 ^ Z.pos p * (mx / 2 ^ Z.pos p)).
      { pose proof (Z.div_mod mx (2 ^ Z.pos p)) as H. lia. }
      rewrite Hdiv at 1. apply iter_pos_shr_exact.
      apply Z.div_pos; lia.
Qed.

Lemma round_nearest_even_cases (m : Z) (l : location) :
  round_nearest_even m l = m \/ round_nearest_even m l = m + 1.
Proof.
  destruct l as [|[]]; simpl; auto. destruct (Z.even m); auto.
Qed.

(** Rounding a positive mantissa of at least 53 digits, away from the
    subnormal and the overflow ranges: the result has 53 digits and is one
    of the two neighbours of the exact value; it is the exact value when
    the digits that are lost are zeros. *)
Lemma binary_round_aux_bounds (mx ex : Z) (lx : location) :
  0 < mx -> 53 <= Zdigits2 mx ->
  -1074 <= ex + (Zdigits2 mx - 53) <= 970 ->
  exists (m' : positive) (e' : Z),
    binary_round_aux prec emax false mx ex lx = S754_finite false m' e'
    /\ Zdigits2 (Z.pos m') = 53
    /\ ((e' = ex + (Zdigits2 mx - 53)
         /\ (Z.pos m' = mx / 2 ^ (Zdigits2 mx - 53)
             \/ Z.pos m' = mx / 2 ^ (Zdigits2 mx - 53) + 1))
        \/ (e' = ex + (Zdigits2 mx - 53) + 1 /\ Z.pos m' = 2 ^ 52
            /\ mx / 2 ^ (Zdigits2 mx - 53) + 1 = 2 ^ 53))
    /\ (lx = loc_Exact -> mx mod 2 ^ (Zdigits2 mx - 53) = 0 ->
        Z.pos m' = mx / 2 ^ (Zdigits2 mx - 53)
        /\ e' = ex + (Zdigits2 mx - 53)).
Proof.
  intros Hm Hd He.
  set (s := Zdigits2 mx - 53) in *. set (q := mx / 2 ^ s).
  assert (Hpow : 0 < 2 ^ s) by (apply Z.pow_pos_nonneg; lia).
  assert (Hq : 2 ^ 52 <= q < 2 ^ 53).
  { pose proof (Zdigits2_bounds mx Hm) as [Hlo Hhi].
    replace (Zdigits2 mx - 1) with (52 + s) in Hlo by lia.
    replace (Zdigits2 mx) with (53 + s) in Hhi by lia.
    rewrite Z.pow_add_r in Hlo, Hhi by lia. unfold q. split.
    - apply Z.div_le_lower_bound; lia.
    - apply Z.div_lt_upper_bound; lia. }
  destruct (shr_fexp_spec mx ex lx) as [mrs [E1 [Hm1 Hx1]]]; try lia.
  fold s in E1, Hm1, Hx1. fold q in Hm1, Hx1.
  unfold binary_round_aux. rewrite E1. cbv beta iota.
  set (q' := round_nearest_even (shr_m mrs) (loc_of_shr_record mrs)).
  assert (Hq' : q' = q \/ q' = q + 1).
  { unfold q'. rewrite Hm1. apply round_nearest_even_cases. }
  assert (Hexact : lx = loc_Exact -> mx mod 2 ^ s = 0 -> q' = q).
  { intros Hl Hmod. unfold q'. now rewrite (Hx1 Hl Hmod). }
  destruct (Z_lt_le_dec q' (2 ^ 53)) as [Hlt|Hge].
  - (* no carry *)
    assert (Hd' : Zdigits2 q' = 53) by (apply Zdigits2_unique; simpl; lia).
    destruct (shr_fexp_spec q' (ex + s) loc_Exact) as [mrs2 [E2 [Hm2 _]]];
      try lia.
    rewrite E2, Hm2, Hd'. cbv beta iota. change (53 - 53) with 0.
    rewrite Z.div_1_r, Z.add_0_r.
    destruct q' as [|m'|m'] eqn:Eq'; try lia.
    assert (Hle : (ex + s <=? emax - prec) = true).
    { apply Z.leb_le. unfold emax, prec. lia. }
    rewrite Hle. exists m', (ex + s).
    split; [reflexivity|]. split; [exact Hd'|]. split.
    + left. split; [reflexivity | exact Hq'].
    + intros Hl Hmod. split; [now apply Hexact | reflexivity].
  - (* the mantissa rounds up to 2^53 *)
    assert (Eq' : q' = 2 ^ 53) by lia.
    assert (Hd' : Zdigits2 q' = 54) by (rewrite Eq'; reflexivity).
    destruct (shr_fexp_spec q' (ex + s) loc_Exact) as [mrs2 [E2 [Hm2 _]]];
      try lia.
    rewrite E2, Hm2, Hd', Eq'. cbv beta iota. change (54 - 53) with 1.
    change (2 ^ 53 / 2 ^ 1) with (Z.pos (2 ^ 52)).
    assert (Hle : (ex + s + 1 <=? emax - prec) = true).
    { apply Z.leb_le. unfold emax, prec. lia. }
    rewrite Hle. exists (2 ^ 52)%positive, (ex + s + 1).
    split; [reflexivity|]. split; [reflexivity|]. split.
    + right. split; [reflexivity|]. split; [reflexivity | lia].
    + intros Hl Hmod. specialize (Hexact Hl Hmod). lia.
Qed.

(** The same, with the values scaled by [2 ^ B] to integers. *)
Lemma binary_round_aux_scaled (mx ex : Z) (lx : location) (B : Z) :
  0 < mx -> 53 <= Zdigits2 mx ->
  -1074 <= ex + (Zdigits2 mx - 53) <= 970 ->
  0 <= ex + (Zdigits2 mx - 53) + B ->
  exists (m' : positive) (e' : Z),
    binary_round_aux prec emax false mx ex lx = S754_finite false m' e'
    /\ Zdigits2 (Z.pos m') = 53
    /\ 0 <= e' + B
    /\ (Z.pos m' * 2 ^ (e' + B)
        = mx / 2 ^ (Zdigits2 mx - 53) * 2 ^ (ex + (Zdigits2 mx - 53) + B)
        \/ Z.pos m' * 2 ^ (e' + B)
           = (mx / 2 ^ (Zdigits2 mx - 53) + 1) * 2 ^ (ex + (Zdigits2 mx - 53) + B))
    /\ (lx = loc_Exact -> mx mod 2 ^ (Zdigits2 mx - 53) = 0 ->
        Z.pos m' * 2 ^ (e' + B)
        = mx / 2 ^ (Zdigits2 mx - 53) * 2 ^ (ex + (Zdigits2 mx - 53) + B)).
Proof.
  intros Hm Hd He HB.
  destruct (binary_round_aux_bounds mx ex lx Hm Hd He)
    as [m' [e' [E [Hd' [Hval Hexact]]]]].
  exists m', e'. split; [exact E|]. split; [exact Hd'|].
  split; [destruct Hval as [[-> _]|[-> _]]; lia|]. split.
  - destruct Hval as [[-> [->| ->]]|[-> [-> Hq]]]; [now left | now right |].
    right. rewrite Hq.
    replace (ex + (Zdigits2 mx - 53) + 1 + B)
      with (1 + (ex + (Zdigits2 mx - 53) + B)) by lia.
    rewrite (Z.pow_add_r 2 1) by lia. change (2 ^ 53) with (2 ^ 52 * 2 ^ 1). lia.
  - intros Hl Hmod. destruct (Hexact Hl Hmod) as [-> ->]. reflexivity.
Qed.

(** *** Comparison of numbers of 53 digits *)

Lemma SFltb_finite (m1 m2 : positive) (e1 e2 B : Z) :
  Zdigits2 (Z.pos m1) = 53 -> Zdigits2 (Z.pos m2) = 53 ->
  0 <= e1 + B -> 0 <= e2 + B ->
  SFltb (S754_finite false m1 e1) (S754_finite false m2 e2)
  = (Z.pos m1 * 2 ^ (e1 + B) <? Z.pos m2 * 2 ^ (e2 + B)).
Proof.
  intros Hd1 Hd2 H1 H2.
  pose proof (Zdigits2_bounds (Z.pos m1) ltac:(lia)) as [Hlo1 Hhi1].
  pose proof (Zdigits2_bounds (Z.pos m2) ltac:(lia)) as [Hlo2 Hhi2].
  rewrite Hd1 in Hlo1, Hhi1. rewrite Hd2 in Hlo2, Hhi2.
  change (2 ^ (53 - 1)) with 4503599627370496 in *.
  change (2 ^ 53) with 9007199254740992 in *.
  unfold SFltb, SFcompare.
  destruct (Z.compare_spec e1 e2) as [->|Hlt|Hgt].
  - assert (Hp : 0 < 2 ^ (e2 + B)) by (apply Z.pow_pos_nonneg; lia).
    change (Pos.compare_cont Eq m1 m2) with (Pos.compare m1 m2).
    destruct (Pos.compare_spec m1 m2) as [->|Hm|Hm]; symmetry.
    + apply Z.ltb_irrefl.
    + apply Z.ltb_lt. apply Z.mul_lt_mono_pos_r; lia.
    + apply Z.ltb_ge. apply Z.mul_le_mono_nonneg_r; lia.
  - symmetry. apply Z.ltb_lt.
    replace (e2 + B) with (e1 + B + (e2 - e1)) by lia.
    rewrite (Z.pow_add_r 2 (e1 + B) (e2 - e1)) by lia.
    assert (Hp : 0 < 2 ^ (e1 + B)) by (apply Z.pow_pos_nonneg; lia).
    assert (Hk : 2 <= 2 ^ (e2 - e1)).
    { change 2 with (2 ^ 1) at 1. apply Z.pow_le_mono_r; lia. }
    set (X := 2 ^ (e1 + B)) in *. set (Y := 2 ^ (e2 - e1)) in *.
    assert (Hxy : 2 * X <= X * Y) by nia.
    assert (Ha : Z.pos m1 * X < 9007199254740992 * X) by nia.
    assert (Hb : 4503599627370496 * (X * Y) <= Z.pos m2 * (X * Y)) by nia.
    lia.
  - symmetry. apply Z.ltb_ge.
    replace (e1 + B) with (e2 + B + (e1 - e2)) by lia.
    rewrite (Z.pow_add_r 2 (e2 + B) (e1 - e2)) by lia.
    assert (Hp : 0 < 2 ^ (e2 + B)) by (apply Z.pow_pos_nonneg; lia).
    assert (Hk : 2 <= 2 ^ (e1 - e2)).
    { change 2 with (2 ^ 1) at 1. apply Z.pow_le_mono_r; lia. }
    set (X := 2 ^ (e2 + B)) in *. set (Y := 2 ^ (e1 - e2)) in *.
    assert (Hxy : 2 * X <= X * Y) by nia.
    assert (Ha : Z.pos m2 * X < 9007199254740992 * X) by nia.
    assert (Hb : 4503599627370496 * (X * Y) <= Z.pos m1 * (X * Y)) by nia.
    lia.
Qed.

(** *** The length of an array as a number *)

Lemma iter_xO (p k : positive) :
  Z.pos (Pos.iter xO p k) = Z.pos p * 2 ^ Z.pos k.
Proof.
  induction k as [|k IH] using Pos.peano_ind.
  - simpl. lia.
  - rewrite Pos.iter_succ, Pos2Z.inj_succ, Z.pow_succ_r by lia.
    rewrite Pos2Z.inj_xO, IH. lia.
Qed.

Lemma nat_to_number_zero : Prim2SF (nat_to_number 0) = S754_zero false.
Proof. reflexivity. Qed.

(** A positive length below 2^53 is represented exactly, with a mantissa
    of 53 digits. *)
Lemma nat_to_number_exact (n : nat) :
  (0 < n)%nat -> Z.of_nat n < 2 ^ 53 ->
  exists m : positive,
    Prim2SF (nat_to_number n)
    = S754_finite false m (Zdigits2 (Z.of_nat n) - 53)
    /\ Z.pos m = Z.of_nat n * 2 ^ (53 - Zdigits2 (Z.of_nat n))
    /\ Zdigits2 (Z.pos m) = 53
    /\ 1 <= Zdigits2 (Z.of_nat n) <= 53.
Proof.
  intros Hn Hlt. unfold nat_to_number.
  rewrite of_uint63_spec, Uint63.of_Z_spec.
  rewrite Z.mod_small by (change wB with (2 ^ 63); lia).
  destruct (Z.of_nat n) as [|p|p] eqn:Ep; try lia.
  pose proof (Zdigits2_bounds (Z.pos p) ltac:(lia)) as [Hlo Hhi].
  set (d := Zdigits2 (Z.pos p)) in *.
  assert (Hd : 1 <= d <= 53).
  { split; [unfold d; simpl; lia|].
    destruct (Z_lt_le_dec 53 d) as [Hbig|]; [|lia]. exfalso.
    assert (2 ^ 53 <= 2 ^ (d - 1)) by (apply Z.pow_le_mono_r; lia). lia. }
  unfold binary_normalize, binary_round.
  change (Z.pos (digits2_pos p)) with d. rewrite fexp_normal by lia.
  replace (d + 0 - 53) with (d - 53) by lia.
  unfold shl_align. rewrite Z.sub_0_r.
  destruct (d - 53) as [|k|k] eqn:Ek; try lia.
  - (* 53 digits already *)
    destruct (binary_round_aux_bounds (Z.pos p) 0 loc_Exact)
      as [m' [e' [E [Hd' [_ Hexact]]]]]; try (fold d; lia).
    fold d in Hexact. rewrite Ek in Hexact. change (2 ^ 0) with 1 in Hexact.
    rewrite Z.mod_1_r, Z.div_1_r in Hexact.
    destruct (Hexact eq_refl eq_refl) as [Hm' He'].
    exists m'. rewrite E, He', Z.add_0_r. injection Hm' as ->.
    replace (53 - d) with 0 by lia. change (2 ^ 0) with 1.
    repeat split; try lia; try exact Hd'.
  - (* shifted to 53 digits *)
    set (mz := Z.pos (Pos.iter xO p k)).
    assert (Hmz : mz = Z.pos p * 2 ^ (53 - d)).
    { unfold mz. rewrite iter_xO. f_equal. f_equal. lia. }
    assert (Hpow : 0 < 2 ^ (53 - d)) by (apply Z.pow_pos_nonneg; lia).
    assert (Hdz : Zdigits2 mz = 53).
    { assert (H52 : 2 ^ 52 = 2 ^ (d - 1) * 2 ^ (53 - d)).
      { rewrite <- Z.pow_add_r by lia. f_equal. lia. }
      assert (H53 : 2 ^ 53 = 2 ^ d * 2 ^ (53 - d)).
      { rewrite <- Z.pow_add_r by lia. f_equal. lia. }
      apply Zdigits2_unique; [|unfold mz; lia].
      change (53 - 1) with 52. rewrite Hmz, H52, H53. split.
      - apply Z.mul_le_mono_nonneg_r; lia.
      - apply Z.mul_lt_mono_pos_r; lia. }
    destruct (binary_round_aux_bounds mz (Z.neg k) loc_Exact)
      as [m' [e' [E [Hd' [_ Hexact]]]]]; try (rewrite ?Hdz; unfold mz; lia).
    rewrite Hdz in Hexact. change (53 - 53) with 0 in Hexact.
    change (2 ^ 0) with 1 in Hexact. rewrite Z.mod_1_r, Z.div_1_r in Hexact.
    destruct (Hexact eq_refl eq_refl) as [Hm' He'].
    exists m'. fold mz. rewrite E, He', Z.add_0_r, Hm'.
    repeat split; try lia; try exact Hd'.
Qed.

Lemma Zdigits2_mono (a b : Z) :
  0 < a -> a <= b -> Zdigits2 a <= Zdigits2 b.
Proof.
  intros Ha Hab.
  pose proof (Zdigits2_bounds a Ha) as [Hlo _].
  pose proof (Zdigits2_bounds b ltac:(lia)) as [_ Hhi].
  assert (0 < Zdigits2 b) by (destruct b; simpl; lia).
  assert (Zdigits2 a - 1 < Zdigits2 b); [|lia].
  apply (Z.pow_lt_mono_r_iff 2); lia.
Qed.

Lemma Zdigits2_below (a d : Z) :
  0 < a -> 0 <= d -> a < 2 ^ d -> Zdigits2 a <= d.
Proof.
  intros Ha Hd Hlt. pose proof (Zdigits2_bounds a Ha) as [Hlo _].
  assert (Zdigits2 a - 1 < d); [|lia].
  apply (Z.pow_lt_mono_r_iff 2); lia.
Qed.

(** *** Thresholds on lengths *)

Definition four_fifths : float := 0.8%float.
Definition one_half : float := 0.5%float.

Lemma Prim2SF_four_fifths :
  Prim2SF 0.8%float = S754_finite false 7205759403792794 (-53).
Proof. reflexivity. Qed.

Lemma Prim2SF_one_half :
  Prim2SF 0.5%float = S754_finite false 4503599627370496 (-53).
Proof. reflexivity. Qed.

(** [k > n * 0.8], computed in binary64 on lengths below 2^32, holds
    exactly when [5 k > 4 n]. *)
Lemma four_fifths_of_length (n k : nat) :
  Z.of_nat n < 2 ^ 32 -> Z.of_nat k < 2 ^ 53 ->
  PrimFloat.ltb (nat_to_number n * 0.8)%float (nat_to_number k)
  = (4 * Z.of_nat n <? 5 * Z.of_nat k).
Proof.
  intros Hn Hk.
  rewrite FloatAxioms.ltb_spec, FloatAxioms.mul_spec, Prim2SF_four_fifths.
  destruct n as [|n'].
  { (* an empty array *)
    rewrite nat_to_number_zero. unfold SF64mul. cbn [SFmul xorb].
    destruct k as [|k'].
    - rewrite nat_to_number_zero. reflexivity.
    - destruct (nat_to_number_exact (S k')) as [mk [-> _]]; try lia.
      symmetry. apply Z.ltb_lt. lia. }
  set (n := S n') in *. set (N := Z.of_nat n) in *.
  assert (HN : 1 <= N) by (unfold N, n; lia).
  destruct (nat_to_number_exact n) as [mn [En [Hmn [Hdn Hd]]]];
    [unfold n; lia | fold N; lia |].
  fold N in En, Hmn, Hd. set (d := Zdigits2 N) in *. rewrite En.
  assert (Hd32 : d <= 32) by (apply Zdigits2_below; lia).
  unfold SF64mul. cbn [SFmul xorb].
  set (mc := 7205759403792794%positive).
  set (mx := Z.pos (mn * mc)).
  assert (Hmx : mx = N * 2 ^ (53 - d) * 7205759403792794).
  { unfold mx. rewrite Pos2Z.inj_mul, Hmn. reflexivity. }
  assert (HA : 0 < 2 ^ (53 - d)) by (apply Z.pow_pos_nonneg; lia).
  pose proof (Zdigits2_bounds (Z.pos mn) ltac:(lia)) as [Hlo Hhi].
  rewrite Hdn in Hlo, Hhi.
  change (2 ^ (53 - 1)) with 4503599627370496 in Hlo.
  change (2 ^ 53) with 9007199254740992 in Hhi.
  set (D := Zdigits2 mx).
  assert (HD : D = 105 \/ D = 106).
  { pose proof (Zdigits2_bounds mx ltac:(unfold mx; lia)) as [HDlo HDhi].
    fold D in HDlo, HDhi.
    assert (Hmxlo : 2 ^ 104 <= mx).
    { unfold mx. rewrite Pos2Z.inj_mul.
      change (2 ^ 104) with (4503599627370496 * 4503599627370496). nia. }
    assert (Hmxhi : mx < 2 ^ 106).
    { unfold mx. rewrite Pos2Z.inj_mul.
      change (2 ^ 106) with (9007199254740992 * 9007199254740992). nia. }
    assert (0 < D) by (unfold D, mx; simpl; lia).
    assert (104 < D) by (apply (Z.pow_lt_mono_r_iff 2); lia).
    assert (D - 1 < 106) by (apply (Z.pow_lt_mono_r_iff 2); lia).
    lia. }
  destruct (binary_round_aux_scaled mx (d - 53 + -53) loc_Exact 106)
    as [m' [e' [-> [Hd' [He' [HV _]]]]]]; try (fold D; unfold mx; lia).
  fold D in HV. set (s := D - 53) in *.
  replace (d - 53 + -53 + s + 106) with (d + s) in HV by lia.
  set (q := mx / 2 ^ s) in *. set (V := Z.pos m' * 2 ^ (e' + 106)) in *.
  assert (HS : 0 < 2 ^ s) by (apply Z.pow_pos_nonneg; lia).
  assert (HT : 0 < 2 ^ d) by (apply Z.pow_pos_nonneg; lia).
  assert (Hq : 2 ^ s * q <= mx < 2 ^ s * (q + 1)).
  { unfold q. split; [apply Z.mul_div_le; lia|].
    apply Z.mul_succ_div_gt; lia. }
  assert (Hds : 2 ^ (d + s) = 2 ^ d * 2 ^ s) by (apply Z.pow_add_r; lia).
  assert (HAT : 2 ^ (53 - d) * 2 ^ d = 2 ^ 53).
  { rewrite <- Z.pow_add_r by lia. f_equal. lia. }
  destruct k as [|k'].
  { rewrite nat_to_number_zero. cbn. symmetry. apply Z.ltb_ge. lia. }
  set (k := S k') in *. set (K := Z.of_nat k) in *.
  destruct (nat_to_number_exact k) as [mk [Ek [Hmk [Hdk Hdk']]]];
    [unfold k; lia | fold K; lia |].
  fold K in Ek, Hmk, Hdk'. set (dk := Zdigits2 K) in *. rewrite Ek.
  rewrite (SFltb_finite m' mk e' (dk - 53) 106) by lia.
  fold V. rewrite Hmk.
  assert (HK : K * 2 ^ (53 - dk) * 2 ^ (dk - 53 + 106) = K * 2 ^ 106).
  { rewrite <- Z.mul_assoc, <- Z.pow_add_r by lia. do 2 f_equal. lia. }
  rewrite HK.
  (* the exact product, scaled: [mx * 2 ^ d = N * 0.8 * 2 ^ 106], nearly *)
  assert (HmxT : mx * 2 ^ d = N * 7205759403792794 * 2 ^ 53).
  { rewrite Hmx, <- HAT. ring. }
  assert (HST : 2 ^ d * 2 ^ s <= 2 ^ 85).
  { change (2 ^ 85) with (2 ^ 32 * 2 ^ 53).
    apply Z.mul_le_mono_nonneg; try lia; apply Z.pow_le_mono_r; lia. }
  change (2 ^ 85) with 38685626227668133590597632 in HST.
  change (2 ^ 106) with 81129638414606681695789005144064.
  change (2 ^ 53) with 9007199254740992 in HmxT.
  change (2 ^ 32) with 4294967296 in Hn.
  destruct (Z.ltb_spec (4 * N) (5 * K)) as [Hlt|Hge].
  - (* 5 k > 4 n *)
    apply Z.ltb_lt.
    assert (HVle : V <= (q + 1) * 2 ^ (d + s)).
    { destruct HV as [-> | ->]; [|lia].
      apply Z.mul_le_mono_nonneg_r; [apply Z.pow_nonneg|]; lia. }
    rewrite Hds in HVle.
    assert (H1 : 2 ^ s * q * 2 ^ d <= mx * 2 ^ d).
    { apply Z.mul_le_mono_nonneg_r; lia. }
    nia.
  - (* 5 k <= 4 n *)
    apply Z.ltb_ge.
    assert (HVge : q * 2 ^ (d + s) <= V).
    { destruct HV as [-> | ->]; [lia|].
      apply Z.mul_le_mono_nonneg_r; [apply Z.pow_nonneg|]; lia. }
    rewrite Hds in HVge.
    set (W := 2 ^ (106 - d - s)).
    assert (HW : W * (2 ^ d * 2 ^ s) = 81129638414606681695789005144064).
    { unfold W. rewrite <- Hds, <- Z.pow_add_r by lia.
      replace (106 - d - s + (d + s)) with 106 by lia. reflexivity. }
    assert (HWS : W * 2 ^ s = 9007199254740992 * 2 ^ (53 - d)).
    { unfold W. rewrite <- Z.pow_add_r by lia.
      change 9007199254740992 with (2 ^ 53). rewrite <- Z.pow_add_r by lia.
      f_equal. lia. }
    assert (HqK : K * W <= q).
    { unfold q. apply Z.div_le_lower_bound; [lia|].
      rewrite Hmx.
      replace (2 ^ s * (K * W)) with (K * (W * 2 ^ s)) by ring.
      rewrite HWS.
      replace (K * (9007199254740992 * 2 ^ (53 - d)))
        with (K * 9007199254740992 * 2 ^ (53 - d)) by ring.
      replace (N * 2 ^ (53 - d) * 7205759403792794)
        with (N * 7205759403792794 * 2 ^ (53 - d)) by ring.
      apply Z.mul_le_mono_nonneg_r; lia. }
    assert (H2 : K * W * (2 ^ d * 2 ^ s) <= q * (2 ^ d * 2 ^ s)).
    { apply Z.mul_le_mono_nonneg_r; lia. }
    replace (K * W * (2 ^ d * 2 ^ s)) with (K * (W * (2 ^ d * 2 ^ s))) in H2 by ring.
    rewrite HW in H2. lia.
Qed.

(** [u < n * 0.5], computed in binary64, holds exactly when [2 u < n]:
    the product by 0.5 is exact. *)
Lemma half_of_length (n u : nat) :
  Z.of_nat n < 2 ^ 32 -> Z.of_nat u < 2 ^ 53 ->
  PrimFloat.ltb (nat_to_number u) (nat_to_number n * 0.5)%float
  = (2 * Z.of_nat u <? Z.of_nat n).
Proof.
  intros Hn Hu.
  rewrite FloatAxioms.ltb_spec, FloatAxioms.mul_spec, Prim2SF_one_half.
  destruct n as [|n'].
  { rewrite nat_to_number_zero. unfold SF64mul. cbn [SFmul xorb].
    destruct u as [|u'].
    - rewrite nat_to_number_zero. reflexivity.
    - destruct (nat_to_number_exact (S u')) as [mu [-> _]]; try lia.
      symmetry. apply Z.ltb_ge. lia. }
  set (n := S n') in *. set (N := Z.of_nat n) in *.
  assert (HN : 1 <= N) by (unfold N, n; lia).
  destruct (nat_to_number_exact n) as [mn [En [Hmn [Hdn Hd]]]];
    [unfold n; lia | fold N; lia |].
  fold N in En, Hmn, Hd. set (d := Zdigits2 N) in *. rewrite En.
  unfold SF64mul. cbn [SFmul xorb].
  set (mx := Z.pos (mn * 4503599627370496)).
  assert (Hmx : mx = Z.pos mn * 2 ^ 52).
  { unfold mx. rewrite Pos2Z.inj_mul. reflexivity. }
  pose proof (Zdigits2_bounds (Z.pos mn) ltac:(lia)) as [Hlo Hhi].
  rewrite Hdn in Hlo, Hhi.
  assert (HD : Zdigits2 mx = 105).
  { apply Zdigits2_unique; [|unfold mx; lia]. rewrite Hmx.
    change (2 ^ (105 - 1)) with (2 ^ (53 - 1) * 2 ^ 52).
    change (2 ^ 105) with (2 ^ 53 * 2 ^ 52). lia. }
  destruct (binary_round_aux_scaled mx (d - 53 + -53) loc_Exact 106)
    as [m' [e' [-> [Hd' [He' [_ HV]]]]]]; try (rewrite ?HD; unfold mx; lia).
  rewrite HD in HV. change (105 - 53) with 52 in HV.
  assert (Hmod : mx mod 2 ^ 52 = 0) by (rewrite Hmx; apply Z.mod_mul; lia).
  specialize (HV eq_refl Hmod).
  rewrite Hmx, Z.div_mul in HV by lia.
  replace (d - 53 + -53 + 52 + 106) with (d + 52) in HV by lia.
  assert (HV' : Z.pos m' * 2 ^ (e' + 106) = N * 2 ^ 105).
  { rewrite HV, Hmn, <- Z.mul_assoc, <- Z.pow_add_r by lia.
    do 2 f_equal. lia. }
  destruct u as [|u'].
  { rewrite nat_to_number_zero. cbn. symmetry. apply Z.ltb_lt. lia. }
  set (u := S u') in *. set (U := Z.of_nat u) in *.
  destruct (nat_to_number_exact u) as [mu [Eu [Hmu [Hdu Hdu']]]];
    [unfold u; lia | fold U; lia |].
  fold U in Eu, Hmu, Hdu'. set (du := Zdigits2 U) in *. rewrite Eu.
  rewrite (SFltb_finite mu m' (du - 53) e' 106) by lia.
  rewrite HV', Hmu.
  assert (HU : U * 2 ^ (53 - du) * 2 ^ (du - 53 + 106) = U * 2 ^ 106).
  { rewrite <- Z.mul_assoc, <- Z.pow_add_r by lia. do 2 f_equal. lia. }
  rewrite HU.
  change (2 ^ 106) with (2 * 2 ^ 105).
  assert (0 < 2 ^ 105) by reflexivity.
  destruct (Z.ltb_spec (2 * U) N); [apply Z.ltb_lt | apply Z.ltb_ge]; nia.
Qed.

(** [k / n > 0.8], computed in binary64 for [k <= n < 2^32], holds exactly
    when [5 k > 4 n]. *)
Lemma fraction_above_four_fifths (n k : nat) :
  (0 < n)%nat -> (k <= n)%nat -> Z.of_nat n < 2 ^ 32 ->
  PrimFloat.ltb 0.8%float (nat_to_number k / nat_to_number n)%float
  = (4 * Z.of_nat n <? 5 * Z.of_nat k).
Proof.
  intros Hn0 Hkn Hn.
  rewrite FloatAxioms.ltb_spec, FloatAxioms.div_spec, Prim2SF_four_fifths.
  set (N := Z.of_nat n) in *.
  destruct (nat_to_number_exact n) as [mn [En [Hmn [Hdn Hd]]]];
    [lia | fold N; lia |].
  fold N in En, Hmn, Hd. set (d := Zdigits2 N) in *. rewrite En.
  assert (Hd32 : d <= 32) by (apply Zdigits2_below; lia).
  destruct k as [|k'].
  { rewrite nat_to_number_zero. cbn. symmetry. apply Z.ltb_ge. lia. }
  set (k := S k') in *. set (K := Z.of_nat k) in *.
  assert (HK1 : 1 <= K <= N) by (unfold K, N, k in *; lia).
  destruct (nat_to_number_exact k) as [mk [Ek [Hmk [Hdk Hdk']]]];
    [unfold k; lia | fold K; lia |].
  fold K in Ek, Hmk, Hdk'. set (dk := Zdigits2 K) in *. rewrite Ek.
  assert (Hdkd : dk <= d) by (apply Zdigits2_mono; lia).
  unfold SF64div. cbn [SFdiv xorb]. unfold SFdiv_core_binary.
  rewrite Hdn, Hdk.
  replace (53 + (dk - 53) - (53 + (d - 53))) with (dk - d) by lia.
  rewrite fexp_normal by lia.
  replace (dk - 53 - (d - 53)) with (dk - d) by lia.
  rewrite Z.min_l by lia.
  replace (dk - d - (dk - d - 53)) with 53 by lia.
  rewrite Z.shiftl_mul_pow2 by lia.
  destruct (Z.div_eucl (Z.pos mk * 2 ^ 53) (Z.pos mn)) as [q0 r] eqn:Edv.
  assert (Hq0 : q0 = Z.pos mk * 2 ^ 53 / Z.pos mn).
  { unfold Z.div. now rewrite Edv. }
  pose proof (Zdigits2_bounds (Z.pos mn) ltac:(lia)) as [Hnlo Hnhi].
  pose proof (Zdigits2_bounds (Z.pos mk) ltac:(lia)) as [Hklo Hkhi].
  rewrite Hdn in Hnlo, Hnhi. rewrite Hdk in Hklo, Hkhi.
  change (2 ^ (53 - 1)) with 4503599627370496 in Hnlo, Hklo.
  change (2 ^ 53) with 9007199254740992 in *.
  assert (Hq0b : Z.pos mn * q0 <= Z.pos mk * 9007199254740992
                 < Z.pos mn * (q0 + 1)).
  { rewrite Hq0. split; [apply Z.mul_div_le; lia|].
    apply Z.mul_succ_div_gt; lia. }
  assert (Hq0lo : 4503599627370496 <= q0).
  { destruct (Z_lt_le_dec q0 4503599627370496) as [Hc|]; [|lia]. exfalso.
    assert (Z.pos mn * (q0 + 1) <= Z.pos mn * 4503599627370496).
    { apply Z.mul_le_mono_nonneg_l; lia. }
    lia. }
  assert (Hq0hi : q0 < 18014398509481984).
  { destruct (Z_lt_le_dec q0 18014398509481984) as [|Hc]; [lia|]. exfalso.
    assert (Z.pos mn * 18014398509481984 <= Z.pos mn * q0).
    { apply Z.mul_le_mono_nonneg_l; lia. }
    lia. }
  set (D := Zdigits2 q0).
  assert (HD : D = 53 \/ D = 54).
  { pose proof (Zdigits2_bounds q0 ltac:(lia)) as [HDlo HDhi].
    fold D in HDlo, HDhi.
    assert (0 < D) by (unfold D; destruct q0; simpl; lia).
    assert (52 < D) by (apply (Z.pow_lt_mono_r_iff 2); lia).
    assert (D - 1 < 54) by (apply (Z.pow_lt_mono_r_iff 2); lia).
    lia. }
  destruct (binary_round_aux_scaled q0 (dk - d - 53)
              (new_location (Z.pos mn) r) 106)
    as [m' [e' [-> [Hd' [He' [HV _]]]]]]; try (fold D; lia).
  fold D in HV. set (s := D - 53) in *.
  replace (dk - d - 53 + s + 106) with (dk - d + 53 + s) in HV by lia.
  set (q := q0 / 2 ^ s) in *. set (V := Z.pos m' * 2 ^ (e' + 106)) in *.
  rewrite (SFltb_finite 7205759403792794 m' (-53) e' 106) by (try reflexivity; lia).
  fold V. change (Z.pos 7205759403792794 * 2 ^ (-53 + 106))
    with 64903710731685348959510906011648.
  (* the quotient of the mantissas in terms of [k], [n] and [R] *)
  set (R := 2 ^ (d - dk)).
  assert (HR : 1 <= R).
  { unfold R. change 1 with (2 ^ 0). apply Z.pow_le_mono_r; lia. }
  assert (HRk : 2 ^ (53 - dk) = R * 2 ^ (53 - d)).
  { unfold R. rewrite <- Z.pow_add_r by lia. f_equal. lia. }
  assert (HA : 0 < 2 ^ (53 - d)) by (apply Z.pow_pos_nonneg; lia).
  assert (HS : 0 < 2 ^ s) by (apply Z.pow_pos_nonneg; lia).
  assert (Hq : 2 ^ s * q <= q0 < 2 ^ s * (q + 1)).
  { unfold q. split; [apply Z.mul_div_le; lia|].
    apply Z.mul_succ_div_gt; lia. }
  rewrite Hmn, Hmk, HRk in Hq0b.
  assert (Hlow : N * q0 <= K * R * 9007199254740992).
  { apply (Z.mul_le_mono_pos_r _ _ (2 ^ (53 - d))); [lia|].
    destruct Hq0b as [H _]. nia. }
  assert (Hupp : K * R * 9007199254740992 < N * (q0 + 1)).
  { apply (Z.mul_lt_mono_pos_r (2 ^ (53 - d))); [lia|].
    destruct Hq0b as [_ H]. nia. }
  set (P := 2 ^ (dk - d + 53)).
  assert (HP : 0 < P) by (apply Z.pow_pos_nonneg; lia).
  assert (HPR : P * R = 9007199254740992).
  { unfold P, R. rewrite <- Z.pow_add_r by lia.
    replace (dk - d + 53 + (d - dk)) with 53 by lia. reflexivity. }
  assert (HPs : 2 ^ (dk - d + 53 + s) = P * 2 ^ s).
  { unfold P. apply Z.pow_add_r; lia. }
  rewrite HPs in HV.
  assert (Hs2 : 2 ^ s = 1 \/ 2 ^ s = 2).
  { unfold s. destruct HD as [-> | ->]; [left | right]; reflexivity. }
  change (2 ^ 32) with 4294967296 in Hn.
  destruct (Z.ltb_spec (4 * N) (5 * K)) as [Hlt|Hge].
  - (* 5 k > 4 n: the rounded quotient is above the constant *)
    apply Z.ltb_lt.
    assert (HVge : q * (P * 2 ^ s) <= V).
    { destruct HV as [-> | ->]; [lia|].
      apply Z.mul_le_mono_nonneg_r; lia. }
    assert (Hq0R : 7205759403792794 * R + 3 <= q0 + 1).
    { destruct (Z_lt_le_dec (q0 + 1) (7205759403792794 * R + 3)) as [Hc|]; [|lia].
      exfalso.
      assert (H1 : N * (q0 + 1) <= N * (7205759403792794 * R + 2)).
      { apply Z.mul_le_mono_nonneg_l; lia. }
      assert (H2 : N * R <= 4294967296 * R)
        by (apply Z.mul_le_mono_nonneg_r; lia).
      assert (H3 : (4 * N + 1) * R <= 5 * K * R).
      { apply Z.mul_le_mono_nonneg_r; lia. }
      replace (N * (7205759403792794 * R + 2))
        with (7205759403792794 * (N * R) + 2 * N) in H1 by ring.
      replace (K * R * 9007199254740992)
        with (9007199254740992 * (K * R)) in Hupp by ring.
      replace ((4 * N + 1) * R) with (4 * (N * R) + R) in H3 by ring.
      replace (5 * K * R) with (5 * (K * R)) in H3 by ring.
      lia. }
    assert (HqR : 7205759403792794 * R + 1 <= 2 ^ s * q) by lia.
    assert (H1 : (7205759403792794 * R + 1) * P <= 2 ^ s * q * P).
    { apply Z.mul_le_mono_nonneg_r; lia. }
    replace ((7205759403792794 * R + 1) * P)
      with (7205759403792794 * (P * R) + P) in H1 by ring.
    rewrite HPR in H1. lia.
  - (* 5 k <= 4 n: the rounded quotient is at most the constant *)
    apply Z.ltb_ge.
    assert (HVle : V <= (q + 1) * (P * 2 ^ s)).
    { destruct HV as [-> | ->]; [|lia].
      apply Z.mul_le_mono_nonneg_r; lia. }
    assert (Hq0R : 2 ^ s * q + 1 <= 7205759403792794 * R).
    { destruct (Z_lt_le_dec (7205759403792794 * R) (2 ^ s * q + 1)) as [Hc|]; [|lia].
      exfalso.
      assert (H1 : N * (7205759403792794 * R) <= N * q0).
      { apply Z.mul_le_mono_nonneg_l; lia. }
      assert (H2 : 0 < N * R) by (apply Z.mul_pos_pos; lia).
      assert (H3 : 5 * K * R <= 4 * N * R).
      { apply Z.mul_le_mono_nonneg_r; lia. }
      replace (N * (7205759403792794 * R))
        with (7205759403792794 * (N * R)) in H1 by ring.
      replace (K * R * 9007199254740992)
        with (9007199254740992 * (K * R)) in Hlow by ring.
      replace (5 * K * R) with (5 * (K * R)) in H3 by ring.
      replace (4 * N * R) with (4 * (N * R)) in H3 by ring.
      lia. }
    assert (Hpar : 2 ^ s * (q + 1) <= 7205759403792794 * R).
    { destruct Hs2 as [E|E]; rewrite E in *; [lia|].
      assert (Heven : 7205759403792794 * R = 2 * (3602879701896397 * R)) by ring.
      lia. }
    assert (H1 : 2 ^ s * (q + 1) * P <= 7205759403792794 * R * P).
    { apply Z.mul_le_mono_nonneg_r; lia. }
    replace (7205759403792794 * R * P)
      with (7205759403792794 * (P * R)) in H1 by ring.
    rewrite HPR in H1. lia.
Qed.

End FloatFacts.

(** ** The definitions of the specification and the functions of the code *)

Module SpecFacts.
Import Js Stats Model Spec Shape Facts.

(** *** Entries *)

Lemma missing_not_present (v : any) : missing v = negb (is_present v).
Proof.
  destruct v as [| |b|x|s|r t|n]; try reflexivity.
  destruct s; reflexivity.
Qed.

Lemma present_entries_nonNull (values : list any) :
  present_entries values = nonNull values.
Proof.
  unfold nonNull.
  induction values as [|v values IH]; [reflexivity|].
  cbn [present_entries List.filter]. rewrite missing_not_present, IH.
  now destruct (is_present v).
Qed.

Lemma count_of_filter {A} (check : A -> bool) (l : list A) :
  count_of check l = List.length (List.filter check l).
Proof.
  induction l as [|a l IH]; [reflexivity|].
  cbn [count_of List.filter]. destruct (check a); cbn [List.length]; now rewrite IH.
Qed.

Lemma count_of_ext {A} (p q : A -> bool) (l : list A) :
  (forall a, p a = q a) -> count_of p l = count_of q l.
Proof.
  intros H. induction l as [|a l IH]; [reflexivity|].
  cbn [count_of]. now rewrite H, IH.
Qed.

Lemma count_of_le {A} (check : A -> bool) (l : list A) :
  (count_of check l <= List.length l)%nat.
Proof. rewrite count_of_filter. apply filter_length_le. Qed.

Lemma count_of_positive {A} (check : A -> bool) (l : list A) :
  Nat.ltb 0 (count_of check l) = existsb check l.
Proof.
  induction l as [|a l IH]; [reflexivity|].
  cbn [count_of existsb]. destruct (check a); [reflexivity | exact IH].
Qed.

(** *** The checks of the type inference *)

Lemma in_dec_existsb (x : string) (l : list string) :
  (if in_dec String.string_dec x l then true else false)
  = existsb (String.eqb x) l.
Proof.
  destruct (in_dec String.string_dec x l) as [Hin|Hout]; symmetry.
  - apply List.existsb_exists. exists x. split; [exact Hin | apply String.eqb_refl].
  - destruct (existsb (String.eqb x) l) eqn:E; [|reflexivity].
    apply List.existsb_exists in E as [y [Hy Hxy]].
    apply String.eqb_eq in Hxy. subst y. contradiction.
Qed.

Lemma boolean_entry_like (v : any) :
  boolean_entry v = ExcelUtils.is_boolean_like v.
Proof.
  destruct v as [| |b|x|s|r t|n]; try reflexivity.
  unfold boolean_entry, ExcelUtils.is_boolean_like. apply in_dec_existsb.
Qed.

Lemma number_entry_like (v : any) :
  number_entry v = ExcelUtils.is_numeric_like v.
Proof.
  destruct v as [| |b|x|s|r t|n]; reflexivity.
Qed.

Lemma date_entry_like (h : Host) (v : any) :
  date_entry h v = ExcelUtils.is_date_like h v.
Proof.
  destruct v as [| |b|x|s|r t|n]; reflexivity.
Qed.

(** *** The values that are numbers after the parse *)

Lemma filter_length_map {A B} (f : A -> B) (p : B -> bool) (l : list A) :
  List.length (List.filter p (map f l))
  = List.length (List.filter (fun a => p (f a)) l).
Proof.
  induction l as [|a l IH]; [reflexivity|].
  cbn [map List.filter]. destruct (p (f a)); cbn [List.length]; now rewrite IH.
Qed.

Lemma filter_length_ext_in {A} (p q : A -> bool) (l : list A) :
  List.Forall (fun a => p a = q a) l ->
  List.length (List.filter p l) = List.length (List.filter q l).
Proof.
  induction 1 as [|a l Ha _ IH]; [reflexivity|].
  cbn [List.filter]. rewrite Ha. destruct (q a); cbn [List.length]; now rewrite IH.
Qed.

Lemma nonNull_present (values : list any) :
  List.Forall (fun v => is_present v = true) (nonNull values).
Proof.
  apply List.Forall_forall. intros v Hv.
  now apply List.filter_In in Hv as [_ Hv].
Qed.

Lemma server_numbers (values : list any) :
  List.length (Server.numericValues values)
  = count_of (number_after_parse false) (present_entries values).
Proof.
  unfold Server.numericValues.
  rewrite filter_length_map, count_of_filter, present_entries_nonNull.
  apply filter_length_ext_in.
  eapply List.Forall_impl; [|apply nonNull_present].
  intros v Hv. destruct v as [| |b|x|s|r t|n]; try discriminate;
    unfold number_after_parse, isNaN; cbn [ToNumber];
    try (now destruct (is_nan _)); try reflexivity.
  now destruct b.
Qed.

Lemma client_numbers (values : list any) :
  List.length (ExcelUtils.numericValues values)
  = count_of (number_after_parse true) (present_entries values).
Proof.
  unfold ExcelUtils.numericValues.
  rewrite filter_length_map, count_of_filter, present_entries_nonNull.
  apply filter_length_ext_in.
  eapply List.Forall_impl; [|apply nonNull_present].
  intros v Hv. destruct v as [| |b|x|s|r t|n]; try discriminate;
    unfold number_after_parse, isNaN; cbn [ToNumber];
    try (now destruct (is_nan _)); try reflexivity.
  now destruct b.
Qed.

(** *** String forms *)

Lemma string_forms_nonNull (h : Host) (values : list any) :
  string_forms h values = map (ToString h) (nonNull values).
Proof. unfold string_forms. now rewrite present_entries_nonNull. Qed.

Lemma total_length_from (h : Host) (l : list any) (n : nat) :
  fold_left (fun acc val => (acc + String.length (ToString h val))%nat) l n
  = (n + total_characters (map (ToString h) l))%nat.
Proof.
  revert n. induction l as [|v l IH]; intros n; cbn [fold_left map total_characters].
  - lia.
  - rewrite IH. lia.
Qed.

Lemma total_length_characters (h : Host) (l : list any) :
  ExcelUtils.total_length h l = total_characters (map (ToString h) l).
Proof. unfold ExcelUtils.total_length. now rewrite total_length_from. Qed.

(** *** Values that parse as numbers *)

Lemma parsable_count_of (h : Host) (values : list any) :
  ChartUtils.parsable_count h values = count_of (parses_as_number h) values.
Proof.
  unfold ChartUtils.parsable_count. rewrite count_of_filter. reflexivity.
Qed.

(** *** Distinct values *)

Lemma SFeqb_same (a b : spec_float) : SFeqb a b = true <-> same_number a b.
Proof.
  unfold SFeqb, SFcompare, same_number.
  destruct a as [[]|[]| |[] ma ea], b as [[]|[]| |[] mb eb];
    try (split; [discriminate | contradiction]);
    try (split; [discriminate | discriminate]);
    try (split; [discriminate | intros [E _]; discriminate]);
    try (split; [trivial | reflexivity]);
    try (split; reflexivity).
  - destruct (Z.compare_spec ea eb) as [->|Hlt|Hgt];
      try (split; [discriminate | intros [_ [_ E]]; lia]).
    change (Pos.compare_cont Eq ma mb) with (Pos.compare ma mb).
    destruct (Pos.compare_spec ma mb) as [->|Hl|Hg]; cbn [CompOpp];
      try (split; [discriminate | intros [_ [E _]]; lia]).
    split; [intros _; repeat split | reflexivity].
  - destruct (Z.compare_spec ea eb) as [->|Hlt|Hgt];
      try (split; [discriminate | intros [_ [_ E]]; lia]).
    change (Pos.compare_cont Eq ma mb) with (Pos.compare ma mb).
    destruct (Pos.compare_spec ma mb) as [->|Hl|Hg]; cbn [CompOpp];
      try (split; [discriminate | intros [_ [E _]]; lia]).
    split; [intros _; repeat split | reflexivity].
Qed.

Lemma same_number_sym (a b : spec_float) : same_number a b -> same_number b a.
Proof.
  destruct a, b; cbn [same_number]; try contradiction; try trivial;
    intuition congruence.
Qed.

Lemma SFeqb_sym (a b : spec_float) : SFeqb a b = SFeqb b a.
Proof.
  destruct (SFeqb a b) eqn:E1, (SFeqb b a) eqn:E2; try reflexivity.
  - apply SFeqb_same, same_number_sym, SFeqb_same in E1. congruence.
  - apply SFeqb_same, same_number_sym, SFeqb_same in E2. congruence.
Qed.

Lemma float_eqb_sym (x y : float) : PrimFloat.eqb x y = PrimFloat.eqb y x.
Proof. rewrite !FloatAxioms.eqb_spec. apply SFeqb_sym. Qed.

Lemma sameValueZero_sym (a b : any) : sameValueZero a b = sameValueZero b a.
Proof.
  destruct a as [| |b1|x1|s1|r1 t1|n1], b as [| |b2|x2|s2|r2 t2|n2];
    try reflexivity; cbn [sameValueZero].
  - now destruct b1, b2.
  - rewrite float_eqb_sym. f_equal. apply Bool.andb_comm.
  - apply String.eqb_sym.
  - apply Nat.eqb_sym.
  - apply String.eqb_sym.
Qed.

Lemma same_number_trans (a b c : spec_float) :
  same_number a b -> same_number a c -> same_number b c.
Proof.
  destruct a, b; cbn [same_number]; try contradiction; destruct c;
    cbn [same_number]; try contradiction; try trivial; intuition congruence.
Qed.

Lemma float_same_trans (x y z : float) :
  PrimFloat.eqb x y || (is_nan x && is_nan y) = true ->
  PrimFloat.eqb x z || (is_nan x && is_nan z) = true ->
  PrimFloat.eqb y z || (is_nan y && is_nan z) = true.
Proof.
  unfold is_nan. rewrite !FloatAxioms.eqb_spec.
  intros Hxy Hxz. apply Bool.orb_true_iff.
  destruct (SFeqb (Prim2SF x) (Prim2SF x)) eqn:Ex.
  - cbn [negb andb] in Hxy, Hxz. rewrite Bool.orb_false_r in Hxy, Hxz.
    left. apply SFeqb_same. apply SFeqb_same in Hxy, Hxz.
    now apply (same_number_trans (Prim2SF x)).
  - assert (Hn : forall w, SFeqb (Prim2SF x) w = false).
    { intros w. destruct (SFeqb (Prim2SF x) w) eqn:Ew; [|reflexivity].
      apply SFeqb_same in Ew.
      assert (same_number (Prim2SF x) (Prim2SF x)); [|apply SFeqb_same in H; congruence].
      destruct (Prim2SF x), w; cbn [same_number] in *; try contradiction; auto. }
    rewrite Hn in Hxy, Hxz. cbn [negb andb orb] in Hxy, Hxz.
    right. now rewrite Hxy, Hxz.
Qed.

Lemma sameValueZero_trans (a b c : any) :
  sameValueZero a b = true -> sameValueZero a c = true ->
  sameValueZero b c = true.
Proof.
  destruct a as [| |b1|x1|s1|r1 t1|n1], b as [| |b2|x2|s2|r2 t2|n2];
    try discriminate; destruct c as [| |b3|x3|s3|r3 t3|n3]; try discriminate;
    cbn [sameValueZero]; try reflexivity.
  - destruct b1, b2, b3; try discriminate; reflexivity.
  - apply float_same_trans.
  - intros E1 E2. apply String.eqb_eq in E1, E2. subst. apply String.eqb_refl.
  - intros E1 E2. apply Nat.eqb_eq in E1, E2. subst. apply Nat.eqb_refl.
  - intros E1 E2. apply String.eqb_eq in E1, E2. subst. apply String.eqb_refl.
Qed.

(** The count of the new values is the size of the [Set] the code
    builds. *)
Lemma count_new_members (seen l : list any) :
  count_new seen l
  = List.length (List.filter (fun y => negb (existsb (sameValueZero y) seen))
                             (Set_members l)).
Proof.
  revert seen. induction l as [|v l IH]; intros seen; [reflexivity|].
  cbn [count_new Set_members List.filter].
  rewrite filter_filter_and.
  destruct (existsb (sameValueZero v) seen) eqn:E; cbn [negb].
  - rewrite IH. f_equal. apply filter_ext_in'. intros y _.
    destruct (sameValueZero v y) eqn:Evy; cbn [negb andb];
      [|now rewrite ?Bool.andb_true_r, ?Bool.andb_true_l].
    destruct (existsb (sameValueZero y) seen) eqn:Ey; [reflexivity|].
    exfalso. apply List.existsb_exists in E as [z [Hz Hvz]].
    assert (existsb (sameValueZero y) seen = true); [|congruence].
    apply List.existsb_exists. exists z. split; [exact Hz|].
    now apply (sameValueZero_trans v).
  - cbn [List.length]. rewrite IH. f_equal. f_equal.
    apply filter_ext_in'. intros y _. cbn [existsb].
    rewrite (sameValueZero_sym y v), Bool.negb_orb.
    first [reflexivity | apply Bool.andb_comm].
Qed.

Lemma distinct_count_Set_size (l : list any) : distinct_count l = Set_size l.
Proof.
  unfold distinct_count, Set_size. rewrite count_new_members.
  f_equal. apply filter_all. apply List.Forall_forall. intros; reflexivity.
Qed.

End SpecFacts.

(** ** The calls on arrays of records, and on arrays with a null element *)

Module CallFacts.
Import Js Stats Model Spec Facts SpecFacts.

Lemma map_from_records {B} (g : option row -> nat -> Completion B)
    (f : row -> nat -> B) :
  (forall r i, g (Some r) i = Returns (f r i)) ->
  forall rows i,
    Call.map_from i g (records rows) = Returns (mapi_from i f rows).
Proof.
  intros Hg. induction rows as [|r rows IH]; intros i; [reflexivity|].
  cbn [records map Call.map_from mapi_from]. rewrite Hg. cbn [Call.bind].
  fold (records rows). rewrite IH. reflexivity.
Qed.

Lemma map_from_null {B} (g : option row -> nat -> Completion B) :
  (forall i, g None i = Throws TypeError) ->
  (forall r i, exists b, g (Some r) i = Returns b) ->
  forall data i,
    In None data -> Call.map_from i g data = Throws TypeError.
Proof.
  intros Hnull Hsome. induction data as [|r data IH]; intros i Hin; [contradiction|].
  cbn [Call.map_from]. destruct r as [r|].
  - destruct (Hsome r i) as [b ->]. cbn [Call.bind].
    rewrite IH; [reflexivity|]. destruct Hin as [E|Hin]; [discriminate | exact Hin].
  - now rewrite Hnull.
Qed.

(** A callback that reads the row raises a [TypeError] or nothing. *)
Lemma map_from_outcome {B} (g : option row -> nat -> Completion B) :
  (forall i, g None i = Throws TypeError) ->
  (forall r i, exists b, g (Some r) i = Returns b) ->
  forall data i,
    (exists bs, Call.map_from i g data = Returns bs)
    \/ Call.map_from i g data = Throws TypeError.
Proof.
  intros Hnull Hsome. induction data as [|r data IH]; intros i.
  - left. now exists [].
  - cbn [Call.map_from]. destruct r as [r|].
    + destruct (Hsome r i) as [b ->]. cbn [Call.bind].
      destruct (IH (S i)) as [[bs ->]| ->]; [left; now eexists | now right].
    + rewrite Hnull. now right.
Qed.

Lemma map_from_no_null {B} (g : option row -> nat -> Completion B) :
  (forall r i, exists b, g (Some r) i = Returns b) ->
  forall data i,
    ~ In None data -> exists bs, Call.map_from i g data = Returns bs.
Proof.
  intros Hsome. induction data as [|r data IH]; intros i Hn.
  - now exists [].
  - cbn [Call.map_from]. destruct r as [r|]; [|exfalso; apply Hn; now left].
    destruct (Hsome r i) as [b ->]. cbn [Call.bind].
    destruct (IH (S i)) as [bs ->]; [intros H; apply Hn; now right|].
    now eexists.
Qed.

Lemma bind_not_named {A B} (c : Completion A) (f : A -> Completion B) :
  ((exists a, c = Returns a) \/ c = Throws TypeError) ->
  (forall a, signals_named (f a) = false) ->
  signals_named (Call.bind c f) = false.
Proof.
  intros [[a ->]| ->] Hf; [apply Hf | reflexivity].
Qed.

Lemma records_no_null (rows : list row) : ~ In None (records rows).
Proof.
  unfold records. intros Hin. apply List.in_map_iff in Hin as [r [E _]].
  discriminate.
Qed.

(** An array without a null element is an array of records. *)
Lemma no_null_records (data : list (option row)) :
  ~ In None data -> exists rows, data = records rows.
Proof.
  induction data as [|r data IH]; intros Hn.
  - now exists [].
  - destruct r as [r|]; [|exfalso; apply Hn; now left].
    destruct IH as [rows ->]; [intros H; apply Hn; now right|].
    now exists (r :: rows).
Qed.

Lemma slice0_records (limit : Z) (rows : list row) :
  slice0 limit (records rows) = records (slice0 limit rows).
Proof.
  unfold slice0, records. rewrite length_map.
  destruct (limit <? 0); now rewrite List.firstn_map.
Qed.

Lemma mapi_from_map {A B} (f : A -> B) (l : list A) (i : nat) :
  mapi_from i (fun a _ => f a) l = map f l.
Proof.
  revert i. induction l as [|a l IH]; intros i; [reflexivity|].
  cbn [mapi_from map]. now rewrite IH.
Qed.

Lemma column_values_records (rows : list row) (column : string) :
  Call.column_values (records rows) column
  = Returns (map (fun r => cell r column) rows).
Proof.
  unfold Call.column_values, Call.map_array.
  rewrite (map_from_records _ (fun r _ => cell r column)) by reflexivity.
  now rewrite mapi_from_map.
Qed.

Lemma column_values_null (data : list (option row)) (column : string) :
  In None data -> Call.column_values data column = Throws TypeError.
Proof.
  intros Hin. unfold Call.column_values, Call.map_array.
  apply map_from_null; [reflexivity | | exact Hin].
  intros r i. now exists (cell r column).
Qed.

(** *** The summary *)

Lemma summary_step_records (rows : list row) (acc : nat * nat * nat)
    (header : string) :
  Call.summary_step (records rows) acc header
  = Returns (Server.summary_step rows acc header).
Proof.
  unfold Call.summary_step, Server.summary_step.
  destruct acc as [[n t] m]. rewrite column_values_records. reflexivity.
Qed.

Lemma forEach_summary_records (rows : list row) (headers : list string)
    (acc : nat * nat * nat) :
  Call.forEach (Call.summary_step (records rows)) headers acc
  = Returns (fold_left (Server.summary_step rows) headers acc).
Proof.
  revert acc. induction headers as [|hd headers IH]; intros acc; [reflexivity|].
  cbn [Call.forEach fold_left]. rewrite summary_step_records. cbn [Call.bind].
  apply IH.
Qed.

Lemma calculateSummaryStats_records (headers : list string) (rows : list row) :
  Call.calculateSummaryStats headers (records rows)
  = Returns (Server.calculateSummaryStats headers rows).
Proof.
  unfold Call.calculateSummaryStats, Server.calculateSummaryStats.
  rewrite forEach_summary_records. cbn [Call.bind].
  unfold records. rewrite length_map.
  destruct (fold_left (Server.summary_step rows) headers (0%nat, 0%nat, 0%nat))
    as [[n t] m]. reflexivity.
Qed.

Lemma calculateSummaryStats_null (headers : list string) (data : list (option row)) :
  headers <> [] -> In None data ->
  Call.calculateSummaryStats headers data = Throws TypeError.
Proof.
  intros Hh Hin. destruct headers as [|hd headers]; [congruence|].
  unfold Call.calculateSummaryStats. cbn [Call.forEach].
  unfold Call.summary_step at 1. rewrite (column_values_null data hd Hin).
  reflexivity.
Qed.

Lemma column_values_outcome (data : list (option row)) (column : string) :
  (exists vs, Call.column_values data column = Returns vs)
  \/ Call.column_values data column = Throws TypeError.
Proof.
  unfold Call.column_values, Call.map_array.
  apply map_from_outcome; [reflexivity|]. intros r i. now eexists.
Qed.

Lemma forEach_summary_outcome (data : list (option row)) (headers : list string)
    (acc : nat * nat * nat) :
  (exists s, Call.forEach (Call.summary_step data) headers acc = Returns s)
  \/ Call.forEach (Call.summary_step data) headers acc = Throws TypeError.
Proof.
  revert acc. induction headers as [|hd headers IH]; intros acc.
  - left. now eexists.
  - cbn [Call.forEach]. unfold Call.summary_step at 1 3.
    destruct acc as [[n t] m].
    destruct (column_values_outcome data hd) as [[vs ->]| ->];
      [cbn [Call.bind]; apply IH | now right].
Qed.

Lemma calculateSummaryStats_not_named (headers : list string)
    (data : list (option row)) :
  signals_named (Call.calculateSummaryStats headers data) = false.
Proof.
  unfold Call.calculateSummaryStats.
  apply bind_not_named; [apply forEach_summary_outcome|].
  intros [[n t] m]. reflexivity.
Qed.

Lemma calculateSummaryStats_returns (headers : list string)
    (data : list (option row)) :
  headers = [] \/ ~ In None data ->
  exists s, Call.calculateSummaryStats headers data = Returns s.
Proof.
  intros [-> | Hn].
  - now eexists.
  - destruct (no_null_records data Hn) as [rows ->].
    rewrite calculateSummaryStats_records. now eexists.
Qed.

(** With an empty header list no row is read. *)
Lemma calculateSummaryStats_no_header (data : list (option row)) :
  exists s, Call.calculateSummaryStats [] data = Returns s
            /\ totalRecords s = List.length data
            /\ totalColumns s = 0%nat /\ missingValues s = 0%nat.
Proof. eexists. split; [reflexivity|]. repeat split. Qed.

(** *** The statistics of a column *)

Section WithHost.
Context (h : Host).

Lemma find_key_mode (counts : object nat) :
  Call.find_key counts (maxCount counts) = find_mode counts.
Proof. reflexivity. Qed.

(** The counts hold one value for each distinct string form. *)
Lemma counts_length (ks : list string) :
  List.length (Js.values (frequencies ks)) = List.length (first_seen ks).
Proof.
  unfold Js.values. rewrite length_map.
  rewrite (Permutation_length (entries_perm (frequencies ks))).
  rewrite <- frequencies_keys. now rewrite length_map.
Qed.

Lemma Server_calculateColumnStatistics_outcome (values : list any)
    (columnName : string) :
  Call.Server_calculateColumnStatistics h values columnName
  = if negb (existsb (number_after_parse false) (present_entries values))
       && Nat.ltb (Max_arguments h) (List.length (first_seen (string_forms h values)))
    then Throws RangeError
    else Returns (Server.calculateColumnStatistics h values columnName).
Proof.
  unfold Call.Server_calculateColumnStatistics, Server.calculateColumnStatistics.
  rewrite <- count_of_positive, <- server_numbers.
  destruct (Nat.ltb 0 (List.length (Server.numericValues values))); [reflexivity|].
  cbn [negb andb]. rewrite string_forms_nonNull.
  destruct (Nat.ltb 0 (List.length (nonNull values))) eqn:En.
  - unfold Call.Math_max_spread. rewrite counts_length.
    destruct (Nat.leb_spec (List.length (first_seen (map (ToString h) (nonNull values))))
                           (Max_arguments h)) as [Hle|Hgt].
    + apply Nat.ltb_ge in Hle. rewrite Hle. reflexivity.
    + apply Nat.ltb_lt in Hgt. rewrite Hgt. reflexivity.
  - apply Nat.ltb_ge in En. destruct (nonNull values); [|cbn in En; lia].
    reflexivity.
Qed.

Lemma ExcelUtils_calculateColumnStatistics_outcome (values : list any)
    (columnType : string) :
  Call.ExcelUtils_calculateColumnStatistics h values columnType
  = if negb (String.eqb columnType "number"
             && existsb (number_after_parse true) (present_entries values))
       && String.eqb columnType "text"
       && Nat.ltb (Max_arguments h) (List.length (first_seen (string_forms h values)))
    then Throws RangeError
    else Returns (ExcelUtils.calculateColumnStatistics h values columnType).
Proof.
  unfold Call.ExcelUtils_calculateColumnStatistics, ExcelUtils.calculateColumnStatistics.
  rewrite <- count_of_positive, <- client_numbers.
  destruct (String.eqb columnType "number"
            && Nat.ltb 0 (List.length (ExcelUtils.numericValues values)));
    [reflexivity|].
  cbn [negb andb]. rewrite string_forms_nonNull.
  destruct (String.eqb columnType "text"); [|reflexivity].
  unfold Call.Math_max_spread. rewrite counts_length.
  destruct (Nat.leb_spec (List.length (first_seen (map (ToString h) (nonNull values))))
                         (Max_arguments h)) as [Hle|Hgt].
  - apply Nat.ltb_ge in Hle. rewrite Hle. reflexivity.
  - apply Nat.ltb_lt in Hgt. rewrite Hgt. reflexivity.
Qed.

(** *** The chart projections *)

Lemma prepareBarChartData_records (rows : list row) (xColumn yColumn : string)
    (limit : option Z) :
  Call.prepareBarChartData h (records rows) xColumn yColumn limit
  = Returns (ChartUtils.prepareBarChartData h rows xColumn yColumn limit).
Proof.
  unfold Call.prepareBarChartData, ChartUtils.prepareBarChartData, Call.map_array.
  rewrite slice0_records.
  rewrite (map_from_records _ (ChartUtils.bar_point h xColumn yColumn))
    by reflexivity.
  reflexivity.
Qed.

Lemma prepareBarChartData_null (data : list (option row))
    (xColumn yColumn : string) (limit : option Z) :
  In None (slice0 (ChartUtils.with_default 20 limit) data) ->
  Call.prepareBarChartData h data xColumn yColumn limit = Throws TypeError.
Proof.
  intros Hin. unfold Call.prepareBarChartData, Call.map_array.
  rewrite map_from_null; [reflexivity | reflexivity | | exact Hin].
  intros r i. eexists. reflexivity.
Qed.

Lemma prepareLineChartData_records (rows : list row) (xColumn yColumn : string)
    (limit : option Z) :
  Call.prepareLineChartData h (records rows) xColumn yColumn limit
  = Returns (ChartUtils.prepareLineChartData h rows xColumn yColumn limit).
Proof.
  unfold Call.prepareLineChartData, ChartUtils.prepareLineChartData, Call.map_array.
  rewrite slice0_records.
  erewrite map_from_records; [reflexivity|]. reflexivity.
Qed.

Lemma preparePieChartData_records (rows : list row) (column : string)
    (limit : option Z) :
  Call.preparePieChartData h (records rows) column limit
  = Returns (ChartUtils.preparePieChartData h rows column limit).
Proof.
  unfold Call.preparePieChartData, ChartUtils.preparePieChartData,
    ChartUtils.pie_entries, Call.map_array.
  rewrite (map_from_records _ (fun r _ => ChartUtils.pie_key h column r))
    by reflexivity.
  cbn [Call.bind]. now rewrite mapi_from_map.
Qed.

Lemma prepareScatterData_records (rows : list row) (xColumn yColumn : string)
    (limit : option Z) :
  Call.prepareScatterData h (records rows) xColumn yColumn limit
  = Returns (ChartUtils.prepareScatterData h rows xColumn yColumn limit).
Proof.
  unfold Call.prepareScatterData, ChartUtils.prepareScatterData, Call.map_array.
  rewrite slice0_records.
  rewrite (map_from_records _ (fun r _ => ChartUtils.scatter_point h xColumn yColumn r))
    by reflexivity.
  cbn [Call.bind]. now rewrite mapi_from_map.
Qed.

Lemma getOptimalChartType_records (rows : list row) (xColumn yColumn : string) :
  Call.getOptimalChartType h (records rows) xColumn yColumn
  = Returns (ChartUtils.getOptimalChartType h rows xColumn yColumn).
Proof.
  unfold Call.getOptimalChartType, ChartUtils.getOptimalChartType.
  unfold records at 1. rewrite length_map.
  destruct (Nat.eqb (List.length rows) 0); [reflexivity|].
  rewrite !column_values_records. reflexivity.
Qed.

(** Each projection returns when no row it reads is [null], and raises a
    [TypeError] when one is. *)
Lemma prepareBarChartData_returns (data : list (option row))
    (xColumn yColumn : string) (limit : option Z) :
  ~ In None (slice0 (ChartUtils.with_default 20 limit) data) ->
  exists points,
    Call.prepareBarChartData h data xColumn yColumn limit = Returns points.
Proof.
  intros Hn. unfold Call.prepareBarChartData, Call.map_array.
  edestruct (@map_from_no_null ChartDataPoint) as [bs ->];
    [| exact Hn | now eexists].
  intros r i. now eexists.
Qed.

Lemma prepareLineChartData_outcome (data : list (option row))
    (xColumn yColumn : string) (limit : option Z) :
  (~ In None (slice0 (ChartUtils.with_default 50 limit) data) ->
   exists points,
     Call.prepareLineChartData h data xColumn yColumn limit = Returns points)
  /\ (In None (slice0 (ChartUtils.with_default 50 limit) data) ->
      Call.prepareLineChartData h data xColumn yColumn limit = Throws TypeError).
Proof.
  unfold Call.prepareLineChartData, Call.map_array. split; intros Hn.
  - edestruct (@map_from_no_null ChartDataPoint) as [bs ->];
      [| exact Hn | now eexists].
    intros r i. now eexists.
  - rewrite map_from_null; [reflexivity | reflexivity | | exact Hn].
    intros r i. now eexists.
Qed.

Lemma preparePieChartData_outcome (data : list (option row))
    (column : string) (limit : option Z) :
  (~ In None data ->
   exists points,
     Call.preparePieChartData h data column limit = Returns points)
  /\ (In None data ->
      Call.preparePieChartData h data column limit = Throws TypeError).
Proof.
  unfold Call.preparePieChartData, Call.map_array. split; intros Hn.
  - edestruct (@map_from_no_null string) as [bs ->];
      [| exact Hn | now eexists].
    intros r i. now eexists.
  - rewrite map_from_null; [reflexivity | reflexivity | | exact Hn].
    intros r i. now eexists.
Qed.

Lemma prepareScatterData_outcome (data : list (option row))
    (xColumn yColumn : string) (limit : option Z) :
  (~ In None (slice0 (ChartUtils.with_default 100 limit) data) ->
   exists points,
     Call.prepareScatterData h data xColumn yColumn limit = Returns points)
  /\ (In None (slice0 (ChartUtils.with_default 100 limit) data) ->
      Call.prepareScatterData h data xColumn yColumn limit = Throws TypeError).
Proof.
  unfold Call.prepareScatterData, Call.map_array. split; intros Hn.
  - edestruct (@map_from_no_null ChartDataPoint) as [bs ->];
      [| exact Hn | now eexists].
    intros r i. now eexists.
  - rewrite map_from_null; [reflexivity | reflexivity | | exact Hn].
    intros r i. now eexists.
Qed.

Lemma getOptimalChartType_outcome (data : list (option row))
    (xColumn yColumn : string) :
  (~ In None data ->
   exists type, Call.getOptimalChartType h data xColumn yColumn = Returns type)
  /\ (In None data ->
      Call.getOptimalChartType h data xColumn yColumn = Throws TypeError).
Proof.
  split; intros Hn.
  - destruct (no_null_records data Hn) as [rows ->].
    rewrite getOptimalChartType_records. now eexists.
  - unfold Call.getOptimalChartType.
    destruct data as [|r data]; [contradiction|]. cbn [List.length Nat.eqb].
    now rewrite (column_values_null _ xColumn Hn).
Qed.

Lemma projections_not_named (data : list (option row))
    (xColumn yColumn : string) (limit : option Z) :
  signals_named (Call.prepareBarChartData h data xColumn yColumn limit) = false
  /\ signals_named (Call.prepareLineChartData h data xColumn yColumn limit) = false
  /\ signals_named (Call.preparePieChartData h data xColumn limit) = false
  /\ signals_named (Call.prepareScatterData h data xColumn yColumn limit) = false
  /\ signals_named (Call.getOptimalChartType h data xColumn yColumn) = false.
Proof.
  repeat split.
  - unfold Call.prepareBarChartData, Call.map_array.
    apply bind_not_named; [|reflexivity].
    apply map_from_outcome; [reflexivity|]. intros r i. now eexists.
  - unfold Call.prepareLineChartData, Call.map_array.
    apply bind_not_named; [|reflexivity].
    apply map_from_outcome; [reflexivity|]. intros r i. now eexists.
  - unfold Call.preparePieChartData, Call.map_array.
    apply bind_not_named; [|reflexivity].
    apply map_from_outcome; [reflexivity|]. intros r i. now eexists.
  - unfold Call.prepareScatterData, Call.map_array.
    apply bind_not_named; [|reflexivity].
    apply map_from_outcome; [reflexivity|]. intros r i. now eexists.
  - unfold Call.getOptimalChartType.
    destruct (Nat.eqb (List.length data) 0); [reflexivity|].
    apply bind_not_named; [apply column_values_outcome|]. intros xs.
    apply bind_not_named; [apply column_values_outcome|]. reflexivity.
Qed.

Lemma statistics_not_named (values : list any) (tag : string) :
  signals_named (Call.Server_calculateColumnStatistics h values tag) = false
  /\ signals_named (Call.ExcelUtils_calculateColumnStatistics h values tag) = false.
Proof.
  rewrite Server_calculateColumnStatistics_outcome,
    ExcelUtils_calculateColumnStatistics_outcome.
  split; match goal with |- signals_named (if ?b then _ else _) = _ => destruct b end;
    reflexivity.
Qed.

End WithHost.

End CallFacts.

(** ** Properties of the frequency tables *)

Module TableProps.
Import Js Stats Model Spec Facts.

Lemma obj_get_Some_In {V} (o : object V) (k : string) (v : V) :
  obj_get o k = Some v -> In (k, v) o.
Proof.
  induction o as [|[k' v'] o IH]; simpl; [discriminate|].
  destruct (String.eqb_spec k' k) as [->|Hne].
  - intros [= ->]. now left.
  - intros H. right. now apply IH.
Qed.

Lemma frequencies_count (ks : list string) (k : string) :
  get_count (frequencies ks) k = List.count_occ String.string_dec ks k.
Proof.
  unfold frequencies. rewrite fold_count_key_get. unfold get_count. simpl. lia.
Qed.

Lemma frequencies_key_order (ks : list string) :
  Js.keys (frequencies ks) = own_key_order (first_seen ks).
Proof. now rewrite entries_keys, frequencies_keys. Qed.

Lemma count_le_maxCount (ks : list string) (k : string) :
  (List.count_occ String.string_dec ks k <= maxCount (frequencies ks))%nat.
Proof.
  rewrite <- frequencies_count. unfold get_count.
  destruct (obj_get (frequencies ks) k) as [c|] eqn:E; simpl; [|lia].
  apply max_ge. unfold Js.values.
  apply List.in_map_iff. exists (k, c). split; [reflexivity|].
  apply (Permutation_in _ (Permutation_sym (entries_perm (frequencies ks)))).
  now apply obj_get_Some_In.
Qed.

(** The mode is the first key, in the order of [Object.keys], whose count
    is the largest one. *)
Lemma find_mode_first_maximum (ks : list string) :
  ks <> [] ->
  exists k pre post,
    find_mode (frequencies ks) = JStr k
    /\ own_key_order (first_seen ks) = (pre ++ k :: post)%list
    /\ In k ks
    /\ (forall k', (List.count_occ String.string_dec ks k'
                    <= List.count_occ String.string_dec ks k)%nat)
    /\ List.Forall (fun k' => (List.count_occ String.string_dec ks k'
                               < List.count_occ String.string_dec ks k)%nat) pre.
Proof.
  intros Hne. set (counts := frequencies ks).
  set (p := fun k => match obj_get counts k with
                     | Some c => Nat.eqb c (maxCount counts)
                     | None => false
                     end).
  assert (Hvals : Js.values counts <> []).
  { unfold Js.values. intros E. apply List.map_eq_nil in E.
    pose proof (Permutation_length (entries_perm counts)) as Hl.
    rewrite E in Hl. simpl in Hl.
    pose proof (frequencies_total ks) as Ht. fold counts in Ht.
    destruct counts; [|discriminate]. unfold total in Ht. simpl in Ht.
    destruct ks; [congruence | discriminate]. }
  pose proof (max_attained _ Hvals) as Hmax. fold (maxCount counts) in Hmax.
  unfold Js.values in Hmax. apply List.in_map_iff in Hmax as [[k0 c0] [Hc0 Hin0]].
  simpl in Hc0. subst c0.
  assert (Hp0 : p k0 = true).
  { unfold p. rewrite (obj_get_In counts k0 (maxCount counts)).
    - apply Nat.eqb_refl.
    - apply frequencies_NoDup.
    - apply (Permutation_in _ (entries_perm counts)). exact Hin0. }
  assert (Hk0 : In k0 (Js.keys counts)).
  { unfold Js.keys. apply List.in_map_iff. now exists (k0, maxCount counts). }
  destruct (find_exists p _ k0 Hk0 Hp0) as [k Hfind].
  destruct (find_first p _ k Hfind) as [pre [post [Hsplit [Hpk Hpre]]]].
  assert (Hk : List.count_occ String.string_dec ks k = maxCount counts).
  { rewrite <- frequencies_count. unfold get_count. fold counts.
    unfold p in Hpk. destruct (obj_get counts k); [|discriminate].
    simpl. now apply Nat.eqb_eq. }
  exists k, pre, post. split; [|split; [|split; [|split]]].
  - unfold find_mode. fold counts. fold p. now rewrite Hfind.
  - rewrite <- frequencies_key_order. exact Hsplit.
  - apply first_seen_In. rewrite <- frequencies_keys. fold counts.
    unfold p in Hpk. destruct (obj_get counts k) as [c|] eqn:E; [|discriminate].
    apply List.in_map_iff. exists (k, c). split; [reflexivity|].
    now apply obj_get_Some_In.
  - intros k'. rewrite Hk. apply count_le_maxCount.
  - eapply List.Forall_impl; [|exact Hpre]. simpl. intros k' Hk'.
    rewrite Hk. pose proof (count_le_maxCount ks k') as Hle. fold counts in Hle.
    assert (List.count_occ String.string_dec ks k' <> maxCount counts); [|lia].
    intros E. rewrite <- frequencies_count in E. unfold get_count in E.
    fold counts in E. unfold p in Hk'.
    destruct (obj_get counts k') as [c|]; simpl in E.
    + subst c. now rewrite Nat.eqb_refl in Hk'.
    + assert (0 < List.count_occ String.string_dec ks k)%nat; [|lia].
      apply List.count_occ_In. apply first_seen_In.
      rewrite <- frequencies_keys. fold counts.
      unfold p in Hpk. destruct (obj_get counts k) as [c|] eqn:E'; [|discriminate].
      apply List.in_map_iff. exists (k, c). split; [reflexivity|].
      now apply obj_get_Some_In.
Qed.

End TableProps.

(** ** Properties of the server statistics *)

Module ServerProps.
Import Js Stats Model Spec Facts SpecFacts.

(** C1. On the dataset with headers ["Region", "Sales"] and the rows
    (East, "100"), (East, "200"), (West, null), the statistics of the column
    "Sales" are count 3, nullCount 1, mean 150, min 100, max 200, median 150,
    variance 2500 and standardDeviation 50, and the summary of the dataset
    is totalRecords 3, totalColumns 2, missingValues 1, dataQuality 83. *)
Theorem sales_scenario (h : Host) :
  let p := Server.calculateColumnStatistics h
             (Examples.column "Sales" Examples.sales_rows) "Sales" in
  let s := Server.calculateSummaryStats Examples.sales_headers Examples.sales_rows in
  (count p = 3%nat /\ nullCount p = 1%nat /\ mean p = Some 150%float
   /\ min p = Some (JNum 100) /\ max p = Some (JNum 200)
   /\ median p = Some (JNum 150) /\ variance p = Some 2500%float
   /\ standardDeviation p = Some 50%float)
  /\ (totalRecords s = 3%nat /\ totalColumns s = 2%nat
      /\ missingValues s = 1%nat /\ dataQuality s = 83%float).
Proof. vm_compute. repeat split; reflexivity. Qed.

(** The claim of C2 fails on the column ["1", "a", "b"]: one of the three
    non-null values parses as a number, which is not more than half of
    them, and the numeric branch is produced all the same. *)
Lemma numeric_branch_below_half :
  let values := [JStr "1"; JStr "a"; JStr "b"] in
  let p := Server.calculateColumnStatistics Examples.host values "c" in
  ~ (branch p = NumericBranch <->
     (List.length (nonNull values) < 2 * List.length (Server.numericValues values))%nat).
Proof.
  vm_compute. intros [H _]. specialize (H eq_refl). lia.
Qed.

(** C2, as the code has it.  The server produces the numeric branch exactly
    when at least one non-null value is a number after the parse: a string
    of which [parseFloat] reads a number, a number that is not [NaN], a
    boolean, or a date with a valid time; it produces the text branch when
    no value is one and a non-null value exists, and the base fields alone
    otherwise.  The client produces the numeric branch exactly when the
    column type it is given is "number" and at least one non-null value is
    a number after the parse, the dollar signs and commas of a string being
    taken out first; it produces the text branch when that fails and the
    type is "text", and the base fields alone otherwise.  The column
    [true, true, null] takes the numeric branch of the server, with the
    mean 1. *)
Theorem branch_selection (h : Host) (values : list any) (tag : string) :
  let kept := present_entries values in
  branch (Server.calculateColumnStatistics h values tag)
  = (if existsb (number_after_parse false) kept then NumericBranch
     else if nonempty kept then TextBranch
     else BaseOnly)
  /\ branch (ExcelUtils.calculateColumnStatistics h values tag)
     = (if String.eqb tag "number" && existsb (number_after_parse true) kept
        then NumericBranch
        else if String.eqb tag "text" then TextBranch
        else BaseOnly)
  /\ (branch (Server.calculateColumnStatistics h [JBool true; JBool true; JNull] tag)
      = NumericBranch
      /\ mean (Server.calculateColumnStatistics h [JBool true; JBool true; JNull] tag)
         = Some 1%float).
Proof.
  intros kept. split; [|split].
  - unfold Server.calculateColumnStatistics, nonempty.
    subst kept. rewrite <- count_of_positive, <- server_numbers.
    rewrite present_entries_nonNull.
    destruct (Nat.ltb 0 (List.length (Server.numericValues values))); [reflexivity|].
    destruct (Nat.ltb 0 (List.length (nonNull values))); reflexivity.
  - unfold ExcelUtils.calculateColumnStatistics.
    subst kept. rewrite <- count_of_positive, <- client_numbers.
    destruct (String.eqb tag "number"
              && Nat.ltb 0 (List.length (ExcelUtils.numericValues values)));
      [reflexivity|].
    destruct (String.eqb tag "text"); reflexivity.
  - split; vm_compute; reflexivity.
Qed.

(** C8.  With an empty header list and one row, the guard on
    [totalRecords] lets the division by the number of cells, which is 0,
    go through: the data quality is [NaN], not an integer between 0 and
    100, although no value is missing. *)
Theorem quality_without_columns :
  let s := Server.calculateSummaryStats [] [(∅ : row)] in
  totalRecords s = 1%nat /\ totalColumns s = 0%nat /\ missingValues s = 0%nat
  /\ is_nan (dataQuality s) = true.
Proof. vm_compute. repeat split; reflexivity. Qed.

(** The claim of C9 fails on the server: on the column ["a", "b"] the text
    branch applies and the profile has no average length. *)
Lemma server_text_branch_lacks_average_length :
  let p := Server.calculateColumnStatistics Examples.host [JStr "a"; JStr "b"] "c" in
  ~ (branch p = TextBranch ->
     is_Some_b (mode p) = true /\ is_Some_b (averageLength p) = true).
Proof.
  vm_compute. intros H. destruct (H eq_refl) as [_ H']. discriminate.
Qed.

(** Its tie-break fails on the client: the keys "2" and "1" are array
    indices, which [Object.keys] lists in ascending order, so the mode of
    ["2", "1"] is "1" although "2" comes first. *)
Lemma client_mode_follows_key_order :
  mode (ExcelUtils.calculateColumnStatistics Examples.host [JStr "2"; JStr "1"] "text")
  = Some (JStr "1").
Proof. vm_compute. reflexivity. Qed.

(** C9, as the code has it.  Whenever the text branch applies, the
    server's profile has the mode and no average length, and a non-null
    value exists; the client's profile has both the mode and the average
    length, which is the sum of the lengths of the string forms of the
    non-null values divided by their number.  The client takes the text
    branch on a column without non-null values as well, when its type is
    "text": the mode is then [undefined] and the average length [NaN].
    When a non-null value exists and no string form is a name inherited
    from [Object.prototype], the mode is a string form of the highest
    frequency, the first of them in the order of the keys of the frequency
    table: array indices ascending, then the other keys in the order of
    their first occurrence. *)
Theorem text_branch_fields (h : Host) (values : list any) (tag : string) :
  let ks := string_forms h values in
  let server := Server.calculateColumnStatistics h values tag in
  let client := ExcelUtils.calculateColumnStatistics h values tag in
  (branch server = TextBranch ->
   ks <> []
   /\ is_Some_b (mode server) = true
   /\ averageLength server = None
   /\ (plain_keys ks -> first_most_frequent ks (mode server)))
  /\ (branch client = TextBranch ->
      is_Some_b (mode client) = true
      /\ averageLength client = Some (mean_length ks)
      /\ (ks = [] ->
          mode client = Some JUndefined /\ is_nan (mean_length ks) = true)
      /\ (ks <> [] -> plain_keys ks -> first_most_frequent ks (mode client))).
Proof.
  intros ks server client.
  assert (Hks : ks = map (ToString h) (nonNull values))
    by apply string_forms_nonNull.
  assert (Hmode : ks <> [] -> first_most_frequent ks (Some (find_mode (frequencies ks)))).
  { intros Hne. destruct (TableProps.find_mode_first_maximum ks Hne)
      as [k [pre [post [Hk H]]]].
    exists k, pre, post. split; [now rewrite Hk | exact H]. }
  split.
  - subst server. unfold Server.calculateColumnStatistics.
    destruct (Nat.ltb 0 (List.length (Server.numericValues values)));
      [discriminate|].
    destruct (Nat.ltb 0 (List.length (nonNull values))) eqn:En; [|discriminate].
    intros _.
    assert (Hne : ks <> []).
    { rewrite Hks. intros E. apply List.map_eq_nil in E. rewrite E in En.
      discriminate. }
    split; [exact Hne|]. split; [reflexivity|]. split; [reflexivity|].
    intros _. cbn [mode]. rewrite <- Hks. now apply Hmode.
  - subst client. unfold ExcelUtils.calculateColumnStatistics.
    destruct (String.eqb tag "number"
              && Nat.ltb 0 (List.length (ExcelUtils.numericValues values)));
      [discriminate|].
    destruct (String.eqb tag "text"); [|discriminate].
    intros _. split; [reflexivity|]. split; [|split].
    + cbn [averageLength]. unfold mean_length.
      assert (Hlen : List.length ks = List.length (nonNull values))
        by (rewrite Hks; apply length_map).
      now rewrite total_length_characters, <- Hks, Hlen.
    + intros E. cbn [mode]. rewrite <- Hks, E. split; reflexivity.
    + intros Hne _. cbn [mode]. rewrite <- Hks. now apply Hmode.
Qed.

(** On the column ["b", "a", "b"] the text branch of both sides has the
    mode "b", and the average length is 1 on the client. *)
Lemma text_branch_fields_witness :
  (exists k, mode (Server.calculateColumnStatistics Examples.host
                     [JStr "b"; JStr "a"; JStr "b"] "c") = Some (JStr k))
  /\ averageLength (ExcelUtils.calculateColumnStatistics Examples.host
                      [JStr "b"; JStr "a"; JStr "b"] "text") = Some 1%float.
Proof.
  destruct (text_branch_fields Examples.host [JStr "b"; JStr "a"; JStr "b"] "c")
    as [Hs _].
  destruct (text_branch_fields Examples.host [JStr "b"; JStr "a"; JStr "b"] "text")
    as [_ Hc].
  split.
  - destruct (Hs eq_refl) as [_ [_ [_ Hm]]].
    destruct Hm as [k [_ [_ [Hk _]]]]; [repeat constructor|].
    now exists k.
  - destruct (Hc eq_refl) as [_ [-> _]]. reflexivity.
Defined.

End ServerProps.

(** ** Properties of the chart projections *)

Module ChartProps.
Import Js Stats Model Spec Facts SpecFacts CallFacts ChartUtils.

Section Projections.
Context (h : Host).

(** The filter of the bar projection is applied after [|| 0] and keeps
    every point. *)
Lemma prepareBarChartData_all (data : list row) (xColumn yColumn : string)
    (limit : option Z) :
  prepareBarChartData h data xColumn yColumn limit
  = mapi (bar_point h xColumn yColumn) (slice0 (with_default 20 limit) data).
Proof.
  unfold prepareBarChartData. apply filter_all.
  apply mapi_from_Forall. intros r i. simpl. now rewrite or_zero_not_nan.
Qed.

(** So is the filter of the scatter projection. *)
Lemma prepareScatterData_all (data : list row) (xColumn yColumn : string)
    (limit : option Z) :
  prepareScatterData h data xColumn yColumn limit
  = map (scatter_point h xColumn yColumn) (slice0 (with_default 100 limit) data).
Proof.
  unfold prepareScatterData. apply filter_all.
  apply List.Forall_forall. intros pt Hin.
  apply List.in_map_iff in Hin as [r [<- _]]. simpl.
  now rewrite !or_zero_not_nan.
Qed.


End Projections.






(** C3.  The scatter projection applies [|| 0] to each coordinate before
    it tests [!isNaN]: the row ("abc", "5"), whose x cell does not parse,
    is returned with the x coordinate 0, and no row among the first
    [limit] ones is ever excluded. *)
Theorem scatter_keeps_unparsed_point :
  let data := [({[ "x" := JStr "abc"; "y" := JStr "5" ]} : row)] in
  is_nan (parseFloat Examples.host (cell ({[ "x" := JStr "abc"; "y" := JStr "5" ]} : row) "x")) = true
  /\ prepareScatterData Examples.host data "x" "y" None
     = [ {| name := "abc, 5"; value := 5%float;
            x := Some 0%float; y := Some 5%float |} ]
  /\ (forall (h : Host) (rows : list row) (xColumn yColumn : string) (limit : option Z),
         List.length (prepareScatterData h rows xColumn yColumn limit)
         = List.length (slice0 (with_default 100 limit) rows)).
Proof.
  split; [reflexivity|]. split; [vm_compute; reflexivity|].
  intros h rows xColumn yColumn limit.
  now rewrite prepareScatterData_all, length_map.
Qed.





(** The comparator of the pie projection orders by descending count. *)
Lemma gt_count_measure (a b : string * nat) :
  gt_count a b = (- Z.of_nat (snd b) <? - Z.of_nat (snd a)).
Proof.
  unfold gt_count.
  destruct (Nat.ltb_spec (snd a) (snd b)); symmetry;
    [apply Z.ltb_lt | apply Z.ltb_ge]; lia.
Qed.

Lemma sort_gt_count_sorted (l : list (string * nat)) :
  StronglySorted (fun a b => (snd b <= snd a)%nat) (sort gt_count l).
Proof.
  pose proof (sort_sorted gt_count _ gt_count_measure l) as H.
  induction H as [|a l' _ IH Hf]; constructor; [exact IH|].
  eapply List.Forall_impl; [|exact Hf]. simpl. intros; lia.
Qed.

Lemma sort_gt_count_stable (c : nat) (l : list (string * nat)) :
  List.filter (fun e => Nat.eqb (snd e) c) (sort gt_count l)
  = List.filter (fun e => Nat.eqb (snd e) c) l.
Proof.
  pose proof (sort_stable gt_count _ gt_count_measure (- Z.of_nat c) l) as H.
  assert (Hp : forall l' : list (string * nat),
             List.filter (fun e => Nat.eqb (snd e) c) l'
             = List.filter (fun a => - Z.of_nat (snd a) =? - Z.of_nat c) l').
  { intros l'. apply filter_ext_in'. intros a _.
    destruct (Nat.eqb_spec (snd a) c); symmetry;
      [apply Z.eqb_eq | apply Z.eqb_neq]; lia. }
  now rewrite !Hp.
Qed.

(** The claim of C6 fails on the column ["2", "1"]: both groups have one
    row, and the points come in the order "1", "2" of the keys of the
    groups object, not in the first-seen order "2", "1". *)
Lemma pie_ties_follow_key_order :
  let data := Examples.strings_under "c" ["2"; "1"] in
  map fst (pie_entries Examples.host data "c" (Some 8)) = ["1"; "2"]
  /\ map fst (pie_by_first_seen (map (pie_key Examples.host "c") data) 8) = ["2"; "1"]
  /\ ~ (pie_entries Examples.host data "c" (Some 8)
        = pie_by_first_seen (map (pie_key Examples.host "c") data) 8).
Proof.
  split; [vm_compute; reflexivity|]. split; [vm_compute; reflexivity|].
  vm_compute. discriminate.
Qed.

(** C6, as the code has it.  The pie projection groups the rows by the
    string form of the cell of the column, the falsy cells under "Unknown".
    For keys that are not names inherited from [Object.prototype], its
    points are the entries [es]: each holds a key and the number of rows
    of that key, the keys are distinct, the counts descend, and their sum
    is at most the number of rows; a non-negative limit bounds the number
    of points.  Ties keep the order of the keys of the groups object: the
    points are a prefix of the stable sort of its entries, which lists the
    array indices in ascending order and then the other keys in first-seen
    order.  Over ["A", "A", "B"] with limit 8 the points are (A, 2),
    (B, 1). *)
Theorem pie_projection (h : Host) (data : list row) (column : string)
    (limit : option Z)
    (Hplain : plain_keys (map (pie_key h column) data)) :
  let ks := map (pie_key h column) data in
  let groups := entries (frequencies ks) in
  let es := pie_entries h data column limit in
  preparePieChartData h data column limit = map pie_point es
  /\ (forall r, pie_key h column r
                = if ToBoolean (cell r column) then ToString h (cell r column)
                  else "Unknown")
  /\ (forall k c, In (k, c) es ->
        c = List.count_occ String.string_dec ks k /\ (1 <= c)%nat)
  /\ List.NoDup (map fst es)
  /\ (0 <= with_default 8 limit -> Z.of_nat (List.length es) <= with_default 8 limit)
  /\ StronglySorted (fun a b => (snd b <= snd a)%nat) es
  /\ (total es <= List.length data)%nat
  /\ (exists rest, sort gt_count groups = (es ++ rest)%list)
  /\ (forall c, List.filter (fun e => Nat.eqb (snd e) c) (sort gt_count groups)
                = List.filter (fun e => Nat.eqb (snd e) c) groups)
  /\ map fst groups = own_key_order (first_seen ks)
  /\ preparePieChartData h (Examples.strings_under "c" ["A"; "A"; "B"]) "c" (Some 8)
     = [ {| name := "A"; value := 2%float; x := None; y := None |};
         {| name := "B"; value := 1%float; x := None; y := None |} ].
Proof.
  intros ks groups es.
  destruct (slice0_prefix (with_default 8 limit) (sort gt_count groups))
    as [rest Hrest].
  change (slice0 (with_default 8 limit) (sort gt_count groups)) with es in Hrest.
  assert (Hperm : Permutation (es ++ rest) (frequencies ks)).
  { rewrite <- Hrest. rewrite sort_perm. apply entries_perm. }
  assert (Hin : forall e, In e es -> In e (frequencies ks)).
  { intros e He. apply (Permutation_in _ Hperm). apply List.in_or_app. now left. }
  split; [reflexivity|]. split; [reflexivity|].
  split; [|split; [|split; [|split; [|split; [|split; [|split; [|split]]]]]]].
  - intros k c Hkc. pose proof (frequencies_In ks k c (Hin _ Hkc)) as Hc.
    split; [exact Hc|]. subst c.
    apply List.count_occ_In. apply first_seen_In. rewrite <- frequencies_keys.
    apply List.in_map_iff. exists (k, List.count_occ String.string_dec ks k).
    split; [reflexivity | now apply Hin].
  - pose proof (frequencies_NoDup ks) as Hnd.
    apply (Permutation_NoDup (Permutation_sym (Permutation_map fst Hperm))) in Hnd.
    rewrite List.map_app in Hnd. now apply List.NoDup_app_remove_r in Hnd.
  - intros Hl. apply slice0_length_limit. exact Hl.
  - apply (StronglySorted_prefix _ es rest). rewrite <- Hrest.
    apply sort_gt_count_sorted.
  - pose proof (total_perm _ _ Hperm) as Ht.
    rewrite total_app, frequencies_total in Ht.
    unfold ks in Ht. rewrite length_map in Ht. lia.
  - exists rest. exact Hrest.
  - intros c. apply sort_gt_count_stable.
  - apply TableProps.frequencies_key_order.
  - vm_compute. reflexivity.
Qed.

(** Four rows, one of them with an empty cell, and a limit of 2. *)
Lemma pie_projection_witness :
  let data := Examples.strings_under "c" ["B"; "A"; ""; "A"] in
  preparePieChartData Examples.host data "c" (Some 2)
  = map pie_point [("A", 2%nat); ("B", 1%nat)]
  /\ (total (pie_entries Examples.host data "c" (Some 2%Z)) <= 4)%nat.
Proof.
  intros data.
  assert (Hplain : plain_keys (map (pie_key Examples.host "c") data)).
  { repeat constructor. }
  destruct (pie_projection Examples.host data "c" (Some 2) Hplain)
    as [Hpoints [_ [_ [_ [_ [_ [Htotal _]]]]]]].
  split; [rewrite Hpoints; reflexivity | exact Htotal].
Defined.

(** The claim of C4 fails on an empty header list with one row: the input
    is structurally invalid and the call returns a summary. *)
Lemma invalid_input_returns :
  ~ (Call.calculateSummaryStats [] (records [(∅ : row)])
     = Throws StructuralInputError
     <-> structurally_invalid [] [(∅ : row)] = true).
Proof. intros [_ H]. discriminate (H eq_refl). Qed.

Lemma summary_single_column (column : string) (rows : list row) :
  missingValues (Server.calculateSummaryStats [column] rows)
  = (List.length rows
     - List.length (nonNull (map (fun r => cell r column) rows)))%nat.
Proof.
  unfold Server.calculateSummaryStats. cbn [fold_left].
  unfold Server.summary_step.
  destruct (PrimFloat.ltb _ _); cbn [missingValues]; now rewrite length_map.
Qed.

(** The cell of a column the row does not have. *)
Lemma cell_absent (r : row) (column : string) :
  r !! column = None ->
  cell r column = if is_inherited column then JInherited column else JUndefined.
Proof. intros H. unfold cell. now rewrite H. Qed.

(** C4, as the code has it.  The engine has neither of the two errors: no
    call of [calculateSummaryStats], of [calculateColumnStatistics], of the
    four chart projections or of [getOptimalChartType] ends with
    [StructuralInputError] or [UnknownColumnError].  On row records the
    summary, the projections and the selector return, whatever the headers,
    the columns and the cells are: also when the input is structurally
    invalid, and when a column of the chart is not among the headers.  The
    errors that surface are those of the language: a [RangeError] in the
    text branch of [calculateColumnStatistics], exactly when the column has
    more distinct string forms than a call can take arguments (for string
    forms that are not names inherited from [Object.prototype], which the
    frequency table counts as own keys), and a [TypeError] when a row that
    is read is [null] or [undefined]: for the summary, any row when a
    header exists; for the bar, line and scatter projections, a row among
    the first [limit]; for the pie projection and the selector, any row.
    A column no row has reads as [undefined], or as the member of
    [Object.prototype] of that name: the summary counts one missing value
    per row for it in the first case and none in the second, and a bar
    chart over it has a point per row among the first [limit], with the
    value 0 and the name "Item {index + 1}", or the text of the inherited
    member. *)
Theorem engine_never_signals (h : Host) :
  (forall (headers : list string) (data : list (option row))
          (xColumn yColumn : string) (limit : option Z)
          (values : list any) (tag : string),
      signals_named (Call.calculateSummaryStats headers data) = false
      /\ signals_named (Call.Server_calculateColumnStatistics h values tag) = false
      /\ signals_named (Call.ExcelUtils_calculateColumnStatistics h values tag) = false
      /\ signals_named (Call.prepareBarChartData h data xColumn yColumn limit) = false
      /\ signals_named (Call.prepareLineChartData h data xColumn yColumn limit) = false
      /\ signals_named (Call.preparePieChartData h data xColumn limit) = false
      /\ signals_named (Call.prepareScatterData h data xColumn yColumn limit) = false
      /\ signals_named (Call.getOptimalChartType h data xColumn yColumn) = false)
  /\ (forall (headers : list string) (rows : list row)
             (xColumn yColumn : string) (limit : option Z),
      Call.calculateSummaryStats headers (records rows)
      = Returns (Server.calculateSummaryStats headers rows)
      /\ Call.prepareBarChartData h (records rows) xColumn yColumn limit
         = Returns (prepareBarChartData h rows xColumn yColumn limit)
      /\ Call.prepareLineChartData h (records rows) xColumn yColumn limit
         = Returns (prepareLineChartData h rows xColumn yColumn limit)
      /\ Call.preparePieChartData h (records rows) xColumn limit
         = Returns (preparePieChartData h rows xColumn limit)
      /\ Call.prepareScatterData h (records rows) xColumn yColumn limit
         = Returns (prepareScatterData h rows xColumn yColumn limit)
      /\ Call.getOptimalChartType h (records rows) xColumn yColumn
         = Returns (getOptimalChartType h rows xColumn yColumn))
  /\ (forall (headers : list string) (rows : list row)
             (xColumn yColumn : string) (limit : option Z),
      structurally_invalid headers rows = true
      \/ unknown_column headers xColumn = true
      \/ unknown_column headers yColumn = true ->
      signals_named (Call.calculateSummaryStats headers (records rows)) = false
      /\ signals_named
           (Call.prepareBarChartData h (records rows) xColumn yColumn limit) = false
      /\ (exists s, Call.calculateSummaryStats headers (records rows) = Returns s)
      /\ (exists points,
            Call.prepareBarChartData h (records rows) xColumn yColumn limit
            = Returns points))
  /\ (forall (values : list any) (tag : string),
      let forms := List.length (first_seen (string_forms h values)) in
      plain_keys (string_forms h values) ->
      Call.Server_calculateColumnStatistics h values tag
      = (if negb (existsb (number_after_parse false) (present_entries values))
            && Nat.ltb (Max_arguments h) forms
         then Throws RangeError
         else Returns (Server.calculateColumnStatistics h values tag))
      /\ Call.ExcelUtils_calculateColumnStatistics h values tag
         = (if negb (String.eqb tag "number"
                     && existsb (number_after_parse true) (present_entries values))
               && String.eqb tag "text"
               && Nat.ltb (Max_arguments h) forms
            then Throws RangeError
            else Returns (ExcelUtils.calculateColumnStatistics h values tag)))
  /\ (forall (headers : list string) (data : list (option row))
             (xColumn yColumn : string) (limit : option Z),
      (In None data -> headers <> [] ->
       Call.calculateSummaryStats headers data = Throws TypeError)
      /\ (headers = [] \/ ~ In None data ->
          exists s, Call.calculateSummaryStats headers data = Returns s)
      /\ (In None (slice0 (with_default 20 limit) data) ->
          Call.prepareBarChartData h data xColumn yColumn limit = Throws TypeError)
      /\ (~ In None (slice0 (with_default 20 limit) data) ->
          exists points,
            Call.prepareBarChartData h data xColumn yColumn limit = Returns points)
      /\ (In None (slice0 (with_default 50 limit) data) ->
          Call.prepareLineChartData h data xColumn yColumn limit = Throws TypeError)
      /\ (In None data ->
          Call.preparePieChartData h data xColumn limit = Throws TypeError)
      /\ (In None (slice0 (with_default 100 limit) data) ->
          Call.prepareScatterData h data xColumn yColumn limit = Throws TypeError)
      /\ (In None data ->
          Call.getOptimalChartType h data xColumn yColumn = Throws TypeError))
  /\ (forall (rows : list row) (column : string) (limit : option Z),
      List.Forall (fun r : row => r !! column = None) rows ->
      missingValues (Server.calculateSummaryStats [column] rows)
      = (if is_inherited column then 0%nat else List.length rows)
      /\ prepareBarChartData h rows column column limit
         = mapi (fun _ index =>
                   {| name := if is_inherited column then Inherited_toString h column
                              else "Item " ++ nat_to_string (index + 1);
                      value := 0%float; x := None; y := None |})
                (slice0 (with_default 20 limit) rows)).
Proof.
  split; [|split; [|split; [|split; [|split]]]].
  - intros headers data xColumn yColumn limit values tag.
    destruct (projections_not_named h data xColumn yColumn limit)
      as [Hb [Hl [Hp [Hs Ho]]]].
    destruct (statistics_not_named h values tag) as [Hsv Hcl].
    pose proof (calculateSummaryStats_not_named headers data) as Hsum.
    repeat split; assumption.
  - intros headers rows xColumn yColumn limit.
    split; [apply calculateSummaryStats_records|].
    split; [apply prepareBarChartData_records|].
    split; [apply prepareLineChartData_records|].
    split; [apply preparePieChartData_records|].
    split; [apply prepareScatterData_records | apply getOptimalChartType_records].
  - intros headers rows xColumn yColumn limit _.
    rewrite calculateSummaryStats_records, prepareBarChartData_records.
    split; [reflexivity|]. split; [reflexivity|]. split; now eexists.
  - intros values tag forms _. split.
    + apply Server_calculateColumnStatistics_outcome.
    + apply ExcelUtils_calculateColumnStatistics_outcome.
  - intros headers data xColumn yColumn limit.
    split; [intros Hin Hh; now apply calculateSummaryStats_null|].
    split; [apply calculateSummaryStats_returns|].
    split; [apply prepareBarChartData_null|].
    split; [apply prepareBarChartData_returns|].
    split; [apply prepareLineChartData_outcome|].
    split; [apply preparePieChartData_outcome|].
    split; [apply prepareScatterData_outcome | apply getOptimalChartType_outcome].
  - intros rows column limit Hunknown.
    assert (Hcell : List.Forall
                      (fun r => cell r column
                                = if is_inherited column then JInherited column
                                  else JUndefined) rows).
    { eapply List.Forall_impl; [|exact Hunknown]. intros r Hr.
      now apply cell_absent. }
    split.
    + rewrite summary_single_column.
      assert (Hnn : List.length (nonNull (map (fun r => cell r column) rows))
                    = if is_inherited column then List.length rows else 0%nat).
      { clear Hunknown. unfold nonNull.
        induction Hcell as [|r l Hr _ IH]; cbn [map List.filter List.length].
        - now destruct (is_inherited column).
        - rewrite Hr. destruct (is_inherited column); cbn [is_present List.length];
            now rewrite IH. }
      rewrite Hnn. destruct (is_inherited column); lia.
    + rewrite prepareBarChartData_all. unfold mapi.
      assert (Hs : List.Forall
                     (fun r => cell r column
                               = if is_inherited column then JInherited column
                                 else JUndefined)
                     (slice0 (with_default 20 limit) rows)).
      { unfold slice0. destruct (with_default 20 limit <? 0);
          now apply Forall_take. }
      apply mapi_from_ext. eapply List.Forall_impl; [|exact Hs].
      intros r Hr i. unfold bar_point, bar_name. rewrite Hr.
      now destruct (is_inherited column).
Qed.

(** Two rows without the column "Price"; a column of three distinct texts
    on a host whose calls take two arguments; a data array that holds
    [null]. *)
Lemma engine_never_signals_witness :
  let data := Examples.strings_under "Name" ["a"; "b"] in
  missingValues (Server.calculateSummaryStats ["Price"] data) = 2%nat
  /\ map name (prepareBarChartData Examples.host data "Price" "Price" None)
     = ["Item 1"; "Item 2"]
  /\ Call.Server_calculateColumnStatistics Examples.narrow_host
       [JStr "a"; JStr "b"; JStr "c"] "Name" = Throws RangeError
  /\ Call.prepareBarChartData Examples.host [None] "Name" "Price" None
     = Throws TypeError.
Proof.
  intros data.
  assert (Hunknown : List.Forall (fun r : row => r !! "Price" = None) data).
  { repeat constructor. }
  destruct (engine_never_signals Examples.host)
    as [_ [_ [_ [_ [Hnull Habsent]]]]].
  destruct (Habsent data "Price" None Hunknown) as [Hm Hb].
  destruct (engine_never_signals Examples.narrow_host)
    as [_ [_ [_ [Hrange _]]]].
  split; [exact Hm|]. split; [rewrite Hb; reflexivity|]. split.
  - destruct (Hrange [JStr "a"; JStr "b"; JStr "c"] "Name") as [-> _];
      [repeat constructor | reflexivity].
  - destruct (Hnull ["Name"] [None] "Name" "Price" None) as [_ [_ [H _]]].
    apply H. now left.
Defined.

End ChartProps.

(** ** The thresholds of the specification and of the code *)

Module ThresholdProps.
Import Js Stats Model Spec Facts FloatFacts.

(** The exact comparisons, on integers. *)
Lemma exceeds_four_fifths (k n : nat) :
  exceeds (8 # 10) k n = (4 * Z.of_nat n <? 5 * Z.of_nat k).
Proof.
  unfold exceeds, Qlt_b, Qle_bool. cbn [Qnum Qden Qmult inject_Z].
  match goal with
  | |- negb (?a <=? ?b) = _ => destruct (Z.leb_spec a b)
  end; cbn [negb]; symmetry; [apply Z.ltb_ge | apply Z.ltb_lt]; lia.
Qed.

Lemma fraction_above (k n : nat) :
  (0 < n)%nat ->
  Qlt_b (8 # 10) (fraction k n) = (4 * Z.of_nat n <? 5 * Z.of_nat k).
Proof.
  intros Hn. unfold fraction, Qlt_b, Qle_bool. cbn [Qnum Qden].
  assert (Hp : Z.pos (Pos.of_nat n) = Z.of_nat n).
  { destruct n; [lia|]. lia. }
  match goal with
  | |- negb (?a <=? ?b) = _ => destruct (Z.leb_spec a b)
  end; cbn [negb]; symmetry; [apply Z.ltb_ge | apply Z.ltb_lt]; lia.
Qed.

Lemma fraction_below_half (u n : nat) :
  (0 < n)%nat ->
  Qlt_b (fraction u n) (5 # 10) = (2 * Z.of_nat u <? Z.of_nat n).
Proof.
  intros Hn. unfold fraction, Qlt_b, Qle_bool. cbn [Qnum Qden].
  assert (Hp : Z.pos (Pos.of_nat n) = Z.of_nat n).
  { destruct n; [lia|]. lia. }
  match goal with
  | |- negb (?a <=? ?b) = _ => destruct (Z.leb_spec a b)
  end; cbn [negb]; symmetry; [apply Z.ltb_ge | apply Z.ltb_lt]; lia.
Qed.

Lemma Set_members_length (l : list any) :
  (List.length (Set_members l) <= List.length l)%nat.
Proof.
  induction l as [|a l IH]; simpl; [lia|].
  pose proof (filter_length_le (fun y => negb (sameValueZero a y)) (Set_members l)).
  lia.
Qed.

End ThresholdProps.

(** ** Properties of the type inference *)

Module InferenceProps.
Import Js Stats Model Spec Facts SpecFacts FloatFacts ThresholdProps ExcelUtils.

(** The majority test of the code is the exact comparison with four
    fifths, on the arrays a program can build. *)
Lemma majority_exact (p : any -> bool) (l : list any) :
  Z.of_nat (List.length l) <= max_array_length ->
  majority (List.filter p l) l
  = exceeds (8 # 10) (List.length (List.filter p l)) (List.length l).
Proof.
  intros Hl. unfold majority, max_array_length in *.
  pose proof (filter_length_le p l) as Hf.
  rewrite four_fifths_of_length, exceeds_four_fifths; [reflexivity| |].
  - change (2 ^ 32) with 4294967296. lia.
  - change (2 ^ 53) with 9007199254740992. lia.
Qed.

Lemma bits_all_present (values : list any) :
  List.Forall (fun v => v = JStr "1" \/ v = JStr "0") values ->
  nonNull values = values /\ List.filter is_boolean_like values = values.
Proof.
  intros H. split; apply filter_all; eapply List.Forall_impl; try exact H;
    intros v [-> | ->]; reflexivity.
Qed.

(** C7.  Type inference discards the null, undefined and empty-string
    entries and answers text when none remains; otherwise it applies the
    boolean, number and date checks in that order, each firing when its
    matching count strictly exceeds 0.8 times the non-null count, and
    answers text when none fires.  The entries it discards do not count:
    the answer is that of the column without them, and a column of missing
    entries is a text column.  A column made of the strings "1" and "0" is
    a boolean column. *)
Theorem detectColumnType_cascade (h : Host) (values : list any)
    (Hlength : Z.of_nat (List.length values) <= max_array_length) :
  detectColumnType h values = inferType h values
  /\ detectColumnType h values = detectColumnType h (present_entries values)
  /\ (List.Forall (fun v => v = JNull \/ v = JUndefined \/ v = JStr "") values ->
      detectColumnType h values = text)
  /\ (values <> [] ->
      List.Forall (fun v => v = JStr "1" \/ v = JStr "0") values ->
      detectColumnType h values = boolean).
Proof.
  assert (Hnn : Z.of_nat (List.length (nonNull values)) <= max_array_length).
  { pose proof (filter_length_le is_present values). unfold nonNull. lia. }
  assert (Hcascade : detectColumnType h values = inferType h values).
  { unfold detectColumnType, inferType.
    rewrite !majority_exact by exact Hnn.
    rewrite (count_of_ext boolean_entry is_boolean_like _ boolean_entry_like).
    rewrite (count_of_ext number_entry is_numeric_like _ number_entry_like).
    rewrite (count_of_ext (date_entry h) (is_date_like h) _ (date_entry_like h)).
    rewrite present_entries_nonNull, !count_of_filter.
    reflexivity. }
  split; [exact Hcascade|]. split; [|split].
  - unfold detectColumnType. rewrite present_entries_nonNull.
    assert (Hidem : nonNull (nonNull values) = nonNull values).
    { apply filter_all. apply nonNull_present. }
    now rewrite Hidem.
  - intros Hmissing. rewrite Hcascade. unfold inferType.
    assert (Hnone : present_entries values = []).
    { clear Hlength Hnn Hcascade.
      induction Hmissing as [|v l Hv _ IH]; [reflexivity|].
      cbn [present_entries].
      destruct Hv as [-> | [-> | ->]]; cbn [missing]; exact IH. }
    now rewrite Hnone.
  - intros Hne Hbits. rewrite Hcascade. unfold inferType.
    destruct (bits_all_present values Hbits) as [Hall Hbool].
    rewrite present_entries_nonNull, Hall.
    rewrite (count_of_ext boolean_entry is_boolean_like _ boolean_entry_like).
    rewrite count_of_filter, Hbool.
    destruct values as [|v values]; [congruence|].
    cbn [List.length Nat.eqb].
    change (S (List.length values)) with (List.length (v :: values)).
    rewrite exceeds_four_fifths.
    assert (Hlt : (4 * Z.of_nat (List.length (v :: values))
                   <? 5 * Z.of_nat (List.length (v :: values))) = true).
    { apply Z.ltb_lt. simpl List.length. lia. }
    now rewrite Hlt.
Qed.

(** The column ["1", "0", "1", "1"]. *)
Lemma detectColumnType_cascade_witness :
  detectColumnType Examples.host [JStr "1"; JStr "0"; JStr "1"; JStr "1"] = boolean.
Proof.
  assert (Hlength : Z.of_nat (List.length [JStr "1"; JStr "0"; JStr "1"; JStr "1"])
                    <= max_array_length) by (vm_compute; discriminate).
  destruct (detectColumnType_cascade Examples.host
              [JStr "1"; JStr "0"; JStr "1"; JStr "1"] Hlength) as [_ [_ [_ H]]].
  apply H; [discriminate|].
  repeat (apply List.Forall_cons;
          [first [left; reflexivity | right; reflexivity]|]).
  apply List.Forall_nil.
Defined.

End InferenceProps.

(** ** Properties of the chart type selector *)

Module SelectorProps.
Import Js Stats Model Spec Facts SpecFacts FloatFacts ThresholdProps ChartUtils.

Lemma parsable_count_le (h : Host) (values : list any) :
  (parsable_count h values <= List.length values)%nat.
Proof. apply filter_length_le. Qed.

(** The fraction test of the code is the exact comparison. *)
Lemma numeric_fraction_exact (h : Host) (values : list any) :
  (0 < List.length values)%nat ->
  Z.of_nat (List.length values) <= max_array_length ->
  PrimFloat.ltb 0.8 (numeric_fraction h values)
  = Qlt_b (8 # 10) (fraction (parsable_count h values) (List.length values)).
Proof.
  intros Hpos Hl. unfold numeric_fraction, max_array_length in *.
  rewrite fraction_above_four_fifths, fraction_above; try reflexivity; try lia.
  apply parsable_count_le.
Qed.

(** C5.  The selector is the ordered cascade of the specification over
    the number of rows, the numbers of x and y values that parse as
    numbers and the number of distinct x values: no row gives a bar chart;
    else both fractions of parsed values above 0.8 and more than 20 rows
    give a scatter chart; else fewer distinct x values than half the rows
    and a y fraction above 0.8 give a bar chart; else both fractions above
    0.8 give a line chart; else more than 1 and fewer than 10 distinct x
    values give a pie chart; else the chart is a bar chart.  30 rows of
    which at least nine tenths parse as numbers in both columns give a
    scatter chart. *)
Theorem getOptimalChartType_cascade (h : Host) (data : list row)
    (xColumn yColumn : string)
    (Hlength : Z.of_nat (List.length data) <= max_array_length) :
  let xValues := map (fun r => cell r xColumn) data in
  let yValues := map (fun r => cell r yColumn) data in
  let xParsed := count_of (parses_as_number h) xValues in
  let yParsed := count_of (parses_as_number h) yValues in
  getOptimalChartType h data xColumn yColumn
  = chooseType (List.length data) xParsed yParsed (distinct_count xValues)
  /\ (List.length data = 30%nat ->
      (9 * 30 <= 10 * xParsed)%nat ->
      (9 * 30 <= 10 * yParsed)%nat ->
      getOptimalChartType h data xColumn yColumn = scatter).
Proof.
  intros xValues yValues xParsed yParsed.
  assert (Hcascade : getOptimalChartType h data xColumn yColumn
                     = chooseType (List.length data) xParsed yParsed
                         (distinct_count xValues)).
  { unfold getOptimalChartType, chooseType.
    destruct (Nat.eqb_spec (List.length data) 0) as [|Hne]; [reflexivity|].
    fold xValues yValues.
    assert (Hx : List.length xValues = List.length data) by apply length_map.
    assert (Hy : List.length yValues = List.length data) by apply length_map.
    rewrite !numeric_fraction_exact by lia.
    rewrite half_of_length.
    - rewrite <- (fraction_below_half (Set_size xValues) (List.length xValues)) by lia.
      rewrite Hx, Hy. rewrite !parsable_count_of, distinct_count_Set_size.
      fold xParsed yParsed.
      now rewrite (Bool.andb_comm (Nat.ltb (Set_size xValues) 10)).
    - unfold max_array_length in Hlength. change (2 ^ 32) with 4294967296. lia.
    - pose proof (Set_members_length xValues) as Hu. unfold Set_size.
      unfold max_array_length in Hlength.
      change (2 ^ 53) with 9007199254740992. lia. }
  split; [exact Hcascade|].
  intros H30 Hkx Hky. rewrite Hcascade, H30. unfold chooseType.
  cbn [Nat.eqb]. rewrite !fraction_above by lia.
  assert (Hx : (4 * Z.of_nat 30 <? 5 * Z.of_nat xParsed) = true).
  { apply Z.ltb_lt. lia. }
  assert (Hy : (4 * Z.of_nat 30 <? 5 * Z.of_nat yParsed) = true).
  { apply Z.ltb_lt. lia. }
  now rewrite Hx, Hy.
Qed.

(** Thirty rows (i, 2 i), all numeric. *)
Lemma getOptimalChartType_cascade_witness :
  let data := map (fun i => ({[ "x" := JNum (nat_to_number i);
                                "y" := JNum (nat_to_number (2 * i)) ]} : row))
                  (seq 1 30) in
  getOptimalChartType Examples.host data "x" "y" = scatter.
Proof.
  intros data.
  assert (Hlength : Z.of_nat (List.length data) <= max_array_length)
    by (vm_compute; discriminate).
  destruct (getOptimalChartType_cascade Examples.host data "x" "y" Hlength)
    as [_ H].
  apply H; vm_compute; [reflexivity| |]; repeat constructor.
Defined.

End SelectorProps.

(** ** Further properties: the counts of a column and of a dataset *)

Module CountProps.
Import Js Stats Model Spec Shape Facts FloatFacts ThresholdProps.

Lemma filter_partition_length {A} (p : A -> bool) (l : list A) :
  (List.length (List.filter p l)
   + List.length (List.filter (fun a => negb (p a)) l) = List.length l)%nat.
Proof.
  induction l as [|a l IH]; simpl; [reflexivity|].
  destruct (p a); simpl; lia.
Qed.

Lemma Set_members_nil (l : list any) : Set_members l = [] -> l = [].
Proof.
  destruct l as [|a l]; [reflexivity|]. simpl. discriminate.
Qed.

Lemma baseStats_counts (values : list any) (p : ColumnProfile) :
  count p = List.length values ->
  nullCount p = (List.length values - List.length (nonNull values))%nat ->
  uniqueCount p = Set_size (nonNull values) ->
  base_counts values p.
Proof.
  intros Hc Hn Hu. unfold base_counts.
  pose proof (filter_partition_length is_present values) as Hp.
  pose proof (Set_members_length (nonNull values)) as Hs.
  fold (nonNull values) in Hp. unfold Set_size in Hu.
  rewrite Hc, Hn, Hu. repeat split; try lia.
  - intros H0. apply Set_members_nil.
    now apply length_zero_iff_nil.
  - intros ->. reflexivity.
Qed.

Lemma profile_counts_server (h : Host) (values : list any) (tag : string) :
  base_counts values (Server.calculateColumnStatistics h values tag).
Proof.
  unfold Server.calculateColumnStatistics.
  destruct (Nat.ltb 0 (List.length (Server.numericValues values)));
    [|destruct (Nat.ltb 0 (List.length (nonNull values)))];
    apply baseStats_counts; reflexivity.
Qed.

(** X1.  Whatever branch they take, both statistics functions report the
    length of the column as count, the number of null, undefined and
    empty-string entries as nullCount, and a uniqueCount that is at most
    the number of the other entries and is zero only when there is none. *)
Theorem profile_counts (h : Host) (values : list any) (tag : string) :
  base_counts values (Server.calculateColumnStatistics h values tag)
  /\ base_counts values (ExcelUtils.calculateColumnStatistics h values tag).
Proof.
  split; [apply profile_counts_server|].
  - unfold ExcelUtils.calculateColumnStatistics.
    destruct (String.eqb tag "number" &&
              Nat.ltb 0 (List.length (ExcelUtils.numericValues values)))%bool eqn:E.
    + apply baseStats_counts; reflexivity.
    + destruct (String.eqb tag "text"); apply baseStats_counts; reflexivity.
Qed.

(** *** The summary of a dataset *)

Lemma missing_in_filter (data : list row) (header : string) :
  List.length (List.filter (fun v => negb (is_present v)) (column data header))
  = missing_in data header.
Proof.
  unfold missing_in, column.
  induction data as [|r data IH]; simpl; [reflexivity|].
  destruct (is_present (cell r header)); simpl; lia.
Qed.

Lemma missing_in_column (data : list row) (header : string) :
  (List.length (column data header) - List.length (nonNull (column data header))
   = missing_in data header)%nat.
Proof.
  rewrite <- missing_in_filter. unfold nonNull.
  pose proof (filter_partition_length is_present (column data header)) as H.
  lia.
Qed.

Lemma summary_fold (data : list row) (headers : list string) (a b c : nat) :
  fold_left (Server.summary_step data) headers (a, b, c)
  = ((a + List.length (List.filter (counted_numeric data) headers))%nat,
     (b + List.length (List.filter (fun hd => negb (counted_numeric data hd)) headers))%nat,
     (c + list_sum (map (missing_in data) headers))%nat).
Proof.
  revert a b c. induction headers as [|hd headers IH]; intros a b c.
  - simpl. f_equal; [f_equal|]; lia.
  - cbn [fold_left]. unfold Server.summary_step at 2.
    fold (column data hd). fold (counted_numeric data hd).
    rewrite missing_in_column.
    cbn [List.filter map].
    replace (list_sum (missing_in data hd :: map (missing_in data) headers))
      with (missing_in data hd + list_sum (map (missing_in data) headers))%nat
      by reflexivity.
    destruct (counted_numeric data hd); rewrite IH; cbn [negb List.length];
      (f_equal; [f_equal|]; lia).
Qed.

Lemma missing_in_le (data : list row) (header : string) :
  (missing_in data header <= List.length data)%nat.
Proof. apply filter_length_le. Qed.

Lemma list_sum_bound {A} (f : A -> nat) (l : list A) (n : nat) :
  (forall a, f a <= n)%nat -> (list_sum (map f l) <= n * List.length l)%nat.
Proof.
  intros H. induction l as [|a l IH]; simpl; [lia|].
  specialize (H a). lia.
Qed.

(** X2.  The summary of a dataset counts every column once, as numeric or
    as text; its missing values are the sum, over the columns, of the
    nullCount the column statistics report for the column, which is at
    most the number of cells. *)
Theorem summary_counters (h : Host) (headers : list string) (data : list row) :
  let s := Server.calculateSummaryStats headers data in
  totalRecords s = List.length data
  /\ totalColumns s = List.length headers
  /\ (numericColumns s + textColumns s = totalColumns s)%nat
  /\ missingValues s
     = list_sum (map (fun header =>
                        nullCount (Server.calculateColumnStatistics h
                                     (map (fun r => cell r header) data) header))
                     headers)
  /\ (missingValues s <= totalRecords s * totalColumns s)%nat.
Proof.
  unfold Server.calculateSummaryStats. rewrite summary_fold. cbn zeta.
  cbn [totalRecords totalColumns numericColumns textColumns missingValues].
  split; [reflexivity|]. split; [reflexivity|]. split; [|split].
  - pose proof (filter_partition_length (counted_numeric data) headers). lia.
  - cbn [Nat.add]. f_equal. apply map_ext. intros hd.
    destruct (profile_counts_server h (column data hd) hd) as [_ [E _]].
    unfold column in E at 1. rewrite E. symmetry. apply missing_in_filter.
  - cbn [Nat.add]. apply list_sum_bound. intros hd. apply missing_in_le.
Qed.

End CountProps.

(** ** Further facts on numbers *)

Module NumberProps.
Import Js Stats Model Spec Shape Facts FloatFacts.

Lemma Prim2SF_inj (x y : float) : Prim2SF x = Prim2SF y -> x = y.
Proof.
  intros H. rewrite <- (FloatAxioms.SF2Prim_Prim2SF x), <- (FloatAxioms.SF2Prim_Prim2SF y).
  now rewrite H.
Qed.

Lemma mantissa_bounds (m : positive) :
  Zdigits2 (Z.pos m) = 53 ->
  4503599627370496 <= Z.pos m < 9007199254740992.
Proof.
  intros Hd. pose proof (Zdigits2_bounds (Z.pos m) ltac:(lia)) as [Hlo Hhi].
  rewrite Hd in Hlo, Hhi.
  change (2 ^ (53 - 1)) with 4503599627370496 in Hlo.
  change (2 ^ 53) with 9007199254740992 in Hhi. lia.
Qed.

Lemma product_digits (m1 m2 : positive) :
  Zdigits2 (Z.pos m1) = 53 -> Zdigits2 (Z.pos m2) = 53 ->
  105 <= Zdigits2 (Z.pos (m1 * m2)) <= 106.
Proof.
  intros H1 H2.
  pose proof (mantissa_bounds m1 H1) as B1.
  pose proof (mantissa_bounds m2 H2) as B2.
  rewrite Pos2Z.inj_mul.
  assert (Hlo : 2 ^ 104 <= Z.pos m1 * Z.pos m2).
  { change (2 ^ 104) with (4503599627370496 * 4503599627370496).
    apply Z.mul_le_mono_nonneg; lia. }
  assert (Hhi : Z.pos m1 * Z.pos m2 < 2 ^ 106).
  { change (2 ^ 106) with (9007199254740992 * 9007199254740992).
    apply Z.mul_lt_mono_nonneg; lia. }
  split.
  - change 105 with (Zdigits2 (2 ^ 104)). apply Zdigits2_mono; [reflexivity | exact Hlo].
  - apply Zdigits2_below; lia.
Qed.

(** The product of two numbers of 53 digits, away from the ends of the
    range of exponents, is a positive finite number of 53 digits. *)
Lemma product_finite (x y : float) (m1 m2 : positive) (e1 e2 : Z) :
  Prim2SF x = S754_finite false m1 e1 -> Prim2SF y = S754_finite false m2 e2 ->
  Zdigits2 (Z.pos m1) = 53 -> Zdigits2 (Z.pos m2) = 53 ->
  -1000 <= e1 + e2 <= 900 ->
  exists (m : positive) (e : Z),
    Prim2SF (x * y)%float = S754_finite false m e /\ Zdigits2 (Z.pos m) = 53.
Proof.
  intros Ex Ey H1 H2 He.
  pose proof (product_digits m1 m2 H1 H2) as HD.
  rewrite FloatAxioms.mul_spec, Ex, Ey. unfold SF64mul. cbn [SFmul xorb].
  destruct (binary_round_aux_bounds (Z.pos (m1 * m2)) (e1 + e2) loc_Exact)
    as [m [e [E [Hd _]]]]; try lia.
  exists m, e. split; [exact E | exact Hd].
Qed.

Lemma length_number (n : nat) :
  (0 < n)%nat -> Z.of_nat n < 2 ^ 53 ->
  exists (m : positive) (e : Z),
    Prim2SF (nat_to_number n) = S754_finite false m e
    /\ Zdigits2 (Z.pos m) = 53 /\ -52 <= e <= 0.
Proof.
  intros Hn Hlt.
  destruct (nat_to_number_exact n Hn Hlt) as [m [E [_ [Hd Hr]]]].
  exists m, (Zdigits2 (Z.of_nat n) - 53). split; [exact E|]. split; [exact Hd | lia].
Qed.

(** Half of a length is not below zero. *)
Lemma half_not_negative (n : nat) :
  Z.of_nat n < 2 ^ 53 ->
  PrimFloat.ltb (nat_to_number n * 0.5)%float (nat_to_number 0) = false.
Proof.
  intros Hn. destruct n as [|n']; [reflexivity|].
  destruct (length_number (S n')) as [m [e [E [Hd He]]]]; [lia | exact Hn |].
  destruct (product_finite (nat_to_number (S n')) 0.5%float m 4503599627370496 e (-53))
    as [m' [e' [E' _]]]; try assumption; try reflexivity; try lia.
  rewrite FloatAxioms.ltb_spec, E', nat_to_number_zero. reflexivity.
Qed.

(** A positive finite number divided by itself is one. *)
Lemma self_quotient (x : float) (m : positive) (e : Z) :
  Prim2SF x = S754_finite false m e -> Zdigits2 (Z.pos m) = 53 ->
  (x / x)%float = 1%float.
Proof.
  intros Ex Hd. apply Prim2SF_inj.
  rewrite FloatAxioms.div_spec, Ex. unfold SF64div. cbn [SFdiv xorb].
  unfold SFdiv_core_binary. rewrite Hd.
  replace (53 + e - (53 + e)) with 0 by lia.
  replace (e - e) with 0 by lia.
  change (Z.min (fexp prec emax 0) 0) with (-53).
  change (0 - -53) with 53.
  rewrite Z.shiftl_mul_pow2 by lia.
  assert (Hdiv : Z.div_eucl (Z.pos m * 2 ^ 53) (Z.pos m) = (2 ^ 53, 0)).
  { assert (Hq : Z.pos m * 2 ^ 53 / Z.pos m = 2 ^ 53).
    { rewrite Z.mul_comm. apply Z.div_mul. lia. }
    assert (Hr : (Z.pos m * 2 ^ 53) mod Z.pos m = 0).
    { rewrite Z.mul_comm. apply Z.mod_mul. lia. }
    unfold Z.div, Z.modulo in Hq, Hr.
    destruct (Z.div_eucl (Z.pos m * 2 ^ 53) (Z.pos m)) as [q r].
    now subst. }
  rewrite Hdiv.
  assert (Hloc : new_location (Z.pos m) 0 = loc_Exact).
  { unfold new_location, new_location_even, new_location_odd.
    destruct (Z.even (Z.pos m)); reflexivity. }
  rewrite Hloc. reflexivity.
Qed.

(** Subtracting the number zero from a finite number changes nothing. *)
Lemma minus_zero (x : float) (s : bool) (m : positive) (e : Z) :
  Prim2SF x = S754_finite s m e -> (x - nat_to_number 0)%float = x.
Proof.
  intros Ex. apply Prim2SF_inj.
  rewrite FloatAxioms.sub_spec, Ex, nat_to_number_zero. reflexivity.
Qed.

End NumberProps.

(** ** Further properties of the summary *)

Module SummaryProps.
Import Js Stats Model Spec Shape Facts FloatFacts ThresholdProps CountProps NumberProps.

Lemma filter_length_impl {A} (p q : A -> bool) (l : list A) :
  (forall a, p a = true -> q a = true) ->
  (List.length (List.filter p l) <= List.length (List.filter q l))%nat.
Proof.
  intros H. induction l as [|a l IH]; simpl; [lia|].
  destruct (p a) eqn:Ep.
  - rewrite (H a Ep). simpl. lia.
  - destruct (q a); simpl; lia.
Qed.

Lemma numericValues_le (values : list any) :
  (List.length (Server.numericValues values) <= List.length values)%nat.
Proof.
  unfold Server.numericValues.
  etransitivity; [apply filter_length_le|].
  rewrite length_map. apply filter_length_le.
Qed.

(** A column the summary counts as numeric has a value that parses. *)
Lemma counted_numeric_parses (data : list row) (header : string) :
  Z.of_nat (List.length data) <= max_array_length ->
  counted_numeric data header = true ->
  (0 < List.length (Server.numericValues (column data header)))%nat.
Proof.
  intros Hl H. unfold counted_numeric in H.
  destruct (List.length (Server.numericValues (column data header))) eqn:E; [|lia].
  rewrite half_not_negative in H; [discriminate|].
  pose proof (filter_length_le is_present (column data header)) as Hf.
  unfold column in Hf at 2. rewrite length_map in Hf.
  unfold nonNull, max_array_length in *.
  change (2 ^ 53) with 9007199254740992. change (2 ^ 32 - 1) with 4294967295 in Hl.
  lia.
Qed.

(** X3.  Every column the summary counts as numeric is a column whose
    statistics take the numeric branch, with a mean; the numeric columns of
    the summary are the headers that pass its test, so their number is at
    most the number of headers whose profile has a mean. *)
Theorem numeric_columns_have_means (h : Host) (headers : list string)
    (data : list row) :
  Z.of_nat (List.length data) <= max_array_length ->
  (forall header,
      counted_numeric data header = true ->
      branch (Server.calculateColumnStatistics h (column data header) header)
      = NumericBranch
      /\ is_Some_b (mean (Server.calculateColumnStatistics h
                            (column data header) header)) = true)
  /\ numericColumns (Server.calculateSummaryStats headers data)
     = List.length (List.filter (counted_numeric data) headers)
  /\ (numericColumns (Server.calculateSummaryStats headers data)
      <= List.length
           (List.filter
              (fun header =>
                 is_Some_b (mean (Server.calculateColumnStatistics h
                                    (map (fun r => cell r header) data) header)))
              headers))%nat.
Proof.
  intros Hl.
  assert (Hbranch : forall header,
             counted_numeric data header = true ->
             branch (Server.calculateColumnStatistics h (column data header) header)
             = NumericBranch
             /\ is_Some_b (mean (Server.calculateColumnStatistics h
                                   (column data header) header)) = true).
  { intros hd Hc.
    pose proof (counted_numeric_parses data hd Hl Hc) as Hp.
    unfold Server.calculateColumnStatistics.
    apply Nat.ltb_lt in Hp. rewrite Hp. split; reflexivity. }
  assert (Hcount : numericColumns (Server.calculateSummaryStats headers data)
                   = List.length (List.filter (counted_numeric data) headers)).
  { unfold Server.calculateSummaryStats. rewrite summary_fold.
    cbn zeta. cbn [numericColumns Nat.add]. reflexivity. }
  split; [exact Hbranch|]. split; [exact Hcount|].
  rewrite Hcount. apply filter_length_impl. intros hd Hc.
  now destruct (Hbranch hd Hc) as [_ Hm].
Qed.

(** On the sales dataset the column "Sales" is counted as numeric and
    takes the numeric branch. *)
Lemma numeric_columns_have_means_witness :
  branch (Server.calculateColumnStatistics Examples.host
            (column Examples.sales_rows "Sales") "Sales") = NumericBranch
  /\ (numericColumns (Server.calculateSummaryStats Examples.sales_headers Examples.sales_rows)
      <= List.length
           (List.filter
              (fun header =>
                 is_Some_b (mean (Server.calculateColumnStatistics Examples.host
                                    (map (fun r => cell r header) Examples.sales_rows) header)))
              Examples.sales_headers))%nat.
Proof.
  destruct (numeric_columns_have_means Examples.host Examples.sales_headers
              Examples.sales_rows) as [Hb [_ Hle]].
  - vm_compute. discriminate.
  - split; [|exact Hle]. now destruct (Hb "Sales" eq_refl).
Defined.

(** X4.  A dataset without a missing value has data quality 100, when it
    has no row or at least one column. *)
Theorem complete_data_quality (headers : list string) (data : list row) :
  Z.of_nat (List.length data) <= max_array_length ->
  Z.of_nat (List.length headers) <= max_array_length ->
  missingValues (Server.calculateSummaryStats headers data) = 0%nat ->
  data = [] \/ headers <> [] ->
  dataQuality (Server.calculateSummaryStats headers data) = 100%float.
Proof.
  intros Hd Hh. unfold Server.calculateSummaryStats. rewrite summary_fold.
  cbn zeta. cbn [missingValues dataQuality Nat.add].
  intros Hm Hne. rewrite Hm.
  destruct data as [|r data]; [reflexivity|].
  destruct Hne as [Hne|Hne]; [discriminate|].
  change (Nat.ltb 0 (List.length (r :: data))) with true. cbv iota.
  unfold max_array_length in *. change (2 ^ 32 - 1) with 4294967295 in *.
  destruct (length_number (List.length (r :: data))) as [m1 [e1 [E1 [H1 B1]]]];
    [simpl; lia | change (2 ^ 53) with 9007199254740992; lia |].
  destruct (length_number (List.length headers)) as [m2 [e2 [E2 [H2 B2]]]];
    [destruct headers; [congruence | simpl; lia]
    | change (2 ^ 53) with 9007199254740992; lia |].
  destruct (product_finite _ _ m1 m2 e1 e2 E1 E2 H1 H2) as [m [e [E Hm53]]];
    [lia|].
  rewrite (minus_zero _ false m e E), (self_quotient _ m e E Hm53).
  reflexivity.
Qed.

Lemma complete_data_quality_witness :
  dataQuality (Server.calculateSummaryStats ["a"] [ {[ "a" := JNum 1%float ]} ])
  = 100%float.
Proof.
  apply (complete_data_quality ["a"] [ {[ "a" := JNum 1%float ]} ]).
  - vm_compute. discriminate.
  - vm_compute. discriminate.
  - vm_compute. reflexivity.
  - right. discriminate.
Defined.

End SummaryProps.

(** ** Further properties of the upload route *)

Module UploadProps.
Import Js Stats Model Spec Shape Facts CountProps.

Lemma row_fold_notin (cells : list any) (hs : list string) (j : nat) (acc : row)
    (k : string) :
  ~ In k hs ->
  fold_left (put cells) (mapi_from j (fun header index => (header, index)) hs) acc !! k
  = acc !! k.
Proof.
  revert j acc. induction hs as [|hd hs IH]; intros j acc Hk; [reflexivity|].
  cbn [mapi_from fold_left]. rewrite IH by (intros H; apply Hk; now right).
  unfold put; cbn [fst snd]. apply lookup_insert_ne.
  intros ->. apply Hk. now left.
Qed.

Lemma row_fold_at (cells : list any) (hs : list string) (j : nat) (acc : row)
    (i : nat) (k : string) :
  NoDup hs -> hs !! i = Some k ->
  fold_left (put cells) (mapi_from j (fun header index => (header, index)) hs) acc !! k
  = Some (Server.cell_or_null cells (j + i)).
Proof.
  revert j acc i. induction hs as [|hd hs IH]; intros j acc i Hnd Hi;
    [discriminate|].
  apply NoDup_cons in Hnd as [Hhd Hnd]. cbn [mapi_from fold_left].
  destruct i as [|i]; simpl in Hi.
  - injection Hi as ->. rewrite row_fold_notin.
    + unfold put; cbn [fst snd]. rewrite lookup_insert_eq. now rewrite Nat.add_0_r.
    + intros H. apply Hhd. now apply list_elem_of_In.
  - rewrite (IH (S j) _ i Hnd Hi). do 2 f_equal. lia.
Qed.

Lemma row_fold_values (P : any -> Prop) (cells : list any)
    (his : list (string * nat)) (acc : row) :
  (forall i, P (Server.cell_or_null cells i)) ->
  (forall k v, acc !! k = Some v -> P v) ->
  forall k v, fold_left (put cells) his acc !! k = Some v -> P v.
Proof.
  intros HP. revert acc. induction his as [|hi his IH]; intros acc Hacc k v;
    [apply Hacc|].
  cbn [fold_left]. apply IH. intros k' v'. unfold put.
  rewrite lookup_insert_Some. intros [[_ <-]|[_ H]]; [apply HP | now apply Hacc in H].
Qed.

Lemma cell_or_null_lookup (cells : list any) (i : nat) :
  Server.cell_or_null cells i
  = match cells !! i with
    | Some v => if ToBoolean v then v else JNull
    | None => JNull
    end.
Proof.
  unfold Server.cell_or_null. rewrite nth_lookup.
  destruct (cells !! i); reflexivity.
Qed.

Lemma cell_or_null_truthy (cells : list any) (i : nat) :
  Server.cell_or_null cells i = JNull
  \/ ToBoolean (Server.cell_or_null cells i) = true.
Proof.
  unfold Server.cell_or_null.
  destruct (ToBoolean (nth i cells JUndefined)) eqn:E; [right; exact E | now left].
Qed.

(** What is kept of a cell counts as present exactly when the cell is
    truthy. *)
Lemma cell_or_null_present (cells : list any) (i : nat) :
  is_present (Server.cell_or_null cells i) = ToBoolean (nth i cells JUndefined).
Proof.
  unfold Server.cell_or_null. cbv zeta.
  destruct (ToBoolean (nth i cells JUndefined)) eqn:E; [|reflexivity].
  destruct (nth i cells JUndefined); try discriminate E; try reflexivity.
  exact E.
Qed.

Lemma row_object_at (headers : list string) (cells : list any) (i : nat)
    (header : string) :
  NoDup headers -> headers !! i = Some header ->
  Server.row_object headers cells !! header = Some (Server.cell_or_null cells i).
Proof.
  intros Hnd Hi. unfold Server.row_object, mapi.
  exact (row_fold_at cells headers 0 ∅ i header Hnd Hi).
Qed.

(** X5.  The row the upload route builds from the cells of a sheet row has
    exactly the headers as keys.  Under the header of column [i] it holds
    the cell [i] when that cell is truthy and null otherwise: a cell the
    row does not have, but also the number 0, false and the empty string
    are stored as null. *)
Theorem ingested_row (headers : list string) (cells : list any) :
  ordinary_headers headers -> NoDup headers ->
  (forall i header, headers !! i = Some header ->
     Server.row_object headers cells !! header
     = Some (match cells !! i with
             | Some v => if ToBoolean v then v else JNull
             | None => JNull
             end))
  /\ (forall k, ~ In k headers -> Server.row_object headers cells !! k = None)
  /\ (forall k v, Server.row_object headers cells !! k = Some v ->
        v = JNull \/ ToBoolean v = true).
Proof.
  intros _ Hnd. split; [|split].
  - intros i header Hi. rewrite (row_object_at headers cells i header Hnd Hi).
    now rewrite cell_or_null_lookup.
  - intros k Hk. unfold Server.row_object, mapi.
    rewrite (row_fold_notin cells headers 0 ∅ k Hk). apply lookup_empty.
  - unfold Server.row_object. apply row_fold_values.
    + apply cell_or_null_truthy.
    + intros k v. rewrite lookup_empty. discriminate.
Qed.

Lemma ingested_row_witness :
  Server.row_object ["a"; "b"] [JNum 0%float; JStr "x"] !! "a" = Some JNull.
Proof.
  destruct (ingested_row ["a"; "b"] [JNum 0%float; JStr "x"]) as [H _].
  - unfold ordinary_headers. simpl. intros [H|[H|[]]]; discriminate.
  - apply NoDup_cons_2; [|apply NoDup_cons_2; [|apply NoDup_nil_2]].
    + intros H. apply list_elem_of_In in H. simpl in H.
      destruct H as [H|[]]. discriminate.
    + intros H. apply list_elem_of_In in H. destruct H.
  - exact (H 0%nat "a" eq_refl).
Defined.

Lemma summary_missing (headers : list string) (data : list row) :
  missingValues (Server.calculateSummaryStats headers data)
  = list_sum (map (missing_in data) headers).
Proof.
  unfold Server.calculateSummaryStats. rewrite summary_fold. reflexivity.
Qed.

Lemma map_by_index {A B} (f : A -> B) (g : nat -> B) (l : list A) (j : nat) :
  (forall i a, l !! i = Some a -> f a = g (j + i)%nat) ->
  map f l = map g (seq j (List.length l)).
Proof.
  revert j. induction l as [|a l IH]; intros j H; [reflexivity|].
  cbn [map List.length seq]. f_equal.
  - rewrite (H 0%nat a eq_refl). f_equal. lia.
  - apply IH. intros i b Hi. rewrite (H (S i) b Hi). f_equal. lia.
Qed.

Lemma list_sum_cons (x : nat) (l : list nat) :
  list_sum (x :: l) = (x + list_sum l)%nat.
Proof. reflexivity. Qed.

Lemma sum_filter_cons {A B} (P : A -> B -> bool) (l1 : list A) (b : B) (l2 : list B) :
  list_sum (map (fun a => List.length (List.filter (P a) (b :: l2))) l1)
  = (List.length (List.filter (fun a => P a b) l1)
     + list_sum (map (fun a => List.length (List.filter (P a) l2)) l1))%nat.
Proof.
  induction l1 as [|a l1 IH]; [reflexivity|].
  cbn [map]. rewrite !list_sum_cons, IH. cbn [List.filter].
  destruct (P a b); cbn [List.length]; lia.
Qed.

Lemma sum_exchange {A B} (P : A -> B -> bool) (l1 : list A) (l2 : list B) :
  list_sum (map (fun a => List.length (List.filter (P a) l2)) l1)
  = list_sum (map (fun b => List.length (List.filter (fun a => P a b) l1)) l2).
Proof.
  induction l2 as [|b l2 IH].
  - simpl. induction l1 as [|a l1 IH1]; [reflexivity | exact IH1].
  - cbn [map]. rewrite list_sum_cons, <- IH. apply sum_filter_cons.
Qed.

Lemma missing_in_ingested (headers : list string) (rows : list (list any))
    (i : nat) (header : string) :
  NoDup headers -> headers !! i = Some header ->
  missing_in (map (Server.row_object headers) rows) header
  = List.length
      (List.filter (fun cells => negb (ToBoolean (nth i cells JUndefined))) rows).
Proof.
  intros Hnd Hi. unfold missing_in.
  induction rows as [|cells rows IH]; [reflexivity|].
  cbn [map List.filter].
  assert (E : cell (Server.row_object headers cells) header
              = Server.cell_or_null cells i).
  { unfold cell. now rewrite (row_object_at headers cells i header Hnd Hi). }
  rewrite E, cell_or_null_present.
  destruct (ToBoolean (nth i cells JUndefined)); cbn [negb List.length];
    now rewrite IH.
Qed.

(** X6.  After the upload route has built the rows, the missing values of
    the summary are the falsy cells of the sheet, counted over the rows
    and the columns of the headers: cells that are absent or empty, and
    also the cells that hold 0 or false. *)
Theorem missing_values_are_falsy_cells (headers : list string)
    (rows : list (list any)) :
  ordinary_headers headers -> NoDup headers ->
  missingValues
    (Server.calculateSummaryStats headers (map (Server.row_object headers) rows))
  = list_sum (map (falsy_cells (List.length headers)) rows).
Proof.
  intros _ Hnd. rewrite summary_missing.
  rewrite (map_by_index _
             (fun i => List.length
                (List.filter (fun cells => negb (ToBoolean (nth i cells JUndefined)))
                             rows)) headers 0).
  - unfold falsy_cells.
    exact (sum_exchange (fun i cells => negb (ToBoolean (nth i cells JUndefined)))
                        (seq 0 (List.length headers)) rows).
  - intros i hd Hi. now apply missing_in_ingested.
Qed.

Lemma missing_values_are_falsy_cells_witness :
  missingValues
    (Server.calculateSummaryStats ["a"; "b"]
       (map (Server.row_object ["a"; "b"])
            [[JNum 0%float; JStr "x"]; [JStr "y"]]))
  = 2%nat.
Proof.
  rewrite (missing_values_are_falsy_cells ["a"; "b"]
             [[JNum 0%float; JStr "x"]; [JStr "y"]]).
  - reflexivity.
  - unfold ordinary_headers. simpl. intros [H|[H|[]]]; discriminate.
  - apply NoDup_cons_2; [|apply NoDup_cons_2; [|apply NoDup_nil_2]].
    + intros H. apply list_elem_of_In in H. simpl in H.
      destruct H as [H|[]]. discriminate.
    + intros H. apply list_elem_of_In in H. destruct H.
Defined.

(** *** The entry stored for a sheet *)

Lemma column_stats_fold (h : Host) (data : list row) (hs : list string)
    (acc : gmap string ColumnProfile) (k : string) :
  fold_left (fun (acc : gmap string ColumnProfile) (header : string) =>
               if String.eqb header "__proto__" then acc
               else <[header := Server.calculateColumnStatistics h
                                  (map (fun r => cell r header) data) header]> acc)
            hs acc !! k
  = if existsb (String.eqb k) hs && negb (String.eqb k "__proto__")
    then Some (Server.calculateColumnStatistics h (map (fun r => cell r k) data) k)
    else acc !! k.
Proof.
  revert acc. induction hs as [|hd hs IH]; intros acc; [reflexivity|].
  cbn [fold_left existsb]. rewrite IH.
  destruct (String.eqb_spec k hd) as [->|Hne]; cbn [orb].
  - destruct (String.eqb hd "__proto__") eqn:Ep.
    + now rewrite andb_false_r.
    + rewrite !andb_true_r.
      destruct (existsb (String.eqb hd) hs); [reflexivity|].
      apply lookup_insert_eq.
  - destruct (existsb (String.eqb k) hs && negb (String.eqb k "__proto__"));
      [reflexivity|].
    destruct (String.eqb hd "__proto__"); [reflexivity|].
    apply lookup_insert_ne. congruence.
Qed.

(** X7.  A sheet without any row is skipped.  For any other sheet whose
    headers do not hold [__proto__], the entry handed to the storage counts
    the rows after the header row and the headers, keeps one row object per
    such row, and holds a profile for each header and for nothing else; the
    count of every profile and the total of records of the summary are the
    row count. *)
Theorem sheet_entry (h : Host) (fileId sheetName : string)
    (headers : list string) (rows : list (list any))
    (Hordinary : ordinary_headers headers) :
  Server.processSheet h fileId sheetName None = None
  /\ exists e st,
       Server.processSheet h fileId sheetName (Some (headers, rows)) = Some e
       /\ Storage.InsertExcelData.statistics e = Some st
       /\ Storage.InsertExcelData.fileId e = fileId
       /\ Storage.InsertExcelData.headers e = headers
       /\ Storage.InsertExcelData.rowCount e = List.length rows
       /\ Storage.InsertExcelData.columnCount e = List.length headers
       /\ List.length (Storage.InsertExcelData.data e) = List.length rows
       /\ totalRecords (summary st) = List.length rows
       /\ (forall header, In header headers ->
             exists p, columns st !! header = Some p
                       /\ count p = List.length rows)
       /\ (forall k, ~ In k headers -> columns st !! k = None).
Proof.
  split; [reflexivity|]. eexists. eexists.
  split; [reflexivity|].
  cbn [Storage.InsertExcelData.statistics Storage.InsertExcelData.fileId
       Storage.InsertExcelData.headers Storage.InsertExcelData.rowCount
       Storage.InsertExcelData.columnCount Storage.InsertExcelData.data
       columns summary].
  split; [reflexivity|]. split; [reflexivity|]. split; [reflexivity|].
  split; [apply length_map|]. split; [reflexivity|].
  split; [apply length_map|]. split; [|split].
  - cbn [summary]. unfold Server.calculateSummaryStats. rewrite summary_fold.
    cbn [summary totalRecords]. apply length_map.
  - intros header Hin. cbn [columns]. unfold Server.column_stats.
    rewrite column_stats_fold.
    assert (E : existsb (String.eqb header) headers = true).
    { apply existsb_exists. exists header. split; [exact Hin | apply String.eqb_refl]. }
    assert (Ep : String.eqb header "__proto__" = false).
    { apply String.eqb_neq. intros ->. now apply Hordinary. }
    rewrite E, Ep. eexists. split; [reflexivity|].
    destruct (profile_counts_server h
                (map (fun r => cell r header) (map (Server.row_object headers) rows))
                header) as [-> _].
    now rewrite !length_map.
  - intros k Hk. cbn [columns]. unfold Server.column_stats.
    rewrite column_stats_fold.
    destruct (existsb (String.eqb k) headers) eqn:E; [|apply lookup_empty].
    apply existsb_exists in E as [x [Hx Ex]]. apply String.eqb_eq in Ex. now subst.
Qed.

(** A sheet with the headers "Region" and "Sales" and two rows under
    them. *)
Lemma sheet_entry_witness :
  exists e st,
    Server.processSheet Examples.host "file-1" "Sheet1"
      (Some (["Region"; "Sales"],
             [[JStr "East"; JNum 100]; [JStr "West"]])) = Some e
    /\ Storage.InsertExcelData.statistics e = Some st
    /\ Storage.InsertExcelData.rowCount e = 2%nat
    /\ totalRecords (summary st) = 2%nat.
Proof.
  assert (Hordinary : ordinary_headers ["Region"; "Sales"]).
  { unfold ordinary_headers. simpl. intros [H|[H|[]]]; discriminate. }
  destruct (sheet_entry Examples.host "file-1" "Sheet1" ["Region"; "Sales"]
              [[JStr "East"; JNum 100]; [JStr "West"]] Hordinary)
    as [_ [e [st [He [Hst [_ [_ [Hrows [_ [_ [Htotal _]]]]]]]]]]].
  exists e, st. repeat split; assumption.
Defined.

End UploadProps.

(** ** Properties of the storage *)

Module StorageProps.
Import Js Stats Model Spec Shape Facts TableProps.
Import Storage.

(** *** Maps *)

Lemma filter_keys_NoDup {V} (p : string * V -> bool) (m : object V) :
  List.NoDup (map fst m) -> List.NoDup (map fst (List.filter p m)).
Proof.
  induction m as [|[k v] m IH]; simpl; [auto|].
  intros Hnd. apply List.NoDup_cons_iff in Hnd as [Hk Hnd].
  destruct (p (k, v)); simpl; [|now apply IH].
  constructor; [|now apply IH].
  intros H. apply Hk. apply List.in_map_iff in H as [[k' v'] [E H]].
  apply List.filter_In in H as [H _]. apply List.in_map_iff. now exists (k', v').
Qed.

Lemma Map_delete_filter {V} (m : object V) (k : string) :
  List.NoDup (map fst m) ->
  Map_delete m k
  = (List.filter (fun e => negb (String.eqb (fst e) k)) m, has_key m k).
Proof.
  unfold has_key. induction m as [|[k' v] m IH]; simpl; [reflexivity|].
  intros Hnd. apply List.NoDup_cons_iff in Hnd as [Hk Hnd].
  rewrite (String.eqb_sym k k').
  destruct (String.eqb_spec k' k) as [->|Hne]; simpl.
  - f_equal. symmetry. apply filter_all. apply List.Forall_forall.
    intros [k0 v0] Hin. simpl. destruct (String.eqb_spec k0 k) as [->|]; [|reflexivity].
    exfalso. apply Hk. apply List.in_map_iff. now exists (k, v0).
  - now rewrite (IH Hnd).
Qed.

Lemma obj_get_filter {V} (p : string * V -> bool) (m : object V) (k : string) :
  List.NoDup (map fst m) ->
  obj_get (List.filter p m) k
  = match obj_get m k with
    | Some v => if p (k, v) then Some v else None
    | None => None
    end.
Proof.
  induction m as [|[k' v] m IH]; simpl; [reflexivity|].
  intros Hnd. apply List.NoDup_cons_iff in Hnd as [Hk Hnd].
  destruct (String.eqb_spec k' k) as [->|Hne].
  - destruct (p (k, v)) eqn:Ep; simpl; [now rewrite String.eqb_refl|].
    rewrite (IH Hnd).
    destruct (obj_get m k) as [v'|] eqn:Eg; [|reflexivity].
    exfalso. apply Hk. apply (has_key_In m k). rewrite has_key_get, Eg. reflexivity.
  - destruct (p (k', v)); simpl; [|now apply IH].
    destruct (String.eqb_spec k' k); [contradiction | now apply IH].
Qed.

Lemma obj_get_None_set {V} (m : object V) (k : string) (v : V) :
  obj_get m k = None -> obj_set m k v = (m ++ [(k, v)])%list.
Proof.
  induction m as [|[k' v'] m IH]; simpl; [reflexivity|].
  destruct (String.eqb k' k); [discriminate|]. intros H. now rewrite IH.
Qed.

(** [set] on a key of the map changes the value in place. *)
Lemma obj_set_map {V W} (f : V -> W) (m : object V) (k : string) (v v0 : V) :
  obj_get m k = Some v0 -> f v = f v0 ->
  map (fun e => f (snd e)) (obj_set m k v) = map (fun e => f (snd e)) m.
Proof.
  intros Hg Hf. induction m as [|[k' v'] m IH]; simpl in *; [discriminate|].
  destruct (String.eqb k' k); simpl.
  - injection Hg as ->. now rewrite Hf.
  - now rewrite IH.
Qed.

(** *** The invariant *)

Lemma keyed_set {V} (id : V -> string) (m : object V) (k : string) (v : V) :
  id v = k -> keyed id m -> keyed id (obj_set m k v).
Proof.
  intros Hid [Hnd Hall]. split; [now apply obj_set_NoDup|].
  clear Hnd. induction Hall as [|[k' v'] m Hh Hall IH]; simpl.
  - now repeat constructor.
  - destruct (String.eqb_spec k' k) as [->|Hne]; constructor; auto.
Qed.

Lemma keyed_filter {V} (id : V -> string) (p : string * V -> bool) (m : object V) :
  keyed id m -> keyed id (List.filter p m).
Proof.
  intros [Hnd Hall]. split; [now apply filter_keys_NoDup|].
  apply List.Forall_forall. intros e He. apply List.filter_In in He as [He _].
  revert e He. now apply List.Forall_forall.
Qed.

(** The entries a list of records names, removed one by one. *)
Lemma delete_entries_filter (m : object ExcelData.t) (ds : list ExcelData.t) :
  List.NoDup (map fst m) ->
  delete_entries m ds
  = List.filter (fun e => forallb (fun d => negb (String.eqb (fst e) (ExcelData.id d))) ds) m.
Proof.
  unfold delete_entries. revert m. induction ds as [|d ds IH]; intros m Hnd.
  - simpl. symmetry. apply filter_all. now apply List.Forall_forall.
  - cbn [fold_left]. rewrite Map_delete_filter by exact Hnd. cbn [fst].
    rewrite IH by now apply filter_keys_NoDup.
    rewrite filter_filter_and. reflexivity.
Qed.

(** In a keyed map, removing the records of a file removes exactly the
    entries of that file. *)
Lemma delete_entries_of_file (m : object ExcelData.t) (fid : string) :
  keyed ExcelData.id m ->
  delete_entries m
    (List.filter (fun d => String.eqb (ExcelData.fileId d) fid) (Map_values m))
  = List.filter (fun e => negb (String.eqb (ExcelData.fileId (snd e)) fid)) m.
Proof.
  intros [Hnd Hall]. rewrite delete_entries_filter by exact Hnd.
  apply filter_ext_in'. intros [k v] Hin. cbn [fst snd].
  assert (Hkv : ExcelData.id v = k).
  { apply (proj1 (List.Forall_forall _ _) Hall (k, v) Hin). }
  destruct (String.eqb (ExcelData.fileId v) fid) eqn:Ef; cbn [negb].
  - apply not_true_is_false. intros Hall'.
    rewrite forallb_forall in Hall'.
    specialize (Hall' v). rewrite Hkv, String.eqb_refl in Hall'.
    assert (In v (List.filter (fun d => String.eqb (ExcelData.fileId d) fid) (Map_values m))).
    { apply List.filter_In. split; [|exact Ef].
      unfold Map_values. apply List.in_map_iff. now exists (k, v). }
    specialize (Hall' H). discriminate.
  - apply forallb_forall. intros d Hd.
    apply List.filter_In in Hd as [Hd Efd].
    unfold Map_values in Hd. apply List.in_map_iff in Hd as [[k' v'] [E Hin']].
    cbn [snd] in E. subst v'.
    assert (Hkd : ExcelData.id d = k').
    { apply (proj1 (List.Forall_forall _ _) Hall (k', d) Hin'). }
    rewrite Hkd. destruct (String.eqb_spec k k') as [->|]; [|reflexivity].
    exfalso.
    pose proof (obj_get_In m k' v Hnd Hin) as G1.
    pose proof (obj_get_In m k' d Hnd Hin') as G2.
    rewrite G1 in G2. injection G2 as ->. congruence.
Qed.

Lemma deleteExcelData_fold (m : object ExcelData.t) (ds : list ExcelData.t) (b : bool) :
  fold_left (fun (acc : object ExcelData.t * bool) d =>
               (fst (Map_delete (fst acc) (ExcelData.id d)), true)) ds (m, b)
  = (delete_entries m ds, b || Nat.ltb 0 (List.length ds)).
Proof.
  unfold delete_entries. revert m b. induction ds as [|d ds IH]; intros m b.
  - simpl. now rewrite orb_false_r.
  - cbn [fold_left fst]. rewrite IH. f_equal. cbn. now rewrite orb_true_r.
Qed.

Lemma getExcelData_filtered (m : object ExcelData.t) (fid fid' : string) :
  List.filter (fun d => String.eqb (ExcelData.fileId d) fid')
    (Map_values
       (List.filter (fun e => negb (String.eqb (ExcelData.fileId (snd e)) fid)) m))
  = if String.eqb fid' fid then []
    else List.filter (fun d => String.eqb (ExcelData.fileId d) fid') (Map_values m).
Proof.
  unfold Map_values. destruct (String.eqb fid' fid) eqn:Ef.
  - apply String.eqb_eq in Ef. subst fid'.
    induction m as [|[k v] m IH]; simpl; [reflexivity|].
    destruct (String.eqb (ExcelData.fileId v) fid) eqn:E; simpl; [exact IH|].
    now rewrite E.
  - apply String.eqb_neq in Ef.
    induction m as [|[k v] m IH]; simpl; [reflexivity|].
    destruct (String.eqb_spec (ExcelData.fileId v) fid) as [E|E]; simpl.
    + destruct (String.eqb_spec (ExcelData.fileId v) fid'); [congruence | exact IH].
    + now rewrite IH.
Qed.

Lemma well_keyed_empty : well_keyed empty.
Proof. repeat split; constructor. Qed.

Lemma with_statistics_id (d : ExcelData.t) (s : option Statistics) :
  ExcelData.id (with_statistics d s) = ExcelData.id d.
Proof. reflexivity. Qed.

Lemma keyed_get {V} (id : V -> string) (m : object V) (k : string) (v : V) :
  keyed id m -> obj_get m k = Some v -> id v = k.
Proof.
  intros [_ Hall] Hg. apply obj_get_Some_In in Hg.
  apply (proj1 (List.Forall_forall _ _) Hall (k, v) Hg).
Qed.

Lemma deleteExcelData_eq (st : MemStorage) (fid : string) :
  keyed ExcelData.id (excelData st) ->
  deleteExcelData st fid
  = ({| excelFiles := excelFiles st;
        excelData :=
          List.filter (fun e => negb (String.eqb (ExcelData.fileId (snd e)) fid))
                      (excelData st) |},
     Nat.ltb 0 (List.length (getExcelData st fid))).
Proof.
  intros Hd. unfold deleteExcelData. rewrite deleteExcelData_fold.
  unfold getExcelData. now rewrite (delete_entries_of_file _ fid Hd).
Qed.

Lemma deleteExcelFile_eq (st : MemStorage) (id : string) :
  well_keyed st ->
  deleteExcelFile st id
  = ({| excelFiles :=
          List.filter (fun e => negb (String.eqb (fst e) id)) (excelFiles st);
        excelData :=
          List.filter (fun e => negb (String.eqb (ExcelData.fileId (snd e)) id))
                      (excelData st) |},
     has_key (excelFiles st) id).
Proof.
  intros [Hf Hd]. unfold deleteExcelFile, getExcelData.
  rewrite (Map_delete_filter _ id (proj1 Hf)).
  now rewrite (delete_entries_of_file _ id Hd).
Qed.

(** X8.  The storage keeps its maps keyed: starting from the empty storage,
    after any of its methods every record is filed under its own id and no
    id is filed twice. *)
Theorem storage_stays_keyed :
  well_keyed empty
  /\ forall st, well_keyed st ->
       (forall f id now, well_keyed (fst (createExcelFile st f id now)))
       /\ (forall d id now, well_keyed (fst (createExcelData st d id now)))
       /\ (forall id, well_keyed (fst (deleteExcelFile st id)))
       /\ (forall fileId, well_keyed (fst (deleteExcelData st fileId)))
       /\ (forall id statistics,
             well_keyed (fst (updateExcelDataStatistics st id statistics))).
Proof.
  split; [exact well_keyed_empty|]. intros st [Hf Hd].
  split; [|split; [|split; [|split]]].
  - intros f id now. split; cbn; [|exact Hd]. now apply keyed_set.
  - intros d id now. split; cbn; [exact Hf|]. now apply keyed_set.
  - intros id. rewrite (deleteExcelFile_eq st id (conj Hf Hd)).
    split; cbn; now apply keyed_filter.
  - intros fid. rewrite (deleteExcelData_eq st fid Hd).
    split; cbn; [exact Hf | now apply keyed_filter].
  - intros id s. unfold updateExcelDataStatistics.
    destruct (obj_get (excelData st) id) as [d|] eqn:Eg; cbn; [|now split].
    split; cbn; [exact Hf|]. apply keyed_set; [|exact Hd].
    rewrite with_statistics_id. exact (keyed_get _ _ _ _ Hd Eg).
Qed.

Lemma well_keyed_stored : well_keyed Examples.stored.
Proof.
  split; (split; [repeat constructor; simpl; tauto | repeat constructor]).
Qed.

Lemma storage_stays_keyed_witness :
  well_keyed (fst (deleteExcelFile Examples.stored "file-1")).
Proof.
  destruct storage_stays_keyed as [_ H].
  destruct (H Examples.stored well_keyed_stored) as [_ [_ [Hd _]]].
  exact (Hd "file-1").
Defined.

(** X9.  A sheet entry that has been created is found again under its id,
    with the fields it was given; the entries under other ids and the files
    are as before, and when the id was not in use the entry comes last
    among the entries of its file. *)
Theorem created_data_is_found (st : MemStorage) (insertData : InsertExcelData.t)
    (id : string) (now : Z) :
  let st' := fst (createExcelData st insertData id now) in
  let d := snd (createExcelData st insertData id now) in
  getExcelDataById st' id = Some d
  /\ ExcelData.id d = id
  /\ ExcelData.fileId d = InsertExcelData.fileId insertData
  /\ ExcelData.data d = InsertExcelData.data insertData
  /\ ExcelData.statistics d = InsertExcelData.statistics insertData
  /\ (forall id', id' <> id -> getExcelDataById st' id' = getExcelDataById st id')
  /\ (forall id', getExcelFile st' id' = getExcelFile st id')
  /\ (getExcelDataById st id = None ->
      forall fileId,
        getExcelData st' fileId
        = (getExcelData st fileId
           ++ (if String.eqb (InsertExcelData.fileId insertData) fileId
               then [d] else []))%list).
Proof.
  cbn zeta. unfold getExcelDataById, getExcelData, getExcelFile. cbn [fst snd createExcelData excelData excelFiles].
  split; [apply obj_get_set_eq|]. do 4 (split; [reflexivity|]).
  split; [|split; [reflexivity|]].
  - intros id' Hne. apply obj_get_set_ne. congruence.
  - intros Hnone fid. rewrite (obj_get_None_set _ _ _ Hnone).
    unfold Map_values. rewrite map_app, List.filter_app. reflexivity.
Qed.

(** X10.  Deleting a file reports whether the file was stored, and removes
    it together with every sheet entry of that file, also when the file
    itself was not stored; the other files and their entries stay. *)
Theorem deleteExcelFile_cascade (st : MemStorage) (id : string) :
  well_keyed st ->
  let st' := fst (deleteExcelFile st id) in
  snd (deleteExcelFile st id) = is_Some_b (getExcelFile st id)
  /\ getExcelFile st' id = None
  /\ getExcelData st' id = []
  /\ (forall id', id' <> id ->
        getExcelFile st' id' = getExcelFile st id'
        /\ getExcelData st' id' = getExcelData st id')
  /\ (forall k,
        getExcelDataById st' k
        = match getExcelDataById st k with
          | Some d => if String.eqb (ExcelData.fileId d) id then None else Some d
          | None => None
          end).
Proof.
  intros Hwf. pose proof Hwf as [Hf Hd]. cbn zeta.
  rewrite (deleteExcelFile_eq st id Hwf).
  unfold getExcelData, getExcelFile, getExcelDataById.
  cbn [fst snd excelFiles excelData].
  split; [|split; [|split; [|split]]].
  - rewrite has_key_get. unfold is_Some_b. reflexivity.
  - rewrite (obj_get_filter _ _ _ (proj1 Hf)).
    destruct (obj_get (excelFiles st) id); [|reflexivity].
    cbn [fst]. now rewrite String.eqb_refl.
  - rewrite getExcelData_filtered. now rewrite String.eqb_refl.
  - intros id' Hne. split.
    + rewrite (obj_get_filter _ _ _ (proj1 Hf)).
      destruct (obj_get (excelFiles st) id'); [|reflexivity].
      cbn [fst]. destruct (String.eqb_spec id' id); [contradiction | reflexivity].
    + rewrite getExcelData_filtered.
      destruct (String.eqb_spec id' id); [contradiction | reflexivity].
  - intros k. rewrite (obj_get_filter _ _ _ (proj1 Hd)).
    destruct (obj_get (excelData st) k) as [d|]; [|reflexivity].
    cbn [snd]. destruct (String.eqb (ExcelData.fileId d) id); reflexivity.
Qed.

Lemma deleteExcelFile_cascade_witness :
  getExcelData (fst (deleteExcelFile Examples.stored "file-1")) "file-1" = [].
Proof.
  destruct (deleteExcelFile_cascade Examples.stored "file-1" well_keyed_stored)
    as [_ [_ [H _]]].
  exact H.
Defined.

(** X11.  Deleting the entries of a file reports whether there was any,
    removes them all, and leaves the files and the entries of the other
    files as they were. *)
Theorem deleteExcelData_entries (st : MemStorage) (fileId : string) :
  well_keyed st ->
  let st' := fst (deleteExcelData st fileId) in
  snd (deleteExcelData st fileId)
  = match getExcelData st fileId with [] => false | _ :: _ => true end
  /\ excelFiles st' = excelFiles st
  /\ getExcelData st' fileId = []
  /\ (forall fileId', fileId' <> fileId ->
        getExcelData st' fileId' = getExcelData st fileId').
Proof.
  intros [Hf Hd]. cbn zeta.
  rewrite (deleteExcelData_eq st fileId Hd). cbn [fst snd excelFiles].
  split; [|split; [reflexivity|split]].
  - now destruct (getExcelData st fileId).
  - unfold getExcelData. cbn [excelData].
    rewrite getExcelData_filtered. now rewrite String.eqb_refl.
  - intros fid' Hne. unfold getExcelData. cbn [excelData].
    rewrite getExcelData_filtered.
    destruct (String.eqb_spec fid' fileId); [contradiction | reflexivity].
Qed.

Lemma deleteExcelData_entries_witness :
  snd (deleteExcelData Examples.stored "file-1") = true.
Proof.
  destruct (deleteExcelData_entries Examples.stored "file-1" well_keyed_stored)
    as [H _].
  exact H.
Defined.

(** X12.  Updating the statistics of an id that is not stored changes
    nothing and returns nothing.  For a stored id it returns the entry with
    the new statistics and all its other fields, which is then found under
    the id; the other entries, the files, and the order of the entries of
    every file are as before. *)
Theorem updateExcelDataStatistics_entry (st : MemStorage) (id : string)
    (statistics : option Statistics) :
  let st' := fst (updateExcelDataStatistics st id statistics) in
  match getExcelDataById st id with
  | None => updateExcelDataStatistics st id statistics = (st, None)
  | Some d =>
      snd (updateExcelDataStatistics st id statistics)
      = Some (with_statistics d statistics)
      /\ getExcelDataById st' id = Some (with_statistics d statistics)
      /\ (forall id', id' <> id ->
            getExcelDataById st' id' = getExcelDataById st id')
      /\ excelFiles st' = excelFiles st
      /\ (forall fileId,
            map ExcelData.id (getExcelData st' fileId)
            = map ExcelData.id (getExcelData st fileId))
  end.
Proof.
  cbn zeta. unfold updateExcelDataStatistics, getExcelDataById.
  destruct (obj_get (excelData st) id) as [d|] eqn:Eg; [|reflexivity].
  cbn [fst snd excelData excelFiles].
  split; [reflexivity|]. split; [apply obj_get_set_eq|].
  split; [|split; [reflexivity|]].
  - intros id' Hne. apply obj_get_set_ne. congruence.
  - intros fid. unfold getExcelData. cbn [excelData].
    clear -Eg. revert Eg. generalize (excelData st) as m.
    induction m as [|[k v] m IH]; simpl; [discriminate|].
    destruct (String.eqb k id); simpl.
    + intros [= ->]. now destruct (String.eqb (ExcelData.fileId d) fid).
    + intros Hg. destruct (String.eqb (ExcelData.fileId v) fid); simpl;
        now rewrite IH.
Qed.

(** *** The list of the files *)

Lemma StronglySorted_impl {A} (R R' : A -> A -> Prop) (l : list A) :
  (forall a b, R a b -> R' a b) -> StronglySorted R l -> StronglySorted R' l.
Proof.
  intros H. induction 1 as [|a l Hs IH Ha]; constructor; [exact IH|].
  eapply List.Forall_impl; [|exact Ha]. apply H.
Qed.

Lemma later_first_measure (a b : ExcelFile.t) :
  later_first a b = (- ExcelFile.uploadedAt b <? - ExcelFile.uploadedAt a).
Proof.
  unfold later_first.
  destruct (Z.ltb_spec (ExcelFile.uploadedAt a) (ExcelFile.uploadedAt b));
    symmetry; [apply Z.ltb_lt | apply Z.ltb_ge]; lia.
Qed.

(** X13.  The list of all files holds the stored files, each once, the
    latest upload first; files uploaded at the same time keep the order
    in which they were stored.  A file stored under a fresh id is added to
    the list. *)
Theorem getAllExcelFiles_order (st : MemStorage) :
  Permutation (getAllExcelFiles st) (Map_values (excelFiles st))
  /\ StronglySorted
       (fun a b => ExcelFile.uploadedAt b <= ExcelFile.uploadedAt a)
       (getAllExcelFiles st)
  /\ (forall t,
        List.filter (fun f => ExcelFile.uploadedAt f =? t) (getAllExcelFiles st)
        = List.filter (fun f => ExcelFile.uploadedAt f =? t)
                      (Map_values (excelFiles st)))
  /\ (forall insertFile id now,
        getExcelFile st id = None ->
        Permutation
          (getAllExcelFiles (fst (createExcelFile st insertFile id now)))
          (snd (createExcelFile st insertFile id now) :: getAllExcelFiles st)).
Proof.
  unfold getAllExcelFiles. split; [apply sort_perm|]. split; [|split].
  - eapply StronglySorted_impl;
      [|apply (sort_sorted later_first (fun f => - ExcelFile.uploadedAt f)
                 later_first_measure)].
    simpl. intros; lia.
  - intros t.
    pose proof (sort_stable later_first (fun f => - ExcelFile.uploadedAt f)
                  later_first_measure (- t) (Map_values (excelFiles st))) as H.
    erewrite (List.filter_ext _ (fun a => - ExcelFile.uploadedAt a =? - t)).
    + rewrite H. apply List.filter_ext. intros a.
      destruct (Z.eqb_spec (ExcelFile.uploadedAt a) t);
        [apply Z.eqb_eq | apply Z.eqb_neq]; lia.
    + intros a. destruct (Z.eqb_spec (ExcelFile.uploadedAt a) t);
        symmetry; [apply Z.eqb_eq | apply Z.eqb_neq]; lia.
  - intros f id now Hnone. unfold getExcelFile in Hnone.
    cbn [fst snd createExcelFile excelFiles].
    rewrite (obj_get_None_set _ _ _ Hnone). rewrite !sort_perm.
    unfold Map_values. rewrite map_app. cbn [map snd].
    rewrite Permutation_app_comm. reflexivity.
Qed.

End StorageProps.

(** ** Further properties of the chart data *)

Module ChartDataProps.
Import Js Stats Model Spec Shape Facts TableProps ChartUtils.

Lemma slice0_length {A} (limit : Z) (l : list A) :
  List.length (slice0 limit l)
  = if limit <? 0 then Z.to_nat (Z.of_nat (List.length l) + limit)
    else Nat.min (Z.to_nat limit) (List.length l).
Proof.
  unfold slice0. destruct (limit <? 0) eqn:E; rewrite length_firstn; [|reflexivity].
  apply Z.ltb_lt in E. lia.
Qed.

Lemma slice0_lookup {A} (limit : Z) (l : list A) (i : nat) (a : A) :
  slice0 limit l !! i = Some a -> l !! i = Some a.
Proof.
  destruct (slice0_prefix limit l) as [rest E]. intros H.
  rewrite E. now apply lookup_app_l_Some.
Qed.

Lemma prepareLineChartData_all (h : Host) (data : list row)
    (xColumn yColumn : string) (limit : option Z) :
  prepareLineChartData h data xColumn yColumn limit
  = mapi (fun r index =>
            {| name := line_name h r xColumn index;
               value := or_zero (parseFloat h (cell r yColumn));
               x := None; y := None |})
         (slice0 (with_default 50 limit) data).
Proof.
  unfold prepareLineChartData. apply filter_all.
  apply mapi_from_Forall. intros r i. simpl. now rewrite or_zero_not_nan.
Qed.

Lemma mapi_lookup_inv {A B} (f : A -> nat -> B) (l : list A) (i : nat) (b : B) :
  mapi f l !! i = Some b -> exists a, l !! i = Some a /\ b = f a i.
Proof.
  intros H. destruct (l !! i) as [a|] eqn:E.
  - exists a. split; [reflexivity|]. unfold mapi in H.
    rewrite (mapi_from_lookup f l 0 i a E) in H. now injection H as <-.
  - exfalso. apply lookup_ge_None in E.
    assert (Hl : (i < List.length (mapi f l))%nat) by (apply lookup_lt_is_Some; eauto).
    unfold mapi in Hl. rewrite mapi_from_length in Hl. lia.
Qed.

(** X14.  The bar and the line projections give one point for each of the
    first [limit] rows (20 and 50 by default; a negative limit leaves out
    that many rows at the end) and drop none of them: the point at
    position [i] comes from row [i], its value is the parsed y cell, or 0
    when the cell does not parse, and is never NaN.  A falsy x cell is
    named by the position: "Item i+1" in the bar chart, "i" in the line
    chart. *)
Theorem bar_and_line_points (h : Host) (data : list row)
    (xColumn yColumn : string) (limit : option Z) :
  let points_of (d : Z) :=
    if with_default d limit <? 0
    then Z.to_nat (Z.of_nat (List.length data) + with_default d limit)
    else Nat.min (Z.to_nat (with_default d limit)) (List.length data) in
  List.length (prepareBarChartData h data xColumn yColumn limit) = points_of 20
  /\ List.length (prepareLineChartData h data xColumn yColumn limit) = points_of 50
  /\ (forall i p,
        prepareBarChartData h data xColumn yColumn limit !! i = Some p ->
        exists r, data !! i = Some r
          /\ name p = (if ToBoolean (cell r xColumn) then ToString h (cell r xColumn)
                       else "Item " ++ nat_to_string (i + 1))
          /\ value p = or_zero (parseFloat h (cell r yColumn))
          /\ is_nan (value p) = false)
  /\ (forall i p,
        prepareLineChartData h data xColumn yColumn limit !! i = Some p ->
        exists r, data !! i = Some r
          /\ name p = (if ToBoolean (cell r xColumn) then ToString h (cell r xColumn)
                       else nat_to_string i)
          /\ value p = or_zero (parseFloat h (cell r yColumn))
          /\ is_nan (value p) = false).
Proof.
  cbv zeta. rewrite ChartProps.prepareBarChartData_all, prepareLineChartData_all.
  unfold mapi. rewrite !mapi_from_length, !slice0_length.
  split; [reflexivity|]. split; [reflexivity|]. split.
  - intros i p Hp. apply mapi_lookup_inv in Hp as [r [Hr ->]].
    exists r. split; [now apply slice0_lookup in Hr|].
    split; [reflexivity|]. split; [reflexivity|]. apply or_zero_not_nan.
  - intros i p Hp. apply mapi_lookup_inv in Hp as [r [Hr ->]].
    exists r. split; [now apply slice0_lookup in Hr|].
    split; [reflexivity|]. split; [reflexivity|]. apply or_zero_not_nan.
Qed.

(** *** [generateChartData] *)

Lemma group_key_pie_key (h : Host) (column : string) (r : row) :
  ExcelUtils.group_key h column r = pie_key h column r.
Proof. reflexivity. Qed.

Lemma entries_In {V} (o : object V) (e : string * V) :
  In e (entries o) <-> In e o.
Proof.
  split; apply Permutation_in; [|symmetry]; apply entries_perm.
Qed.

(** X15.  For a pie chart [generateChartData] gives one point for each
    distinct key among the x cells, a falsy cell counting under "Unknown".
    The value of a point is the number of rows of its key, at least 1, and
    these numbers add up to the number of rows.  The points are neither
    sorted by value nor limited: they come in the order of the keys of the
    groups object, integer-like keys first in ascending order, then the
    other keys as first seen. *)
Theorem generateChartData_pie (h : Host) (data : list row)
    (xColumn yColumn : string)
    (Hplain : plain_keys (map (ExcelUtils.group_key h xColumn) data)) :
  let ks := map (ExcelUtils.group_key h xColumn) data in
  let points := ExcelUtils.generateChartData h data xColumn yColumn pie in
  map name points = own_key_order (first_seen ks)
  /\ List.NoDup (map name points)
  /\ (forall p, In p points ->
        value p = nat_to_number (List.count_occ String.string_dec ks (name p))
        /\ (1 <= List.count_occ String.string_dec ks (name p))%nat
        /\ x p = None /\ y p = None)
  /\ list_sum (map (fun p => List.count_occ String.string_dec ks (name p)) points)
     = List.length data.
Proof.
  intros ks points. unfold points, ExcelUtils.generateChartData. fold ks.
  assert (Hin : forall e, In e (entries (frequencies ks)) ->
                snd e = List.count_occ String.string_dec ks (fst e)).
  { intros [k c] He. apply (proj1 (entries_In _ _)) in He. cbn [fst snd].
    now apply frequencies_In. }
  split; [|split; [|split]].
  - rewrite map_map. cbn [name]. apply frequencies_key_order.
  - rewrite map_map. cbn [name].
    apply (Permutation_NoDup
             (Permutation_sym (Permutation_map fst (entries_perm (frequencies ks))))).
    apply frequencies_NoDup.
  - intros p Hp. apply List.in_map_iff in Hp as [[k c] [<- He]]. cbn [name value x y fst snd].
    pose proof (Hin _ He) as Hc. cbn [fst snd] in Hc. subst c.
    split; [reflexivity|]. split; [|split; reflexivity].
    apply List.count_occ_In. apply first_seen_In. rewrite <- frequencies_keys.
    apply List.in_map_iff. exists (k, List.count_occ String.string_dec ks k).
    split; [reflexivity | now apply (proj1 (entries_In _ _))].
  - rewrite map_map. cbn [name fst].
    rewrite (map_ext_in _ snd) by (intros e He; symmetry; now apply Hin).
    pose proof (total_perm _ _ (entries_perm (frequencies ks))) as Ht.
    rewrite frequencies_total in Ht. unfold total in Ht.
    unfold ks in Ht at 2. rewrite length_map in Ht. exact Ht.
Qed.

Lemma generateChartData_pie_witness :
  let data := Examples.strings_under "c" ["B"; "A"; ""; "A"] in
  map name (ExcelUtils.generateChartData Examples.host data "c" "v" pie)
  = ["B"; "A"; "Unknown"].
Proof.
  intros data.
  assert (Hplain : plain_keys (map (ExcelUtils.group_key Examples.host "c") data)).
  { repeat constructor. }
  destruct (generateChartData_pie Examples.host data "c" "v" Hplain) as [H _].
  rewrite H. reflexivity.
Defined.

(** X16.  The two pie projections of the client agree up to the order of
    the points: with a limit that is at least the number of rows,
    [preparePieChartData] gives the points of [generateChartData], sorted
    by descending value. *)
Theorem pie_projections_agree (h : Host) (data : list row)
    (xColumn yColumn : string) (limit : Z)
    (Hplain : plain_keys (map (pie_key h xColumn) data))
    (Hlimit : Z.of_nat (List.length data) <= limit) :
  Permutation (preparePieChartData h data xColumn (Some limit))
              (ExcelUtils.generateChartData h data xColumn yColumn pie)
  /\ preparePieChartData h data xColumn (Some limit)
     = map pie_point
         (sort gt_count
            (entries (frequencies (map (pie_key h xColumn) data)))).
Proof.
  unfold preparePieChartData, pie_entries, ExcelUtils.generateChartData.
  change (with_default 8 (Some limit)) with limit.
  assert (Hall : slice0 limit (sort gt_count
                   (entries (frequencies (map (pie_key h xColumn) data))))
                 = sort gt_count (entries (frequencies (map (pie_key h xColumn) data)))).
  { apply slice0_all. rewrite sort_length.
    rewrite (Permutation_length (entries_perm _)).
    pose proof (frequencies_total (map (pie_key h xColumn) data)) as Ht.
    rewrite length_map in Ht.
    assert (Hle : forall es : list (string * nat),
              List.Forall (fun e => 1 <= snd e)%nat es ->
              (List.length es <= total es)%nat).
    { induction 1 as [|e es He _ IH]; unfold total in *; simpl in *; lia. }
    specialize (Hle (frequencies (map (pie_key h xColumn) data))).
    rewrite Ht in Hle.
    assert (List.length (frequencies (map (pie_key h xColumn) data))
            <= List.length data)%nat; [|lia].
    apply Hle. apply List.Forall_forall. intros [k c] He. cbn [snd].
    rewrite (frequencies_In _ k c He).
    apply List.count_occ_In. apply first_seen_In. rewrite <- frequencies_keys.
    apply List.in_map_iff. now exists (k, c). }
  rewrite Hall. split; [|reflexivity].
  apply Permutation_map. apply sort_perm.
Qed.

Lemma pie_projections_agree_witness :
  let data := Examples.strings_under "c" ["B"; "A"; ""; "A"] in
  Permutation (preparePieChartData Examples.host data "c" (Some 4))
              (ExcelUtils.generateChartData Examples.host data "c" "v" pie).
Proof.
  intros data.
  assert (Hplain : plain_keys (map (pie_key Examples.host "c") data)).
  { repeat constructor. }
  destruct (pie_projections_agree Examples.host data "c" "v" 4 Hplain) as [H _].
  - vm_compute. discriminate.
  - exact H.
Defined.



End ChartDataProps.

(** ** Properties of the CSV export and of the chart titles *)

Module ExportProps.
Import Js Stats Model Spec Shape Facts.

Lemma code_dquote : code ExcelUtils.dquote = 34%N.
Proof. reflexivity. Qed.

Lemma code_inj (c d : ascii) : code c = code d -> c = d.
Proof.
  unfold code. intros H.
  rewrite <- (ascii_N_embedding c), <- (ascii_N_embedding d). now rewrite H.
Qed.

Lemma undouble_double (l : list ascii) :
  undouble (ExcelUtils.double_quotes l ++ [ExcelUtils.dquote]) = l.
Proof.
  induction l as [|c l IH]; [reflexivity|].
  cbn [ExcelUtils.double_quotes].
  destruct (code c =? 34)%N eqn:E.
  - cbn [app undouble]. rewrite code_dquote. cbn [N.eqb Pos.eqb].
    rewrite IH. f_equal. apply N.eqb_eq in E. apply code_inj. now rewrite E.
  - cbn [app undouble]. rewrite E. now rewrite IH.
Qed.

Lemma string_list_string (s : string) : list_to_string (string_to_list s) = s.
Proof. apply string_of_list_ascii_of_string. Qed.

Lemma list_string_list (l : list ascii) : string_to_list (list_to_string l) = l.
Proof. apply list_ascii_of_string_of_list_ascii. Qed.

Lemma csv_read_string (h : Host) (s : string) :
  csv_read (ExcelUtils.csv_field h (JStr s)) = s.
Proof.
  unfold ExcelUtils.csv_field.
  destruct (ExcelUtils.needs_quotes s) eqn:E.
  - unfold csv_read, ExcelUtils.quoted. rewrite list_string_list.
    rewrite code_dquote. cbn [N.eqb Pos.eqb].
    now rewrite undouble_double, string_list_string.
  - unfold csv_read. destruct (string_to_list s) as [|c body] eqn:El; [reflexivity|].
    destruct (code c =? 34)%N eqn:Ec; [|reflexivity]. exfalso.
    unfold ExcelUtils.needs_quotes, ExcelUtils.includes in E.
    rewrite El in E. cbn [existsb] in E. rewrite code_dquote, Ec in E.
    cbn in E. rewrite orb_true_r in E. discriminate.
Qed.


End ExportProps.

(** ** Properties of the chart titles *)

Module TitleProps.
Import Js Stats Model Spec Shape Facts ChartUtils.

Lemma is_upper_not_lower (c : ascii) : is_upper c = true -> is_lower c = false.
Proof.
  unfold is_upper, is_lower. cbv zeta. intros H.
  apply andb_true_iff in H as [_ H]. apply N.leb_le in H.
  apply andb_false_iff. left. apply N.leb_gt. lia.
Qed.

(** X19.  A chart title is built from the column name with a blank put
    before every capital letter A to Z and the first character in upper
    case.  So a name that begins with a small letter a to z begins with
    the capital, and a name that begins with a capital gets a title that
    begins with a blank: without a y column the pie, line and scatter
    titles then begin with a blank and the bar title has two blanks after
    "Distribution of". *)
Theorem generateChartTitle_capitals (upper_other : ascii -> string)
    (c : ascii) (rest : string) :
  let tail := list_to_string (space_capitals (string_to_list rest)) in
  (is_lower c = true ->
   formatColumnName upper_other (String c rest)
   = String (ascii_of_N (code c - 32)) tail)
  /\ (is_upper c = true ->
      formatColumnName upper_other (String c rest) = String " " (String c tail)
      /\ generateChartTitle upper_other "pie" (String c rest) None
         = String " " (String c tail) ++ " Distribution"
      /\ generateChartTitle upper_other "line" (String c rest) None
         = String " " (String c tail) ++ " Over Time"
      /\ generateChartTitle upper_other "scatter" (String c rest) None
         = String " " (String c tail) ++ " Scatter Plot"
      /\ generateChartTitle upper_other "bar" (String c rest) None
         = "Distribution of  " ++ String c tail).
Proof.
  cbv zeta. split.
  - intros Hl. unfold formatColumnName.
    cbn [string_to_list list_ascii_of_string space_capitals].
    assert (Hu : is_upper c = false).
    { unfold is_upper, is_lower in *. cbv zeta in *.
      apply andb_true_iff in Hl as [Hl _]. apply N.leb_le in Hl.
      apply andb_false_iff. right. apply N.leb_gt. lia. }
    rewrite Hu. unfold capitalize. rewrite Hl.
    assert (Hnl : ((code c =? 10) || (code c =? 13))%N = false).
    { unfold is_lower in Hl. cbv zeta in Hl.
      apply andb_true_iff in Hl as [Hl _]. apply N.leb_le in Hl.
      apply orb_false_iff. split; apply N.eqb_neq; lia. }
    rewrite Hnl. reflexivity.
  - intros Hu.
    assert (E : formatColumnName upper_other (String c rest)
                = String " " (String c (list_to_string
                                          (space_capitals (string_to_list rest))))).
    { unfold formatColumnName.
      cbn [string_to_list list_ascii_of_string space_capitals]. rewrite Hu.
      reflexivity. }
    split; [exact E|].
    unfold generateChartTitle. rewrite E.
    repeat split; reflexivity.
Qed.

Lemma generateChartTitle_capitals_witness :
  generateChartTitle (fun _ => "?") "pie" "TotalSales" None
  = " Total Sales Distribution"
  /\ formatColumnName (fun _ => "?") "totalSales" = "Total Sales".
Proof.
  destruct (generateChartTitle_capitals (fun _ => "?") "T" "otalSales")
    as [_ H].
  destruct (generateChartTitle_capitals (fun _ => "?") "t" "otalSales")
    as [H' _].
  split.
  - destruct (H eq_refl) as [_ [Hp _]]. exact Hp.
  - exact (H' eq_refl).
Defined.

End TitleProps.

(** ** Type inference and the statistics that follow it *)

Module TypedColumnProps.
Import Js Stats Model Spec Shape Facts FloatFacts ThresholdProps InferenceProps.
Import ExcelUtils.

Lemma numeric_like_kept (values : list any) :
  List.Forall (fun v => not_nan_cell v = true) values ->
  (List.length (List.filter is_numeric_like (nonNull values))
   <= List.length (numericValues values))%nat.
Proof.
  intros Hall. unfold numericValues, nonNull.
  induction Hall as [|v values Hv _ IH]; [simpl; lia|].
  cbn [List.filter]. destruct (is_present v); [|exact IH].
  cbn [List.filter map].
  destruct v as [| |b|x|s|r t|n]; cbn [is_numeric_like].
  - destruct (negb (isNaN JNull)); cbn [List.length]; lia.
  - destruct (negb (isNaN JUndefined)); cbn [List.length]; lia.
  - destruct (negb (isNaN (JBool b))); cbn [List.length]; lia.
  - (* a number *)
    change (isNaN (JNum x)) with (is_nan x).
    cbn [not_nan_cell] in Hv. rewrite Hv. cbn [List.length]. lia.
  - (* a string *)
    change (isNaN (JNum (parseFloat_string (strip_dollar_comma s))))
      with (is_nan (parseFloat_string (strip_dollar_comma s))).
    destruct (negb (is_nan (parseFloat_string (strip_dollar_comma s))));
      cbn [List.length]; lia.
  - destruct (negb (isNaN (JDate r t))); cbn [List.length]; lia.
  - destruct (negb (isNaN (JInherited n))); cbn [List.length]; lia.
Qed.

(** A number column: more than four fifths of its non-null values are
    numbers or strings that parse. *)
Lemma number_majority (h : Host) (values : list any) :
  Z.of_nat (List.length values) <= max_array_length ->
  detectColumnType h values = number ->
  4 * Z.of_nat (List.length (nonNull values))
  < 5 * Z.of_nat (List.length (List.filter is_numeric_like (nonNull values))).
Proof.
  intros Hl Ht.
  assert (Hl' : Z.of_nat (List.length (nonNull values)) <= max_array_length).
  { pose proof (filter_length_le is_present values). unfold nonNull. lia. }
  assert (Hm : majority (List.filter is_numeric_like (nonNull values)) (nonNull values)
               = true).
  { unfold detectColumnType in Ht.
    destruct (Nat.eqb (List.length (nonNull values)) 0); [discriminate|].
    destruct (majority (List.filter is_boolean_like (nonNull values)) (nonNull values));
      [discriminate|].
    destruct (majority (List.filter is_numeric_like (nonNull values)) (nonNull values));
      [reflexivity|].
    destruct (majority (List.filter (is_date_like h) (nonNull values)) (nonNull values));
      discriminate. }
  rewrite (majority_exact is_numeric_like (nonNull values) Hl') in Hm.
  rewrite exceeds_four_fifths in Hm. now apply Z.ltb_lt in Hm.
Qed.

(** X20.  A column that type inference calls a number column, and that
    holds no NaN, gets numeric statistics from [calculateColumnStatistics]
    under the type "number": the numeric fields are present, and they are
    computed over more than four fifths of the non-null values. *)
Theorem number_column_has_statistics (h : Host) (values : list any) :
  Z.of_nat (List.length values) <= max_array_length ->
  List.Forall (fun v => not_nan_cell v = true) values ->
  detectColumnType h values = number ->
  branch (calculateColumnStatistics h values "number") = NumericBranch
  /\ 4 * Z.of_nat (List.length (nonNull values))
     < 5 * Z.of_nat (List.length (numericValues values)).
Proof.
  intros Hl Hnan Ht.
  pose proof (number_majority h values Hl Ht) as Hm.
  pose proof (numeric_like_kept values Hnan) as Hk.
  assert (Hlt : 4 * Z.of_nat (List.length (nonNull values))
                < 5 * Z.of_nat (List.length (numericValues values))) by lia.
  split; [|exact Hlt].
  unfold calculateColumnStatistics.
  assert (Hpos : Nat.ltb 0 (List.length (numericValues values)) = true).
  { apply Nat.ltb_lt. lia. }
  rewrite Hpos. reflexivity.
Qed.

Lemma number_column_has_statistics_witness :
  branch (calculateColumnStatistics Examples.host
            [JStr "$1,200"; JNum 3%float; JNull] "number")
  = NumericBranch.
Proof.
  destruct (number_column_has_statistics Examples.host
              [JStr "$1,200"; JNum 3%float; JNull]) as [H _].
  - vm_compute. discriminate.
  - repeat constructor.
  - vm_compute. reflexivity.
  - exact H.
Defined.

End TypedColumnProps.

(** ** From the upload to the chart data *)

Module RouteProps.
Import Js Stats Model Spec Shape Facts UploadProps.

(** X21.  A sheet that went through the upload route and was stored can
    be charted under the id of its entry: the chart data route answers with
    one point per sheet row, in order, whose x and label are the cell of
    the x column and whose y is the cell of the y column, each cell as the
    upload kept it (null when it was falsy or absent).  An id that is not
    stored is answered by "not found". *)
Theorem uploaded_sheet_chart_data (h : Host) (st : Storage.MemStorage)
    (fileId sheetName : string) (headers : list string)
    (rows : list (list any)) (id : string) (now : Z)
    (chartType xColumn yColumn : string) (i j : nat) :
  ordinary_headers headers -> NoDup headers ->
  headers !! i = Some xColumn -> headers !! j = Some yColumn ->
  (forall dataId,
     Server.chartData st dataId chartType xColumn yColumn = None
     <-> Storage.getExcelDataById st dataId = None)
  /\ exists entry,
       Server.processSheet h fileId sheetName (Some (headers, rows)) = Some entry
       /\ Server.chartData (fst (Storage.createExcelData st entry id now))
            id chartType xColumn yColumn
          = Some {| Server.ChartResponse.type := chartType;
                    Server.ChartResponse.data :=
                      map (fun cells =>
                             {| Server.ChartPoint.x := Server.cell_or_null cells i;
                                Server.ChartPoint.y := Server.cell_or_null cells j;
                                Server.ChartPoint.label := Server.cell_or_null cells i |})
                          rows;
                    Server.ChartResponse.xColumn := xColumn;
                    Server.ChartResponse.yColumn := yColumn |}.
Proof.
  intros _ Hnd Hi Hj. split.
  - intros dataId. unfold Server.chartData.
    destruct (Storage.getExcelDataById st dataId); split; congruence.
  - eexists. split; [reflexivity|].
    unfold Server.chartData, Storage.getExcelDataById.
    cbn [fst Storage.createExcelData Storage.excelData].
    rewrite obj_get_set_eq.
    cbn [Storage.ExcelData.data Storage.InsertExcelData.data].
    f_equal. f_equal. rewrite map_map. apply map_ext. intros cells.
    assert (E : forall k c, headers !! k = Some c ->
                cell (Server.row_object headers cells) c = Server.cell_or_null cells k).
    { intros k c Hk. unfold cell. now rewrite (row_object_at headers cells k c Hnd Hk). }
    now rewrite (E i xColumn Hi), (E j yColumn Hj).
Qed.

Lemma uploaded_sheet_chart_data_witness :
  exists entry,
    Server.processSheet Examples.host "file-1" "Sheet1"
      (Some (["a"; "b"], [[JNum 0%float; JStr "x"]])) = Some entry
    /\ Server.chartData (fst (Storage.createExcelData Storage.empty entry "data-1" 5))
         "data-1" "bar" "a" "b"
       = Some {| Server.ChartResponse.type := "bar";
                 Server.ChartResponse.data :=
                   [ {| Server.ChartPoint.x := JNull;
                        Server.ChartPoint.y := JStr "x";
                        Server.ChartPoint.label := JNull |} ];
                 Server.ChartResponse.xColumn := "a";
                 Server.ChartResponse.yColumn := "b" |}.
Proof.
  destruct (uploaded_sheet_chart_data Examples.host Storage.empty "file-1" "Sheet1"
              ["a"; "b"] [[JNum 0%float; JStr "x"]] "data-1" 5 "bar" "a" "b"
              0%nat 1%nat) as [_ H].
  - unfold ordinary_headers. simpl. intros [H|[H|[]]]; discriminate.
  - apply NoDup_cons_2; [|apply NoDup_cons_2; [|apply NoDup_nil_2]].
    + intros H. apply list_elem_of_In in H. simpl in H.
      destruct H as [H|[]]. discriminate.
    + intros H. apply list_elem_of_In in H. destruct H.
  - reflexivity.
  - reflexivity.
  - exact H.
Defined.

End RouteProps.

(** ** Reading the lines of the CSV export *)

Module CsvLineProps.
Import Js Stats Model Spec Shape Facts ExportProps.

Lemma string_to_list_app (s t : string) :
  string_to_list (s ++ t) = (string_to_list s ++ string_to_list t)%list.
Proof.
  unfold string_to_list.
  induction s as [|c s IH]; [reflexivity|]. simpl. now rewrite IH.
Qed.

(** A well quoted text is taken into the current field as a whole. *)
Lemma split_fields_app (f rest field : list ascii) (quoted : bool) :
  well_quoted quoted f = true ->
  split_fields quoted field (f ++ rest) = split_fields false (rev f ++ field) rest.
Proof.
  revert quoted field. induction f as [|c f IH]; intros quoted field H.
  - destruct quoted; [discriminate | reflexivity].
  - cbn [app split_fields well_quoted] in *.
    destruct (code c =? 34)%N.
    + rewrite (IH _ _ H). cbn [rev]. now rewrite <- app_assoc.
    + destruct (code c =? 44)%N.
      * apply andb_true_iff in H as [-> H]. cbn [negb andb].
        rewrite (IH _ _ H). cbn [rev]. now rewrite <- app_assoc.
      * cbn [andb]. rewrite (IH _ _ H). cbn [rev]. now rewrite <- app_assoc.
Qed.

Lemma split_fields_join (fields : list string) :
  fields <> [] ->
  List.Forall (fun f => well_quoted false (string_to_list f) = true) fields ->
  split_fields false [] (string_to_list (ExcelUtils.join "," fields))
  = map string_to_list fields.
Proof.
  intros Hne Hall. induction Hall as [|f fields Hf Hall IH]; [congruence|].
  destruct fields as [|g fields].
  - cbn [ExcelUtils.join map].
    pose proof (split_fields_app (string_to_list f) [] [] false Hf) as E.
    rewrite !app_nil_r in E. rewrite E. cbn [split_fields].
    now rewrite rev_involutive.
  - change (ExcelUtils.join "," (f :: g :: fields))
      with (f ++ "," ++ ExcelUtils.join "," (g :: fields)).
    rewrite !string_to_list_app.
    rewrite (split_fields_app _ _ [] false Hf).
    change (string_to_list ",") with [","%char]. cbn [app split_fields].
    change (code ","%char =? 34)%N with false.
    change (code ","%char =? 44)%N with true. cbn [andb negb].
    rewrite app_nil_r, rev_involutive. cbn [map]. f_equal.
    apply IH. discriminate.
Qed.

Lemma well_quoted_plain (l : list ascii) :
  existsb (fun d => (code d =? 44)%N) l = false ->
  existsb (fun d => (code d =? 34)%N) l = false ->
  well_quoted false l = true.
Proof.
  induction l as [|c l IH]; [reflexivity|]. cbn [existsb well_quoted].
  intros H1 H2. apply orb_false_iff in H1 as [-> H1].
  apply orb_false_iff in H2 as [-> H2]. now apply IH.
Qed.

Lemma well_quoted_doubled (l : list ascii) :
  well_quoted true (ExcelUtils.double_quotes l ++ [ExcelUtils.dquote]) = true.
Proof.
  induction l as [|c l IH]; [reflexivity|].
  cbn [ExcelUtils.double_quotes].
  destruct (code c =? 34)%N eqn:E.
  - cbn [app well_quoted]. rewrite code_dquote. cbn [N.eqb Pos.eqb negb]. exact IH.
  - cbn [app well_quoted]. rewrite E.
    destruct (code c =? 44)%N; [cbn [andb]|]; exact IH.
Qed.

Lemma csv_field_well_quoted (h : Host) (v : any) :
  text_cell v = true ->
  well_quoted false (string_to_list (ExcelUtils.csv_field h v)) = true.
Proof.
  destruct v as [| |[]|x|s|r t|n]; try discriminate; try reflexivity. intros _.
  unfold ExcelUtils.csv_field.
  destruct (ExcelUtils.needs_quotes s) eqn:E.
  - unfold ExcelUtils.quoted. rewrite list_string_list.
    cbn [well_quoted]. rewrite code_dquote. cbn [N.eqb Pos.eqb negb].
    apply well_quoted_doubled.
  - unfold ExcelUtils.needs_quotes, ExcelUtils.includes in E.
    apply orb_false_iff in E as [E _]. apply orb_false_iff in E as [E1 E2].
    now apply well_quoted_plain.
Qed.

Lemma csv_read_text (h : Host) (v : any) :
  text_cell v = true -> csv_read (ExcelUtils.csv_field h v) = text_of v.
Proof.
  destruct v as [| |[]|x|s|r t|n]; try discriminate; try reflexivity. intros _.
  cbn [text_of]. apply csv_read_string.
Qed.

Lemma read_line_join (fields : list string) :
  fields <> [] ->
  List.Forall (fun f => well_quoted false (string_to_list f) = true) fields ->
  read_line (ExcelUtils.join "," fields) = map csv_read fields.
Proof.
  intros Hne Hall. unfold read_line.
  rewrite (split_fields_join fields Hne Hall), map_map.
  apply map_ext. intros f. now rewrite string_list_string.
Qed.

Lemma csv_read_plain (k : string) :
  ExcelUtils.includes ExcelUtils.dquote k = false -> csv_read k = k.
Proof.
  unfold csv_read, ExcelUtils.includes.
  destruct (string_to_list k) as [|c body]; [reflexivity|].
  cbn [existsb]. rewrite code_dquote. intros H.
  apply orb_false_iff in H as [-> _]. reflexivity.
Qed.

(** X22.  The lines of the CSV export can be read back.  For a table
    whose first row has at least one key, none of them a name inherited
    from [Object.prototype], and whose cells under these keys are strings,
    booleans, null or undefined, [exportToCSV] writes the keys
    of the first row, joined by commas, and then one line per row; cutting
    a data line at the commas outside double quotes and un-quoting the
    fields gives the cells of the row under the keys of the first row, in
    order, null and undefined as the empty text.  The header line is
    written without quoting: it reads back as the keys when no key holds a
    comma or a double quote.  For an empty table nothing is written. *)
Theorem csv_lines_read_back (h : Host) (first : object any)
    (rest : list (object any)) :
  plain_keys (Js.keys first) ->
  Js.keys first <> [] ->
  List.Forall
    (fun r => List.Forall
                (fun header => text_cell (ExcelUtils.field_of r header) = true)
                (Js.keys first))
    (first :: rest) ->
  ExcelUtils.exportToCSV_text h [] = None
  /\ exists lines,
       ExcelUtils.csv_lines h (first :: rest)
       = ExcelUtils.join "," (Js.keys first) :: lines
       /\ ExcelUtils.exportToCSV_text h (first :: rest)
          = Some (ExcelUtils.join (String (ascii_of_N 10) "")
                    (ExcelUtils.join "," (Js.keys first) :: lines))
       /\ map read_line lines
          = map (fun r => map (fun header => text_of (ExcelUtils.field_of r header))
                              (Js.keys first))
                (first :: rest)
       /\ (List.Forall
             (fun k => ExcelUtils.includes ","%char k = false
                       /\ ExcelUtils.includes ExcelUtils.dquote k = false)
             (Js.keys first) ->
           read_line (ExcelUtils.join "," (Js.keys first)) = Js.keys first).
Proof.
  intros _ Hne Hall. split; [reflexivity|].
  eexists. split; [reflexivity|]. split; [reflexivity|]. split.
  - rewrite map_map. apply map_ext_in. intros r Hr.
    pose proof (proj1 (List.Forall_forall _ _) Hall r Hr) as Hcells.
    rewrite read_line_join.
    + rewrite map_map. apply map_ext_in. intros hd Hhd.
      apply csv_read_text.
      exact (proj1 (List.Forall_forall _ _) Hcells hd Hhd).
    + intros E. apply List.map_eq_nil in E. contradiction.
    + apply List.Forall_forall. intros f Hf.
      apply List.in_map_iff in Hf as [hd [<- Hhd]].
      apply csv_field_well_quoted.
      exact (proj1 (List.Forall_forall _ _) Hcells hd Hhd).
  - intros Hkeys. rewrite read_line_join; [|exact Hne|].
    + rewrite <- (map_id (Js.keys first)) at 2. apply map_ext_in.
      intros k Hk. apply csv_read_plain.
      exact (proj2 (proj1 (List.Forall_forall _ _) Hkeys k Hk)).
    + eapply List.Forall_impl; [|exact Hkeys]. intros k [H1 H2].
      now apply well_quoted_plain.
Qed.

Lemma csv_lines_read_back_witness :
  map read_line
    (tl (ExcelUtils.csv_lines Examples.host
           [ [("name", JStr "Smith, J"); ("note", JNull)];
             [("name", JStr "a"); ("note", JStr "x")] ]))
  = [ ["Smith, J"; ""]; ["a"; "x"] ].
Proof.
  destruct (csv_lines_read_back Examples.host
              [("name", JStr "Smith, J"); ("note", JNull)]
              [ [("name", JStr "a"); ("note", JStr "x")] ])
    as [_ [lines [E [_ [H _]]]]].
  - repeat constructor.
  - vm_compute. discriminate.
  - repeat constructor.
  - apply (eq_trans (f_equal (fun l => map read_line (tl l)) E)).
    cbn [tl]. exact H.
Defined.

End CsvLineProps.

(** ** The range of the data quality *)

Module QualityProps.
Import Js Stats Model Spec Shape Facts FloatFacts ThresholdProps CountProps NumberProps.

Lemma Zdigits2_shift (n k : Z) :
  0 < n -> 0 <= k -> Zdigits2 (n * 2 ^ k) = Zdigits2 n + k.
Proof.
  intros Hn Hk. pose proof (Zdigits2_bounds n Hn) as [Hlo Hhi].
  assert (Hd : 0 < Zdigits2 n) by (destruct n; simpl; lia).
  assert (Hp : 0 < 2 ^ k) by (apply Z.pow_pos_nonneg; lia).
  apply Zdigits2_unique; [|lia].
  replace (Zdigits2 n + k - 1) with (Zdigits2 n - 1 + k) by lia.
  rewrite !Z.pow_add_r by lia. split.
  - apply Z.mul_le_mono_nonneg_r; lia.
  - apply Z.mul_lt_mono_pos_r; lia.
Qed.

(** Rounding a mantissa whose lost digits are zeros. *)
Lemma round_exact (mx ex : Z) :
  0 < mx -> 53 <= Zdigits2 mx ->
  -1074 <= ex + (Zdigits2 mx - 53) <= 970 ->
  mx mod 2 ^ (Zdigits2 mx - 53) = 0 ->
  exists m : positive,
    binary_round_aux prec emax false mx ex loc_Exact
    = S754_finite false m (ex + (Zdigits2 mx - 53))
    /\ Z.pos m = mx / 2 ^ (Zdigits2 mx - 53).
Proof.
  intros Hm Hd He Hmod.
  destruct (binary_round_aux_bounds mx ex loc_Exact Hm Hd He)
    as [m [e [E [_ [_ Hexact]]]]].
  destruct (Hexact eq_refl Hmod) as [Hm' He']. subst e.
  exists m. split; [exact E | exact Hm'].
Qed.

Lemma nat_is_integer (n : nat) :
  (0 < n)%nat -> Z.of_nat n < 2 ^ 53 -> is_integer (nat_to_number n) (Z.of_nat n).
Proof.
  intros Hn Hlt. destruct (nat_to_number_exact n Hn Hlt) as [m [E [Hm _]]].
  exists m. split; assumption.
Qed.

Lemma is_integer_unique (x y : float) (N : Z) :
  is_integer x N -> is_integer y N -> x = y.
Proof.
  intros [m [E Hm]] [m' [E' Hm']]. apply Prim2SF_inj.
  rewrite E, E'. f_equal. lia.
Qed.

Lemma integer_digits (N : Z) :
  0 < N < 2 ^ 53 ->
  1 <= Zdigits2 N <= 53
  /\ Zdigits2 (N * 2 ^ (53 - Zdigits2 N)) = 53.
Proof.
  intros [H0 H1].
  assert (Hd : 1 <= Zdigits2 N) by (destruct N; simpl; lia).
  assert (Hd' : Zdigits2 N <= 53) by (apply Zdigits2_below; lia).
  split; [lia|]. rewrite Zdigits2_shift by lia. lia.
Qed.

(** The product of two lengths is exact when it is below 2^53. *)
Lemma product_exact (a b : nat) :
  (0 < a)%nat -> (0 < b)%nat -> Z.of_nat a * Z.of_nat b < 2 ^ 53 ->
  (nat_to_number a * nat_to_number b)%float = nat_to_number (a * b).
Proof.
  intros Ha Hb Hlt.
  set (A := Z.of_nat a) in *. set (B := Z.of_nat b) in *.
  assert (HA : 0 < A < 2 ^ 53) by (unfold A, B in *; nia).
  assert (HB : 0 < B < 2 ^ 53) by (unfold A, B in *; nia).
  assert (HN : 0 < A * B < 2 ^ 53) by (split; [nia | lia]).
  destruct (nat_is_integer a Ha (proj2 HA)) as [ma [Ea Hma]].
  destruct (nat_is_integer b Hb (proj2 HB)) as [mb [Eb Hmb]].
  fold A in Ea, Hma. fold B in Eb, Hmb.
  destruct (integer_digits A HA) as [HdA HdA'].
  destruct (integer_digits B HB) as [HdB HdB'].
  destruct (integer_digits (A * B) HN) as [HdN HdN'].
  set (dA := Zdigits2 A) in *. set (dB := Zdigits2 B) in *.
  set (dN := Zdigits2 (A * B)) in *.
  apply (is_integer_unique _ _ (A * B)).
  2:{ replace (A * B) with (Z.of_nat (a * b)) by (unfold A, B; lia).
      apply nat_is_integer; [nia | unfold A, B in *; lia]. }
  rewrite <- Hma in HdA'. rewrite <- Hmb in HdB'.
  pose proof (product_digits ma mb HdA' HdB') as HD.
  assert (Hmx : Z.pos (ma * mb) = A * B * 2 ^ (106 - dA - dB)).
  { rewrite Pos2Z.inj_mul, Hma, Hmb.
    replace (106 - dA - dB) with ((53 - dA) + (53 - dB)) by lia.
    rewrite Z.pow_add_r by lia. ring. }
  assert (HDv : Zdigits2 (Z.pos (ma * mb)) = dN + (106 - dA - dB)).
  { rewrite Hmx. apply Zdigits2_shift; lia. }
  set (s := Zdigits2 (Z.pos (ma * mb)) - 53) in *.
  assert (Hs : 0 <= s) by lia.
  assert (Hsplit : Z.pos (ma * mb) = A * B * 2 ^ (53 - dN) * 2 ^ s).
  { rewrite Hmx. replace (106 - dA - dB) with ((53 - dN) + s) by lia.
    rewrite Z.pow_add_r by lia. ring. }
  destruct (round_exact (Z.pos (ma * mb)) (dA - 53 + (dB - 53))) as [m [E Hm]];
    try lia.
  { fold s. rewrite Hsplit. apply Z.mod_mul.
    apply Z.pow_nonzero; lia. }
  fold s in E, Hm.
  exists m. rewrite FloatAxioms.mul_spec, Ea, Eb.
  unfold SF64mul. cbn [SFmul xorb]. rewrite E. split.
  - f_equal. lia.
  - rewrite Hm, Hsplit. apply Z.div_mul. apply Z.pow_nonzero; lia.
Qed.

Lemma shl_align_value (m : positive) (e e' : Z) :
  e' <= e ->
  Z.pos (fst (shl_align m e e')) = Z.pos m * 2 ^ (e - e')
  /\ snd (shl_align m e e') = e'.
Proof.
  intros Hle. unfold shl_align.
  destruct (e' - e) as [|d|d] eqn:Ed; try lia; cbn [fst snd].
  - replace (e - e') with 0 by lia. split; lia.
  - rewrite iter_xO. replace (e - e') with (Z.pos d) by lia. split; reflexivity.
Qed.

(** Normalising an integer below 2^53 that is given with a scale. *)
Lemma normalize_integer (p : positive) (e N : Z) :
  0 < N < 2 ^ 53 -> -52 <= e <= 0 -> Z.pos p = N * 2 ^ (- e) ->
  exists m : positive,
    binary_normalize prec emax (Z.pos p) e false
    = S754_finite false m (Zdigits2 N - 53)
    /\ Z.pos m = N * 2 ^ (53 - Zdigits2 N).
Proof.
  intros HN He Hp.
  destruct (integer_digits N HN) as [Hd Hd53]. set (d := Zdigits2 N) in *.
  assert (Hdp : Zdigits2 (Z.pos p) = d - e).
  { rewrite Hp. unfold d. rewrite Zdigits2_shift by lia. lia. }
  unfold binary_normalize, binary_round.
  change (Z.pos (digits2_pos p)) with (Zdigits2 (Z.pos p)). rewrite Hdp.
  replace (d - e + e) with d by lia. rewrite fexp_normal by lia.
  destruct (Z_le_gt_dec (d - 53) e) as [Hle|Hgt].
  - (* the mantissa is shifted to 53 digits *)
    destruct (shl_align_value p e (d - 53) Hle) as [Hv He'].
    destruct (shl_align p e (d - 53)) as [mz ez]. cbn [fst snd] in Hv, He'.
    subst ez.
    assert (Hmz : Z.pos mz = N * 2 ^ (53 - d)).
    { rewrite Hv, Hp, <- Z.mul_assoc, <- Z.pow_add_r by lia. do 2 f_equal. lia. }
    destruct (round_exact (Z.pos mz) (d - 53)) as [m [E Hm]];
      rewrite ?Hmz, ?Hd53; try lia.
    { change (53 - 53) with 0. apply Z.mod_1_r. }
    exists m. rewrite <- Hmz, E. rewrite Hmz, Hd53 in *.
    change (53 - 53) with 0 in *. rewrite Z.add_0_r.
    split; [reflexivity|]. rewrite Hm. apply Z.div_1_r.
  - (* more than 53 digits: the lost digits are zeros *)
    assert (Hsh : shl_align p e (d - 53) = (p, e)).
    { unfold shl_align. destruct (d - 53 - e) eqn:Ed; try lia; reflexivity. }
    rewrite Hsh.
    assert (Hsplit : Z.pos p = N * 2 ^ (53 - d) * 2 ^ (d - e - 53)).
    { rewrite Hp, <- Z.mul_assoc, <- Z.pow_add_r by lia. do 2 f_equal. lia. }
    destruct (round_exact (Z.pos p) e) as [m [E Hm]]; rewrite ?Hdp; try lia.
    { rewrite Hsplit. apply Z.mod_mul. apply Z.pow_nonzero; lia. }
    exists m. rewrite E, Hdp. split; [f_equal; lia|].
    rewrite Hm, Hdp, Hsplit. apply Z.div_mul. apply Z.pow_nonzero; lia.
Qed.

(** The difference of two lengths is exact. *)
Lemma difference_exact (a b : nat) :
  (a <= b)%nat -> Z.of_nat b < 2 ^ 53 ->
  (nat_to_number b - nat_to_number a)%float = nat_to_number (b - a).
Proof.
  intros Hab Hb.
  destruct a as [|a'].
  { rewrite Nat.sub_0_r. destruct b as [|b']; [reflexivity|].
    destruct (nat_is_integer (S b')) as [m [E _]]; [lia | exact Hb |].
    exact (minus_zero _ false m _ E). }
  set (a := S a') in *.
  set (A := Z.of_nat a) in *. set (B := Z.of_nat b) in *.
  assert (HA : 0 < A < 2 ^ 53) by (unfold A, B, a in *; lia).
  assert (HB : 0 < B < 2 ^ 53) by (unfold A, B, a in *; lia).
  destruct (nat_is_integer a) as [ma [Ea Hma]]; [unfold a; lia | fold A; lia |].
  destruct (nat_is_integer b) as [mb [Eb Hmb]]; [unfold a in *; lia | exact Hb |].
  fold A in Ea, Hma. fold B in Eb, Hmb.
  destruct (integer_digits A HA) as [HdA _].
  destruct (integer_digits B HB) as [HdB _].
  assert (Hmono : Zdigits2 A <= Zdigits2 B).
  { apply Zdigits2_mono; unfold A, B in *; lia. }
  set (dA := Zdigits2 A) in *. set (dB := Zdigits2 B) in *.
  apply Prim2SF_inj. rewrite FloatAxioms.sub_spec, Ea, Eb.
  unfold SF64sub. cbn [SFsub]. rewrite Z.min_r by lia.
  destruct (shl_align_value mb (dB - 53) (dA - 53)) as [Hvb _]; [lia|].
  destruct (shl_align_value ma (dA - 53) (dA - 53)) as [Hva _]; [lia|].
  cbn [cond_Zopp]. rewrite Hvb, Hva.
  replace (dB - 53 - (dA - 53)) with (dB - dA) by lia.
  replace (dA - 53 - (dA - 53)) with 0 by lia.
  rewrite Hmb, Hma. change (2 ^ 0) with 1. rewrite Z.mul_1_r.
  assert (Hdiff : B * 2 ^ (53 - dB) * 2 ^ (dB - dA) - A * 2 ^ (53 - dA)
                  = (B - A) * 2 ^ (53 - dA)).
  { rewrite <- Z.mul_assoc, <- Z.pow_add_r by lia.
    replace (53 - dB + (dB - dA)) with (53 - dA) by lia. ring. }
  rewrite Hdiff.
  destruct (Z.eq_dec A B) as [Heq|Hne].
  - (* equal lengths *)
    rewrite Heq, Z.sub_diag, Z.mul_0_l.
    replace (b - a)%nat with 0%nat by (unfold A, B in *; lia). reflexivity.
  - assert (HN : 0 < B - A < 2 ^ 53) by (unfold A, B in *; lia).
    assert (Hpow : 0 < 2 ^ (53 - dA)) by (apply Z.pow_pos_nonneg; lia).
    assert (Hpos : 0 < (B - A) * 2 ^ (53 - dA)) by (apply Z.mul_pos_pos; lia).
    destruct ((B - A) * 2 ^ (53 - dA)) as [|p|p] eqn:Ep; try lia.
    destruct (normalize_integer p (dA - 53) (B - A)) as [m [E Hm]]; try lia.
    { rewrite <- Ep. do 2 f_equal. lia. }
    rewrite E.
    destruct (nat_is_integer (b - a)) as [m' [E' Hm']];
      [unfold A, B in *; lia | unfold A, B in *; lia |].
    replace (Z.of_nat (b - a)) with (B - A) in E', Hm' by (unfold A, B in *; lia).
    rewrite E'. f_equal. lia.
Qed.

(** The quotient of a length by a greater one is a positive number of 53
    digits that is at most 1. *)
Lemma quotient_below_one (a b : nat) :
  (0 < a)%nat -> (a < b)%nat -> Z.of_nat b < 2 ^ 53 ->
  exists (m : positive) (e : Z),
    Prim2SF (nat_to_number a / nat_to_number b)%float = S754_finite false m e
    /\ Zdigits2 (Z.pos m) = 53
    /\ -110 <= e <= -52
    /\ Z.pos m <= 2 ^ (- e).
Proof.
  intros Ha Hab Hb.
  set (A := Z.of_nat a) in *. set (B := Z.of_nat b) in *.
  assert (HA : 0 < A < 2 ^ 53) by (unfold A, B in *; lia).
  assert (HB : 0 < B < 2 ^ 53) by (unfold A, B in *; lia).
  assert (HAB : A < B) by (unfold A, B; lia).
  destruct (nat_is_integer a) as [ma [Ea Hma]]; [lia | fold A; lia |].
  destruct (nat_is_integer b) as [mb [Eb Hmb]]; [lia | exact Hb |].
  fold A in Ea, Hma. fold B in Eb, Hmb.
  destruct (integer_digits A HA) as [HdA HdA'].
  destruct (integer_digits B HB) as [HdB HdB'].
  assert (Hmono : Zdigits2 A <= Zdigits2 B) by (apply Zdigits2_mono; lia).
  set (dA := Zdigits2 A) in *. set (dB := Zdigits2 B) in *.
  rewrite <- Hma in HdA'. rewrite <- Hmb in HdB'.
  pose proof (mantissa_bounds ma HdA') as Ba.
  pose proof (mantissa_bounds mb HdB') as Bb.
  rewrite FloatAxioms.div_spec, Ea, Eb.
  unfold SF64div. cbn [SFdiv xorb]. unfold SFdiv_core_binary.
  rewrite HdA', HdB'.
  replace (53 + (dA - 53) - (53 + (dB - 53))) with (dA - dB) by lia.
  rewrite fexp_normal by lia.
  replace (dA - 53 - (dB - 53)) with (dA - dB) by lia.
  rewrite Z.min_l by lia.
  replace (dA - dB - (dA - dB - 53)) with 53 by lia.
  rewrite Z.shiftl_mul_pow2 by lia.
  change (2 ^ 53) with 9007199254740992 in *.
  destruct (Z.div_eucl (Z.pos ma * 9007199254740992) (Z.pos mb)) as [q0 r] eqn:Edv.
  assert (Hq0 : q0 = Z.pos ma * 9007199254740992 / Z.pos mb).
  { unfold Z.div. now rewrite Edv. }
  assert (Hq0b : Z.pos mb * q0 <= Z.pos ma * 9007199254740992
                 < Z.pos mb * (q0 + 1)).
  { rewrite Hq0. split; [apply Z.mul_div_le; lia|].
    apply Z.mul_succ_div_gt; lia. }
  assert (Hq0lo : 4503599627370496 <= q0).
  { destruct (Z_lt_le_dec q0 4503599627370496) as [Hc|]; [|lia]. exfalso.
    assert (Z.pos mb * (q0 + 1) <= Z.pos mb * 4503599627370496).
    { apply Z.mul_le_mono_nonneg_l; lia. }
    lia. }
  assert (Hq0hi : q0 < 18014398509481984).
  { destruct (Z_lt_le_dec q0 18014398509481984) as [|Hc]; [lia|]. exfalso.
    assert (Z.pos mb * 18014398509481984 <= Z.pos mb * q0).
    { apply Z.mul_le_mono_nonneg_l; lia. }
    lia. }
  set (D := Zdigits2 q0).
  assert (HD : D = 53 \/ D = 54).
  { pose proof (Zdigits2_bounds q0 ltac:(lia)) as [HDlo HDhi].
    fold D in HDlo, HDhi.
    assert (0 < D) by (unfold D; destruct q0; simpl; lia).
    assert (52 < D) by (apply (Z.pow_lt_mono_r_iff 2); lia).
    assert (D - 1 < 54) by (apply (Z.pow_lt_mono_r_iff 2); lia).
    lia. }
  (* the quotient is below one: [q0 < 2 ^ (53 + dB - dA)] *)
  set (T := 2 ^ (53 + dB - dA)).
  assert (HT : 0 < T) by (apply Z.pow_pos_nonneg; lia).
  assert (Hq0T : q0 < T).
  { assert (H1 : Z.pos ma * 9007199254740992 = A * 2 ^ (106 - dA)).
    { rewrite Hma. change 9007199254740992 with (2 ^ 53).
      rewrite <- Z.mul_assoc, <- Z.pow_add_r by lia. do 2 f_equal. lia. }
    assert (H2 : Z.pos mb * T = B * 2 ^ (106 - dA)).
    { rewrite Hmb. unfold T.
      rewrite <- Z.mul_assoc, <- Z.pow_add_r by lia. do 2 f_equal. lia. }
    assert (Hp : 0 < 2 ^ (106 - dA)) by (apply Z.pow_pos_nonneg; lia).
    assert (H3 : A * 2 ^ (106 - dA) < B * 2 ^ (106 - dA)).
    { apply Z.mul_lt_mono_pos_r; lia. }
    assert (H4 : Z.pos mb * q0 < Z.pos mb * T) by lia.
    apply (Z.mul_lt_mono_pos_l (Z.pos mb)); lia. }
  destruct (binary_round_aux_bounds q0 (dA - dB - 53) (new_location (Z.pos mb) r))
    as [m [e [E [Hd [Hval _]]]]]; try (fold D; lia).
  fold D in Hval. set (s := D - 53) in *.
  assert (Hs : s = 0 \/ s = 1) by lia.
  assert (HS : 0 < 2 ^ s) by (apply Z.pow_pos_nonneg; lia).
  set (q := q0 / 2 ^ s) in *.
  assert (Hq : 2 ^ s * q <= q0) by (apply Z.mul_div_le; lia).
  assert (HTs : T = 2 ^ (53 + dB - dA - s) * 2 ^ s).
  { unfold T. rewrite <- Z.pow_add_r by lia. f_equal. lia. }
  assert (Hq1 : q + 1 <= 2 ^ (53 + dB - dA - s)).
  { assert (q < 2 ^ (53 + dB - dA - s)); [|lia].
    apply (Z.mul_lt_mono_pos_l (2 ^ s)); [lia|].
    rewrite (Z.mul_comm (2 ^ s) (2 ^ (53 + dB - dA - s))), <- HTs. lia. }
  pose proof (mantissa_bounds m Hd) as Bm.
  exists m, e. split; [exact E|]. split; [exact Hd|].
  destruct Hval as [[He Hm] | [He [Hm Hcarry]]].
  - assert (Hle : Z.pos m <= 2 ^ (- e)).
    { replace (- e) with (53 + dB - dA - s) by lia. lia. }
    split; [|exact Hle]. split; [lia|].
    destruct (Z_le_gt_dec e (-52)) as [|Hgt]; [assumption|]. exfalso.
    assert (2 ^ (- e) <= 2 ^ 51) by (apply Z.pow_le_mono_r; lia).
    change (2 ^ 51) with 2251799813685248 in *. lia.
  - assert (Hbig : 53 <= 53 + dB - dA - s).
    { destruct (Z_le_gt_dec 53 (53 + dB - dA - s)) as [|Hgt]; [assumption|].
      exfalso.
      assert (2 ^ (53 + dB - dA - s) <= 2 ^ 52) by (apply Z.pow_le_mono_r; lia).
      change (2 ^ 52) with 4503599627370496 in *.
      change (2 ^ 53) with 9007199254740992 in *. lia. }
    split; [lia|]. rewrite Hm.
    apply Z.pow_le_mono_r; lia.
Qed.

Lemma Prim2SF_hundred :
  Prim2SF 100%float = S754_finite false 7036874417766400 (-46).
Proof. reflexivity. Qed.

(** A number that is at most 1, times 100, is at most 100. *)
Lemma times_hundred (t : float) (m : positive) (e : Z) :
  Prim2SF t = S754_finite false m e -> Zdigits2 (Z.pos m) = 53 ->
  -110 <= e <= -52 -> Z.pos m <= 2 ^ (- e) ->
  exists (m' : positive) (e' : Z),
    Prim2SF (t * 100)%float = S754_finite false m' e'
    /\ e' < 0 /\ Z.pos m' <= 100 * 2 ^ (- e').
Proof.
  intros Et Hd He Hle.
  pose proof (mantissa_bounds m Hd) as Bm.
  assert (Hd100 : Zdigits2 (Z.pos 7036874417766400) = 53) by reflexivity.
  pose proof (product_digits m 7036874417766400 Hd Hd100) as HD.
  rewrite FloatAxioms.mul_spec, Et, Prim2SF_hundred.
  unfold SF64mul. cbn [SFmul xorb].
  set (P := Z.pos (m * 7036874417766400)) in *.
  assert (HP : P = Z.pos m * (100 * 2 ^ 46)) by (unfold P; rewrite Pos2Z.inj_mul; reflexivity).
  set (s := Zdigits2 P - 53) in *.
  assert (Hs : 52 <= s <= 53) by lia.
  destruct (binary_round_aux_bounds P (e + -46) loc_Exact)
    as [m' [e' [E [Hd' [Hval Hexact]]]]]; try (fold s; lia).
  fold s in Hval, Hexact. set (q := P / 2 ^ s) in *.
  set (E0 := 46 - e - s).
  assert (HE0 : 45 <= E0) by (unfold E0; lia).
  assert (HS : 0 < 2 ^ s) by (apply Z.pow_pos_nonneg; lia).
  assert (HE : 0 < 2 ^ E0) by (apply Z.pow_pos_nonneg; lia).
  (* the exact product is at most [100 * 2 ^ E0 * 2 ^ s] *)
  assert (Hbound : P <= 100 * 2 ^ E0 * 2 ^ s).
  { rewrite HP. rewrite <- Z.mul_assoc, <- Z.pow_add_r by lia.
    replace (E0 + s) with (- e + 46) by (unfold E0; lia).
    rewrite Z.pow_add_r by lia.
    assert (Z.pos m * (100 * 2 ^ 46) <= 2 ^ (- e) * (100 * 2 ^ 46)).
    { apply Z.mul_le_mono_nonneg_r; lia. }
    lia. }
  assert (Hq : 2 ^ s * q <= P < 2 ^ s * (q + 1)).
  { unfold q. split; [apply Z.mul_div_le; lia | apply Z.mul_succ_div_gt; lia]. }
  assert (Hqle : q <= 100 * 2 ^ E0).
  { assert (2 ^ s * q <= 2 ^ s * (100 * 2 ^ E0)) by lia.
    apply (Z.mul_le_mono_pos_l _ _ (2 ^ s)); lia. }
  pose proof (mantissa_bounds m' Hd') as Bm'.
  exists m', e'. split; [exact E|].
  destruct (Z.eq_dec q (100 * 2 ^ E0)) as [Heq|Hne].
  - (* the product is exactly 100 *)
    assert (HPq : P = q * 2 ^ s) by lia.
    destruct Hexact as [Hm' He']; [reflexivity | |].
    { rewrite HPq. apply Z.mod_mul. lia. }
    split; [lia|]. rewrite Hm', He'.
    replace (- (e + -46 + s)) with E0 by (unfold E0; lia). lia.
  - destruct Hval as [[He' Hm'] | [He' [Hm' Hcarry]]].
    + split; [lia|]. replace (- e') with E0 by (unfold E0; lia). lia.
    + split; [lia|]. rewrite Hm'.
      replace (- e') with (E0 - 1) by (unfold E0; lia).
      assert (H2 : 2 ^ E0 = 2 * 2 ^ (E0 - 1)).
      { replace E0 with (1 + (E0 - 1)) at 1 by lia.
        rewrite Z.pow_add_r by lia. reflexivity. }
      change (2 ^ 53) with (2 * 2 ^ 52) in Hcarry. lia.
Qed.

(** Rounding a positive number that is at most 100. *)
Lemma round_range (u : float) (m : positive) (e : Z) :
  Prim2SF u = S754_finite false m e -> e < 0 -> Z.pos m <= 100 * 2 ^ (- e) ->
  exists q, 0 <= q <= 100 /\ Math_round u = Z_to_number q.
Proof.
  intros Eu He Hle. unfold Math_round. rewrite Eu.
  assert (Hneg : (0 <=? e) = false) by (apply Z.leb_gt; lia).
  rewrite Hneg. cbv zeta. rewrite andb_false_r.
  exists ((2 * Z.pos m + 2 ^ (- e)) / 2 ^ (1 - e)). split; [|reflexivity].
  assert (HE : 0 < 2 ^ (- e)) by (apply Z.pow_pos_nonneg; lia).
  assert (H2 : 2 ^ (1 - e) = 2 * 2 ^ (- e)).
  { replace (1 - e) with (1 + - e) by lia. rewrite Z.pow_add_r by lia. reflexivity. }
  rewrite H2. split.
  - apply Z.div_pos; lia.
  - assert ((2 * Z.pos m + 2 ^ (- e)) / (2 * 2 ^ (- e)) < 101); [|lia].
    apply Z.div_lt_upper_bound; lia.
Qed.

Lemma missing_bound (headers : list string) (data : list row) :
  (list_sum (map (missing_in data) headers)
   <= List.length data * List.length headers)%nat.
Proof. apply list_sum_bound. intros hd. apply missing_in_le. Qed.

(** X23.  For a dataset with at least one row and one column, and fewer
    than 2^53 cells, the data quality is a whole number from 0 to 100. *)
Theorem data_quality_range (headers : list string) (data : list row) :
  data <> [] -> headers <> [] ->
  Z.of_nat (List.length data) * Z.of_nat (List.length headers) < 2 ^ 53 ->
  exists q : Z,
    0 <= q <= 100
    /\ dataQuality (Server.calculateSummaryStats headers data) = Z_to_number q.
Proof.
  intros Hd Hh Hcells. unfold Server.calculateSummaryStats.
  rewrite summary_fold. cbn zeta. cbn [dataQuality Nat.add].
  pose proof (missing_bound headers data) as Hmv.
  set (mv := list_sum (map (missing_in data) headers)) in *.
  set (R := List.length data) in *. set (C := List.length headers) in *.
  assert (HR : (0 < R)%nat) by (unfold R; destruct data; [congruence | simpl; lia]).
  assert (HC : (0 < C)%nat) by (unfold C; destruct headers; [congruence | simpl; lia]).
  apply Nat.ltb_lt in HR as HRb. rewrite HRb.
  rewrite (product_exact R C HR HC Hcells).
  assert (Hb : Z.of_nat (R * C) < 2 ^ 53) by lia.
  rewrite (difference_exact mv (R * C) Hmv Hb).
  set (b := (R * C)%nat) in *. set (a := (b - mv)%nat).
  assert (Hbpos : (0 < b)%nat) by (unfold b; nia).
  destruct (Nat.eq_dec a 0%nat) as [Ha0|Ha0].
  - (* every cell is missing *)
    exists 0. split; [lia|]. rewrite Ha0.
    destruct (nat_is_integer b Hbpos Hb) as [m [E _]].
    assert (Hz : (nat_to_number 0 / nat_to_number b)%float = 0%float).
    { apply Prim2SF_inj. rewrite FloatAxioms.div_spec, E, nat_to_number_zero.
      reflexivity. }
    rewrite Hz. reflexivity.
  - destruct (Nat.eq_dec a b) as [Hab|Hab].
    + (* no cell is missing *)
      exists 100. split; [lia|]. rewrite Hab.
      destruct (length_number b Hbpos Hb) as [m [e [E [Hm _]]]].
      rewrite (self_quotient _ m e E Hm). reflexivity.
    + assert (Halt : (a < b)%nat) by (unfold a in *; lia).
      destruct (quotient_below_one a b ltac:(lia) Halt Hb)
        as [m [e [E [Hm [He Hle]]]]].
      destruct (times_hundred _ m e E Hm He Hle) as [m' [e' [E' [He' Hle']]]].
      exact (round_range _ m' e' E' He' Hle').
Qed.

Lemma data_quality_range_witness :
  exists q : Z,
    0 <= q <= 100
    /\ dataQuality (Server.calculateSummaryStats Examples.sales_headers
                      Examples.sales_rows) = Z_to_number q.
Proof.
  apply (data_quality_range Examples.sales_headers Examples.sales_rows).
  - discriminate.
  - discriminate.
  - vm_compute. reflexivity.
Defined.

End QualityProps.

(** ** A column without values *)

Module EmptyColumnProps.
Import Js Stats Model Spec Shape Facts CountProps.

(** X24.  A column that is empty or holds only null, undefined and empty
    strings is a text column for the type inference.  For such a column the
    server statistics hold the three counts only, while the client
    statistics under the type "text" also hold a mode that is undefined and
    an average length that is NaN (0 divided by 0); in both, nullCount is
    the length of the column and uniqueCount is 0. *)
Theorem column_without_values (h : Host) (values : list any) (tag : string) :
  nonNull values = [] ->
  ExcelUtils.detectColumnType h values = text
  /\ branch (Server.calculateColumnStatistics h values tag) = BaseOnly
  /\ mode (ExcelUtils.calculateColumnStatistics h values "text") = Some JUndefined
  /\ (exists x, averageLength (ExcelUtils.calculateColumnStatistics h values "text")
                = Some x /\ is_nan x = true)
  /\ mean (ExcelUtils.calculateColumnStatistics h values "text") = None
  /\ nullCount (ExcelUtils.calculateColumnStatistics h values "text")
     = List.length values
  /\ nullCount (Server.calculateColumnStatistics h values tag) = List.length values
  /\ uniqueCount (ExcelUtils.calculateColumnStatistics h values "text") = 0%nat
  /\ uniqueCount (Server.calculateColumnStatistics h values tag) = 0%nat.
Proof.
  intros Hnone.
  assert (Hs : Server.calculateColumnStatistics h values tag = Server.baseStats values).
  { unfold Server.calculateColumnStatistics, Server.numericValues.
    rewrite Hnone. reflexivity. }
  assert (Hb : nullCount (Server.baseStats values) = List.length values
               /\ uniqueCount (Server.baseStats values) = 0%nat).
  { unfold Server.baseStats. cbn [nullCount uniqueCount]. rewrite Hnone.
    split; [simpl; lia | reflexivity]. }
  split; [|split; [|split; [|split; [|split; [|split; [|split; [|split]]]]]]].
  - unfold ExcelUtils.detectColumnType. now rewrite Hnone.
  - rewrite Hs. reflexivity.
  - unfold ExcelUtils.calculateColumnStatistics. rewrite Hnone. reflexivity.
  - unfold ExcelUtils.calculateColumnStatistics. rewrite Hnone.
    eexists. split; reflexivity.
  - reflexivity.
  - unfold ExcelUtils.calculateColumnStatistics, ExcelUtils.baseStats.
    cbn [andb String.eqb Ascii.eqb Bool.eqb nullCount]. rewrite Hnone. simpl. lia.
  - rewrite Hs. exact (proj1 Hb).
  - unfold ExcelUtils.calculateColumnStatistics, ExcelUtils.baseStats.
    cbn [andb String.eqb Ascii.eqb Bool.eqb uniqueCount]. now rewrite Hnone.
  - rewrite Hs. exact (proj2 Hb).
Qed.

Lemma column_without_values_witness :
  mode (ExcelUtils.calculateColumnStatistics Examples.host
          [JNull; JStr ""; JUndefined] "text") = Some JUndefined.
Proof.
  destruct (column_without_values Examples.host [JNull; JStr ""; JUndefined] "text")
    as [_ [_ [H _]]].
  - reflexivity.
  - exact H.
Defined.

End EmptyColumnProps.

(** ** The two implementations of the column statistics *)

Module AgreementProps.
Import Js Stats Model Spec Shape Facts.

Lemma strip_plain (s : string) :
  plain_text (JStr s) = true -> strip_dollar_comma s = s.
Proof.
  unfold plain_text, strip_dollar_comma. intros H.
  apply negb_true_iff in H.
  rewrite filter_all; [apply string_of_list_ascii_of_string|].
  apply List.Forall_forall. intros c Hc.
  destruct ((code c =? 36) || (code c =? 44))%N eqn:E; [|reflexivity].
  exfalso. assert (Hex : existsb (fun c => ((code c =? 36) || (code c =? 44))%N)
                           (string_to_list s) = true).
  { apply existsb_exists. now exists c. }
  congruence.
Qed.

Lemma numericValues_agree (values : list any) :
  List.Forall (fun v => plain_text v = true) values ->
  ExcelUtils.numericValues values = Server.numericValues values.
Proof.
  intros Hall. unfold ExcelUtils.numericValues, Server.numericValues. f_equal.
  apply map_ext_in. intros v Hv.
  destruct v as [| |b|x|s|r t|n]; try reflexivity.
  rewrite strip_plain; [reflexivity|].
  unfold nonNull in Hv. apply List.filter_In in Hv as [Hv _].
  exact (proj1 (List.Forall_forall _ _) Hall _ Hv).
Qed.

(** X25.  On a column whose strings hold no dollar sign and no comma, the
    client and the server parse the same numeric values.  When there is
    one, the client statistics under the type "number" are the server
    statistics, field by field.  When there is none but a non-null value
    exists, they differ: the server gives the text branch with a mode, the
    client under "number" only the three counts; the client under "text"
    gives the mode of the server and adds the average length. *)
Theorem client_and_server_statistics (h : Host) (values : list any)
    (columnName : string) :
  List.Forall (fun v => plain_text v = true) values ->
  ExcelUtils.numericValues values = Server.numericValues values
  /\ (Server.numericValues values <> [] ->
      ExcelUtils.calculateColumnStatistics h values "number"
      = Server.calculateColumnStatistics h values columnName)
  /\ (Server.numericValues values = [] -> nonNull values <> [] ->
      branch (Server.calculateColumnStatistics h values columnName) = TextBranch
      /\ branch (ExcelUtils.calculateColumnStatistics h values "number") = BaseOnly
      /\ mode (ExcelUtils.calculateColumnStatistics h values "text")
         = mode (Server.calculateColumnStatistics h values columnName)
      /\ is_Some_b (averageLength (ExcelUtils.calculateColumnStatistics h values "text"))
         = true
      /\ averageLength (Server.calculateColumnStatistics h values columnName) = None).
Proof.
  intros Hall. pose proof (numericValues_agree values Hall) as E.
  split; [exact E|]. split.
  - intros Hne. unfold ExcelUtils.calculateColumnStatistics,
      Server.calculateColumnStatistics. rewrite E.
    destruct (Server.numericValues values) as [|v nv] eqn:En; [congruence|].
    reflexivity.
  - intros Hnone Hsome. unfold ExcelUtils.calculateColumnStatistics,
      Server.calculateColumnStatistics. rewrite E, Hnone.
    destruct (nonNull values) as [|v vs] eqn:En; [congruence|].
    repeat split; reflexivity.
Qed.

Lemma client_and_server_statistics_witness :
  ExcelUtils.calculateColumnStatistics Examples.host
    [JStr "100"; JStr "200"; JNull] "number"
  = Server.calculateColumnStatistics Examples.host
      [JStr "100"; JStr "200"; JNull] "Sales".
Proof.
  destruct (client_and_server_statistics Examples.host
              [JStr "100"; JStr "200"; JNull] "Sales") as [_ [H _]].
  - repeat constructor.
  - apply H. vm_compute. discriminate.
Defined.

End AgreementProps.

(** ** Number columns of the client and numeric columns of the server *)

Module NumericColumnProps.
Import Js Stats Model Spec Shape Facts FloatFacts ThresholdProps InferenceProps.
Import CountProps NumberProps SummaryProps QualityProps TypedColumnProps AgreementProps.

(** Half of a length is exact. *)
Lemma half_exact (n : nat) :
  (0 < n)%nat -> Z.of_nat n < 2 ^ 53 ->
  exists m : positive,
    Prim2SF (nat_to_number n * 0.5)%float
    = S754_finite false m (Zdigits2 (Z.of_nat n) - 54)
    /\ Z.pos m = Z.of_nat n * 2 ^ (53 - Zdigits2 (Z.of_nat n))
    /\ Zdigits2 (Z.pos m) = 53.
Proof.
  intros Hn Hlt. set (N := Z.of_nat n) in *.
  assert (HN : 0 < N < 2 ^ 53) by (unfold N; lia).
  destruct (nat_is_integer n Hn Hlt) as [m [E Hm]]. fold N in E, Hm.
  destruct (integer_digits N HN) as [Hd Hd53]. rewrite <- Hm in Hd53.
  rewrite FloatAxioms.mul_spec, E, Prim2SF_one_half.
  unfold SF64mul. cbn [SFmul xorb].
  assert (Hmx : Z.pos (m * 4503599627370496) = Z.pos m * 2 ^ 52) by reflexivity.
  assert (HD : Zdigits2 (Z.pos (m * 4503599627370496)) = 105).
  { rewrite Hmx, Zdigits2_shift by lia. lia. }
  destruct (round_exact (Z.pos (m * 4503599627370496)) (Zdigits2 N - 53 + -53))
    as [m' [E' Hm']]; rewrite ?HD; try lia.
  { change (105 - 53) with 52. rewrite Hmx. apply Z.mod_mul. lia. }
  rewrite E'. rewrite HD in Hm'. change (105 - 53) with 52 in *.
  rewrite Hmx, Z.div_mul in Hm' by lia.
  exists m. split; [f_equal; lia|]. split; [exact Hm | exact Hd53].
Qed.

(** [k > n * 0.5], computed in binary64 on lengths, is [2 k > n]. *)
Lemma above_half_of_length (n k : nat) :
  Z.of_nat n < 2 ^ 53 -> Z.of_nat k < 2 ^ 53 ->
  PrimFloat.ltb (nat_to_number n * 0.5)%float (nat_to_number k)
  = (Z.of_nat n <? 2 * Z.of_nat k).
Proof.
  intros Hn Hk. rewrite FloatAxioms.ltb_spec.
  destruct n as [|n'].
  { replace (Prim2SF (nat_to_number 0 * 0.5)%float) with (S754_zero false)
      by reflexivity.
    destruct k as [|k']; [reflexivity|].
    destruct (nat_is_integer (S k')) as [mk [Ek _]]; [lia | exact Hk |].
    rewrite Ek. symmetry. apply Z.ltb_lt. lia. }
  destruct (half_exact (S n')) as [mn [En [Hmn Hdn]]]; [lia | exact Hn |].
  set (N := Z.of_nat (S n')) in *.
  assert (HN : 0 < N < 2 ^ 53) by (unfold N; lia).
  destruct (integer_digits N HN) as [HdN _]. rewrite En.
  destruct k as [|k'].
  { rewrite nat_to_number_zero. cbn. symmetry. apply Z.ltb_ge. lia. }
  set (K := Z.of_nat (S k')) in *.
  assert (HK : 0 < K < 2 ^ 53) by (unfold K; lia).
  destruct (nat_to_number_exact (S k')) as [mk [Ek [Hmk [Hdk HdK]]]];
    [lia | exact Hk |].
  fold K in Ek, Hmk, HdK. rewrite Ek.
  rewrite (SFltb_finite mn mk (Zdigits2 N - 54) (Zdigits2 K - 53) 110) by lia.
  rewrite Hmn, Hmk.
  assert (H1 : N * 2 ^ (53 - Zdigits2 N) * 2 ^ (Zdigits2 N - 54 + 110) = N * 2 ^ 109).
  { rewrite <- Z.mul_assoc, <- Z.pow_add_r by lia. do 2 f_equal. lia. }
  assert (H2 : K * 2 ^ (53 - Zdigits2 K) * 2 ^ (Zdigits2 K - 53 + 110)
               = 2 * K * 2 ^ 109).
  { rewrite <- Z.mul_assoc, <- Z.pow_add_r by lia.
    replace (53 - Zdigits2 K + (Zdigits2 K - 53 + 110)) with (1 + 109) by lia.
    rewrite Z.pow_add_r by lia. ring. }
  rewrite H1, H2.
  destruct (Z.ltb_spec N (2 * K)); [apply Z.ltb_lt | apply Z.ltb_ge].
  - apply Z.mul_lt_mono_pos_r; lia.
  - apply Z.mul_le_mono_nonneg_r; lia.
Qed.

(** X26.  The server summary and the type inference of the client are
    consistent on columns whose strings hold no dollar sign and no comma
    and that hold no NaN: every column the client calls a number column is
    counted as numeric by the summary, so the number of numeric columns is
    at least the number of headers typed as number. *)
Theorem typed_number_counted_numeric (h : Host) (headers : list string)
    (data : list row) :
  Z.of_nat (List.length data) <= max_array_length ->
  List.Forall
    (fun header =>
       List.Forall (fun v => plain_text v = true /\ not_nan_cell v = true)
                   (column data header))
    headers ->
  (forall header, In header headers -> typed_number h data header = true ->
                  counted_numeric data header = true)
  /\ (List.length (List.filter (typed_number h data) headers)
      <= numericColumns (Server.calculateSummaryStats headers data))%nat.
Proof.
  intros Hl Hall.
  assert (Hstep : forall header, In header headers ->
            typed_number h data header = true -> counted_numeric data header = true).
  { intros hd Hin Ht.
    pose proof (proj1 (List.Forall_forall _ _) Hall hd Hin) as Hcol.
    assert (Hplain : List.Forall (fun v => plain_text v = true) (column data hd)).
    { eapply List.Forall_impl; [|exact Hcol]. now intros v [H _]. }
    assert (Hnan : List.Forall (fun v => not_nan_cell v = true) (column data hd)).
    { eapply List.Forall_impl; [|exact Hcol]. now intros v [_ H]. }
    assert (Hlen : Z.of_nat (List.length (column data hd)) <= max_array_length).
    { unfold column. now rewrite length_map. }
    unfold typed_number in Ht.
    destruct (ExcelUtils.detectColumnType h (column data hd)) eqn:Et;
      try discriminate.
    pose proof (number_majority h (column data hd) Hlen Et) as Hm.
    pose proof (numeric_like_kept (column data hd) Hnan) as Hk.
    rewrite (numericValues_agree _ Hplain) in Hk.
    unfold counted_numeric. rewrite above_half_of_length.
    - apply Z.ltb_lt. lia.
    - pose proof (filter_length_le is_present (column data hd)).
      unfold nonNull, max_array_length in *.
      change (2 ^ 53) with 9007199254740992. change (2 ^ 32 - 1) with 4294967295 in *.
      lia.
    - pose proof (numericValues_le (column data hd)).
      unfold max_array_length in *.
      change (2 ^ 53) with 9007199254740992. change (2 ^ 32 - 1) with 4294967295 in *.
      lia. }
  split; [exact Hstep|].
  unfold Server.calculateSummaryStats. rewrite summary_fold.
  cbn zeta. cbn [numericColumns Nat.add].
  clear Hall. induction headers as [|hd headers IH]; [simpl; lia|].
  cbn [List.filter].
  assert (IH' : (List.length (List.filter (typed_number h data) headers)
                 <= List.length (List.filter (counted_numeric data) headers))%nat).
  { apply IH. intros hd' Hin. apply Hstep. now right. }
  destruct (typed_number h data hd) eqn:Et.
  - rewrite (Hstep hd (or_introl eq_refl) Et). cbn [List.length]. lia.
  - destruct (counted_numeric data hd); cbn [List.length]; lia.
Qed.

Lemma typed_number_counted_numeric_witness :
  (List.length (List.filter (typed_number Examples.host Examples.sales_rows)
                            Examples.sales_headers)
   <= numericColumns (Server.calculateSummaryStats Examples.sales_headers
                        Examples.sales_rows))%nat.
Proof.
  destruct (typed_number_counted_numeric Examples.host Examples.sales_headers
              Examples.sales_rows) as [_ H].
  - vm_compute. discriminate.
  - repeat constructor.
  - exact H.
Defined.

End NumericColumnProps.
